(** * lab_5_scrapper/scrapper.py: configuration, crawler and page parser

    A shallow embedding of [Config], [Crawler], [HTMLParser],
    [prepare_environment] and [main] of [lab_5_scrapper/scrapper.py],
    followed by the properties of the specification that were checked
    against it and by further properties of the code.

    Conventions.
    - A Python call either returns a value or raises: [outcome A].
    - Methods that mutate [self] are written in state-passing style and
      give back the object as it is left, also when they raise.
    - The value [json.load] returns is a [json] tree.
    - The tree [BeautifulSoup(text, 'html.parser')] builds is a [node];
      the HTML tokenizer itself is a library and is not modelled, nor
      is markup that it refuses.
    - The network is an oracle [net : requests.network]: the answer to
      the request number [t] of the run, for a given address.
    - A text is held as its UTF-8 bytes, one [ascii] for each byte.
    - Line numbers are those of [lab_5_scrapper/scrapper.py]. *)

From Stdlib Require Import ZArith List String Ascii Bool Lia.
Import ListNotations.

Set Warnings "-register-all".

Local Open Scope string_scope.
Local Open Scope Z_scope.

(** ** Python values and exceptions *)

Module Py.

(** The exception classes of the module, and the built-in ones its code
    can raise. *)
Inductive exn : Type :=
| IncorrectSeedURLError
| NumberOfArticlesOutOfRangeError
| IncorrectNumberOfArticlesError
| IncorrectHeadersError
| IncorrectEncodingError
| IncorrectTimeoutError
| IncorrectVerifyError
| KeyError
| TypeError
| AttributeError
| ValueError
| RequestException.

Inductive outcome (A : Type) : Type :=
| Return (a : A)
| Raise (e : exn).

Arguments Return {A} a.
Arguments Raise {A} e.

Definition bind {A B : Type} (c : outcome A) (k : A -> outcome B) : outcome B :=
  match c with
  | Return a => k a
  | Raise e => Raise e
  end.

(** What [json.load] produces.  A float keeps only its literal: no
    arithmetic is ever done on it.  A dict is the list of its items. *)
Inductive json : Type :=
| JNull
| JBool (b : bool)
| JInt (z : Z)
| JFloat (literal : string)
| JStr (s : string)
| JList (items : list json)
| JDict (items : list (string * json)).

(** [d.get(key)] on the items of a dict (their keys are distinct). *)
Fixpoint dict_get {V : Type} (items : list (string * V)) (key : string) : option V :=
  match items with
  | [] => None
  | (k, v) :: rest => if String.eqb k key then Some v else dict_get rest key
  end.

(** [len(l)], a Python integer. *)
Definition len {A : Type} (l : list A) : Z := Z.of_nat (List.length l).

(** [obj[key]] for a string key: [KeyError] on a dict without the key,
    [TypeError] on anything that is not a dict. *)
Definition getitem (obj : json) (key : string) : outcome json :=
  match obj with
  | JDict items =>
      match dict_get items key with
      | Some v => Return v
      | None => Raise KeyError
      end
  | _ => Raise TypeError
  end.

(** [isinstance(v, int)] together with the integer [v] then is: [bool]
    is a subclass of [int], [True] is 1 and [False] is 0. *)
Definition as_int (v : json) : option Z :=
  match v with
  | JInt z => Some z
  | JBool true => Some 1
  | JBool false => Some 0
  | _ => None
  end.

Definition is_list (v : json) : bool :=
  match v with JList _ => true | _ => false end.
Definition is_dict (v : json) : bool :=
  match v with JDict _ => true | _ => false end.
Definition is_str (v : json) : bool :=
  match v with JStr _ => true | _ => false end.
Definition is_bool (v : json) : bool :=
  match v with JBool _ => true | _ => false end.

(** [s.startswith(p)], written so that the rest of [s] is at hand. *)
Fixpoint strip_prefix (p s : string) : option string :=
  match p with
  | EmptyString => Some s
  | String c p' =>
      match s with
      | EmptyString => None
      | String d s' => if Ascii.eqb c d then strip_prefix p' s' else None
      end
  end.

Definition startswith (s p : string) : bool :=
  match strip_prefix p s with Some _ => true | None => false end.

End Py.

Import Py.

Notation "x <- c ;; k" := (bind c (fun x => k))
  (at level 61, c at next level, right associativity).

(** ** class Config *)

Module Config.

(** Modelled from the spec: [ConfigDTO] of [core_utils.config_dto], which
    is not part of the sources; a plain holder of the seven fields that
    [_extract_config_content] passes to it, typed as they are once
    validation has passed. *)
Record ConfigDTO : Type := {
  seed_urls : list string;
  total_articles : Z;
  headers : list (string * json);
  encoding : string;
  timeout : Z;
  should_verify_certificate : bool;
  headless_mode : bool
}.

(** [re.match(r'https?://(www.)?', s)]: [http], an optional [s], [://],
    then the optional group.  The group is tried and, where it does not
    fit, skipped: whatever follows [://], there is a match. *)
Definition re_match_www (s : string) : bool :=
  match strip_prefix "www" s with
  | Some (String c _) => negb (Ascii.eqb c "010"%char)
  | _ => false
  end.

Definition re_match_after_scheme (s : string) : bool :=
  match strip_prefix "://" s with
  | Some rest => if re_match_www rest then true else true
  | None => false
  end.

Definition re_match_seed (s : string) : bool :=
  match strip_prefix "http" s with
  | Some rest =>
      match strip_prefix "s" rest with
      | Some rest' => re_match_after_scheme rest' || re_match_after_scheme rest
      | None => re_match_after_scheme rest
      end
  | None => false
  end.

(** [all(re.match(..., seed_url) for seed_url in seed_urls)]: the
    generator stops at the first address without a match; [re.match]
    raises [TypeError] on anything but a string. *)
Fixpoint all_match (urls : list json) : outcome bool :=
  match urls with
  | [] => Return true
  | JStr s :: rest => if re_match_seed s then all_match rest else Return false
  | _ :: _ => Raise TypeError
  end.

(** Lines 103-108. *)
Definition check_seed_urls (config : json) : outcome unit :=
  v <- getitem config "seed_urls" ;;
  if negb (is_list v) then Raise IncorrectSeedURLError else
  v <- getitem config "seed_urls" ;;
  match v with
  | JList urls =>
      ok <- all_match urls ;;
      if ok then Return tt else Raise IncorrectSeedURLError
  | _ => Raise IncorrectSeedURLError
  end.

(** Lines 110-115. *)
Definition check_total_articles (config : json) : outcome unit :=
  v <- getitem config "total_articles_to_find_and_parse" ;;
  match as_int v with
  | None => Raise IncorrectNumberOfArticlesError
  | Some n =>
      if n <=? 0 then Raise IncorrectNumberOfArticlesError else
      if negb ((1 <? n) && (n <=? 150)) then Raise NumberOfArticlesOutOfRangeError
      else Return tt
  end.

(** Lines 117-124. *)
Definition check_headers (config : json) : outcome unit :=
  v <- getitem config "headers" ;;
  if negb (is_dict v) then Raise IncorrectHeadersError else Return tt.

Definition check_encoding (config : json) : outcome unit :=
  v <- getitem config "encoding" ;;
  if negb (is_str v) then Raise IncorrectEncodingError else Return tt.

Definition check_timeout (config : json) : outcome unit :=
  v <- getitem config "timeout" ;;
  match as_int v with
  | None => Raise IncorrectTimeoutError
  | Some n =>
      if negb ((0 <? n) && (n <? 60)) then Raise IncorrectTimeoutError
      else Return tt
  end.

(** Lines 126-128.  [or] is lazy: [headless_mode] is only read when
    [should_verify_certificate] is a boolean. *)
Definition check_flags (config : json) : outcome unit :=
  v <- getitem config "should_verify_certificate" ;;
  if negb (is_bool v) then Raise IncorrectVerifyError else
  h <- getitem config "headless_mode" ;;
  if negb (is_bool h) then Raise IncorrectVerifyError else Return tt.

(** [Config._validate_config_content] (lines 96-128); [config] is the
    document [json.load] read from [path_to_config]. *)
Definition _validate_config_content (config : json) : outcome unit :=
  _ <- check_seed_urls config ;;
  _ <- check_total_articles config ;;
  _ <- check_headers config ;;
  _ <- check_encoding config ;;
  _ <- check_timeout config ;;
  check_flags config.

(** The conversions to the field types; on a validated document none
    of them raises (see [init_after_validation]). *)
Fixpoint to_str_list (l : list json) : outcome (list string) :=
  match l with
  | [] => Return []
  | JStr s :: rest => r <- to_str_list rest ;; Return (s :: r)
  | _ :: _ => Raise TypeError
  end.

Definition to_seed_urls (v : json) : outcome (list string) :=
  match v with JList l => to_str_list l | _ => Raise TypeError end.
Definition to_int (v : json) : outcome Z :=
  match as_int v with Some n => Return n | None => Raise TypeError end.
Definition to_dict (v : json) : outcome (list (string * json)) :=
  match v with JDict d => Return d | _ => Raise TypeError end.
Definition to_str (v : json) : outcome string :=
  match v with JStr s => Return s | _ => Raise TypeError end.
Definition to_bool (v : json) : outcome bool :=
  match v with JBool b => Return b | _ => Raise TypeError end.

(** [Config._extract_config_content] (lines 75-94). *)
Definition _extract_config_content (config : json) : outcome ConfigDTO :=
  a <- getitem config "seed_urls" ;;
  b <- getitem config "total_articles_to_find_and_parse" ;;
  c <- getitem config "headers" ;;
  d <- getitem config "encoding" ;;
  e <- getitem config "timeout" ;;
  f <- getitem config "should_verify_certificate" ;;
  g <- getitem config "headless_mode" ;;
  a' <- to_seed_urls a ;;
  b' <- to_int b ;;
  c' <- to_dict c ;;
  d' <- to_str d ;;
  e' <- to_int e ;;
  f' <- to_bool f ;;
  g' <- to_bool g ;;
  Return {| seed_urls := a'; total_articles := b'; headers := c';
            encoding := d'; timeout := e';
            should_verify_certificate := f'; headless_mode := g' |}.

(** The object [Config(path)] builds (lines 55-73): the fields copied
    from the DTO. *)
Record t : Type := {
  _seed_urls : list string;
  _num_articles : Z;
  _headers : list (string * json);
  _encoding : string;
  _timeout : Z;
  _should_verify_certificate : bool;
  _headless_mode : bool
}.

Definition __init__ (config : json) : outcome t :=
  _ <- _validate_config_content config ;;
  config_dto <- _extract_config_content config ;;
  Return {| _seed_urls := seed_urls config_dto;
            _num_articles := total_articles config_dto;
            _headers := headers config_dto;
            _encoding := encoding config_dto;
            _timeout := timeout config_dto;
            _should_verify_certificate := should_verify_certificate config_dto;
            _headless_mode := headless_mode config_dto |}.

Definition get_seed_urls (self : t) : list string := _seed_urls self.
Definition get_num_articles (self : t) : Z := _num_articles self.
Definition get_headers (self : t) : list (string * json) := _headers self.
Definition get_encoding (self : t) : string := _encoding self.
Definition get_timeout (self : t) : Z := _timeout self.
Definition get_verify_certificate (self : t) : bool := _should_verify_certificate self.
Definition get_headless_mode (self : t) : bool := _headless_mode self.

End Config.

(** ** The tree built by BeautifulSoup, and the searches the code uses *)

Module bs4.

(** A tag carries its name, the tokens of its [class] attribute (bs4
    keeps [class] as a list), its other attributes and its children.
    The [BeautifulSoup] object is itself a tag, named [[document]]. *)
Inductive node : Type :=
| NavigableString (s : string)
| Tag (name : string) (class_ : list string)
      (attrs : list (string * string)) (contents : list node).

(** All nodes below [n], in document order. *)
Fixpoint descendants (n : node) : list node :=
  match n with
  | NavigableString _ => []
  | Tag _ _ _ contents => flat_map (fun c => c :: descendants c) contents
  end.

Definition has_name (name : string) (n : node) : bool :=
  match n with
  | Tag nm _ _ _ => String.eqb nm name
  | NavigableString _ => false
  end.

(** [class_=c]: one of the tokens is [c], or the tokens joined by a
    space are [c]. *)
Definition has_class (c : string) (n : node) : bool :=
  match n with
  | Tag _ cls _ _ =>
      existsb (String.eqb c) cls || String.eqb (String.concat " " cls) c
  | NavigableString _ => false
  end.

Definition find_all (p : node -> bool) (n : node) : list node :=
  filter p (descendants n).

(** [find] is the first result of [find_all], or [None]. *)
Definition find (p : node -> bool) (n : node) : option node :=
  hd_error (find_all p n).

(** [n.text]: the strings below [n], concatenated. *)
Fixpoint text (n : node) : string :=
  match n with
  | NavigableString s => s
  | Tag _ _ _ contents => String.concat "" (map text contents)
  end.

(** [tag.get(key)] for a single-valued attribute. *)
Definition get (n : node) (key : string) : option string :=
  match n with
  | Tag _ _ attrs _ => dict_get attrs key
  | NavigableString _ => None
  end.

End bs4.

(** ** requests, as far as [make_request] uses it *)

Module requests.

(** A response: [ok], and [text] held as the tree that
    [BeautifulSoup(response.text, 'html.parser')] builds from it.  A
    response whose markup the parser refuses has no tree and is not
    among these values: nothing here tells how [BeautifulSoup] fails. *)
Record Response : Type := {
  ok : bool;
  soup : bs4.node
}.

(** [requests.get(url, headers, timeout, verify)] for the request
    number [t] of the run. *)
Definition network : Type :=
  nat -> string -> list (string * json) -> Z -> bool -> outcome Response.

End requests.

(** [make_request] (lines 194-211): the pause it takes first has no
    effect but the time it costs.  [t] counts the requests made so far. *)
Definition make_request (net : requests.network) (t : nat)
    (url : string) (config : Config.t) : outcome requests.Response :=
  net t url (Config.get_headers config) (Config.get_timeout config)
      (Config.get_verify_certificate config).

(** ** class Crawler *)

Module Crawler.

(** [urls] holds what [find_articles] appends: strings, and [None]
    where [_extract_url] fell off its end. *)
Record t : Type := {
  urls : list (option string);
  config : Config.t;
  url_pattern : string
}.

Definition __init__ (config : Config.t) : t :=
  {| urls := []; config := config; url_pattern := "https://www.comnews.ru/" |}.

Definition append (self : t) (x : option string) : t :=
  {| urls := urls self ++ [x]; config := config self;
     url_pattern := url_pattern self |}.

(** [x in l] for a list of strings and [None]s. *)
Definition opt_eqb (x y : option string) : bool :=
  match x, y with
  | Some a, Some b => String.eqb a b
  | None, None => true
  | _, _ => false
  end.

Definition contains (l : list (option string)) (x : option string) : bool :=
  existsb (opt_eqb x) l.

Definition get_search_urls (self : t) : list string :=
  Config.get_seed_urls (config self).

(** The [for link in links.find_all('a')] loop (lines 244-249); falling
    off its end, the method returns [None]. *)
Fixpoint scan_links (self : t) (links : list bs4.node)
    : outcome (option string) * t :=
  match links with
  | [] => (Return None, self)
  | link :: rest =>
      match bs4.get link "href" with
      | None => (Raise AttributeError, self)
      | Some href =>
          if startswith href "/content/" then
            let url := url_pattern self ++ href in
            if negb (contains (urls self) (Some url))
            then (Return (Some url), append self (Some url))
            else scan_links self rest
          else scan_links self rest
      end
  end.

Definition is_region (n : bs4.node) : bool :=
  bs4.has_name "div" n && bs4.has_class "region region-content" n.

(** [Crawler._extract_url] (lines 232-249). *)
Definition _extract_url (self : t) (article_bs : bs4.node)
    : outcome (option string) * t :=
  match bs4.find is_region article_bs with
  | None => (Raise AttributeError, self)
  | Some links => scan_links self (bs4.find_all (bs4.has_name "a") links)
  end.

(** The [for seed_url in seed_urls] loop of one pass (lines 260-273);
    [break] ends it. *)
Fixpoint for_seed_urls (net : requests.network) (n_len : Z)
    (seed_urls : list string) (self : t) (clock : nat)
    : outcome unit * t * nat :=
  match seed_urls with
  | [] => (Return tt, self, clock)
  | seed_url :: rest =>
      match make_request net clock seed_url (config self) with
      | Raise e => (Raise e, self, S clock)
      | Return response =>
          if negb (requests.ok response)
          then for_seed_urls net n_len rest self (S clock)
          else
            match _extract_url self (requests.soup response) with
            | (Raise e, self1) => (Raise e, self1, S clock)
            | (Return new_url, self1) =>
                if len (urls self1) >=? n_len then (Return tt, self1, S clock)
                else
                  let self2 := append self1 new_url in
                  if len (urls self2) >=? n_len then (Return tt, self2, S clock)
                  else for_seed_urls net n_len rest self2 (S clock)
            end
      end
  end.

(** [while len(self.urls) < n_len] (line 258): [fuel] bounds the number
    of passes, and [None] says that it did not suffice. *)
Fixpoint while_loop (fuel : nat) (net : requests.network) (n_len : Z)
    (seed_urls : list string) (self : t) (clock : nat)
    : option (outcome unit * t * nat) :=
  if len (urls self) <? n_len then
    match fuel with
    | O => None
    | S fuel' =>
        match for_seed_urls net n_len seed_urls self clock with
        | (Raise e, self1, clock1) => Some (Raise e, self1, clock1)
        | (Return _, self1, clock1) =>
            while_loop fuel' net n_len seed_urls self1 clock1
        end
    end
  else Some (Return tt, self, clock).

(** [Crawler.find_articles] (lines 251-273). *)
Definition find_articles (fuel : nat) (net : requests.network)
    (self : t) (clock : nat) : option (outcome unit * t * nat) :=
  let seed_urls := get_search_urls self in
  let n_len := Config.get_num_articles (config self) in
  while_loop fuel net n_len seed_urls self clock.

End Crawler.

(** ** datetime.datetime.strptime with the format '%d.%m.%Y' *)

Module datetime.

(** The time of day of a parsed date is 00:00:00 and is left out. *)
Record t : Type := {
  year : Z;
  month : Z;
  day : Z
}.

(** A character of the class [[0-9]] of a regular expression. *)
Definition digit (c : ascii) : option Z :=
  let n := Z.of_nat (nat_of_ascii c) in
  if (48 <=? n) && (n <=? 57) then Some (n - 48) else None.

(** A text is held as its UTF-8 bytes.  [read_code_point s] is the first
    character of [s], as its code point, and the rest of [s]; there is
    none when [s] is empty, and none when the bytes [s] starts with are
    not the UTF-8 form of a character. *)
Definition byte (c : ascii) : Z := Z.of_nat (nat_of_ascii c).

Definition continuation (c : ascii) : option Z :=
  let b := byte c in
  if (128 <=? b) && (b <? 192) then Some (b - 128) else None.

Definition read_code_point (s : string) : option (Z * string) :=
  match s with
  | EmptyString => None
  | String c0 s1 =>
      let b0 := byte c0 in
      if b0 <? 128 then Some (b0, s1)
      else if b0 <? 192 then None
      else if b0 <? 224 then
        match s1 with
        | String c1 s2 =>
            match continuation c1 with
            | Some x1 =>
                let cp := (b0 - 192) * 64 + x1 in
                if 128 <=? cp then Some (cp, s2) else None
            | None => None
            end
        | EmptyString => None
        end
      else if b0 <? 240 then
        match s1 with
        | String c1 (String c2 s3) =>
            match continuation c1, continuation c2 with
            | Some x1, Some x2 =>
                let cp := (b0 - 224) * 4096 + x1 * 64 + x2 in
                if (2048 <=? cp) && negb ((55296 <=? cp) && (cp <=? 57343))
                then Some (cp, s3) else None
            | _, _ => None
            end
        | _ => None
        end
      else if b0 <? 248 then
        match s1 with
        | String c1 (String c2 (String c3 s4)) =>
            match continuation c1, continuation c2, continuation c3 with
            | Some x1, Some x2, Some x3 =>
                let cp := (b0 - 240) * 262144 + x1 * 4096 + x2 * 64 + x3 in
                if (65536 <=? cp) && (cp <=? 1114111)
                then Some (cp, s4) else None
            | _, _, _ => None
            end
        | _ => None
        end
      else None
  end.

(** The decimal digits of Unicode (category Nd) come in runs of ten, from
    the digit zero of a script to its digit nine: the code points of the
    digits zero, as the Unicode database 14.0.0 of CPython 3.11 has
    them (ASCII, Arabic-Indic, Devanagari, ..., full-width, ...). *)
Definition decimal_zeros : list Z :=
  [48; 1632; 1776; 1984; 2406; 2534; 2662; 2790; 2918; 3046; 3174; 3302;
   3430; 3558; 3664; 3792; 3872; 4160; 4240; 6112; 6160; 6470; 6608; 6784;
   6800; 6992; 7088; 7232; 7248; 42528; 43216; 43264; 43472; 43504; 43600;
   44016; 65296; 66720; 68912; 69734; 69872; 69942; 70096; 70384; 70736;
   70864; 71248; 71360; 71472; 71904; 72016; 72784; 73040; 73120; 92768;
   92864; 93008; 120782; 120792; 120802; 120812; 120822; 123200; 123632;
   125264; 130032].

(** The value [int] gives a character that is a decimal digit. *)
Definition decimal_value (cp : Z) : option Z :=
  match find (fun zero => (zero <=? cp) && (cp <=? zero + 9)) decimal_zeros with
  | Some zero => Some (cp - zero)
  | None => None
  end.

(** The ways a piece of the pattern can match at the start of [s]: each
    with the number read and the rest of [s], in the order the regular
    expression engine tries them. *)

(** [\d], which on a str matches a decimal digit of any script. *)
Definition decimal (s : string) : list (Z * string) :=
  match read_code_point s with
  | Some (cp, rest) =>
      match decimal_value cp with
      | Some x => [(x, rest)]
      | None => []
      end
  | None => []
  end.

(** Two characters of classes such as [[0-1]]. *)
Definition two_digits (p : Z -> Z -> bool) (s : string) : list (Z * string) :=
  match s with
  | String a (String b rest) =>
      match digit a, digit b with
      | Some x, Some y => if p x y then [(10 * x + y, rest)] else []
      | _, _ => []
      end
  | _ => []
  end.

(** One character of a class such as [[1-9]]. *)
Definition one_digit (p : Z -> bool) (s : string) : list (Z * string) :=
  match s with
  | String a rest =>
      match digit a with
      | Some x => if p x then [(x, rest)] else []
      | None => []
      end
  | EmptyString => []
  end.

(** A character of a class, then [\d]. *)
Definition digit_then_decimal (p : Z -> bool) (s : string) : list (Z * string) :=
  flat_map (fun xr : Z * string =>
    map (fun yr : Z * string => (10 * fst xr + fst yr, snd yr))
        (decimal (snd xr)))
    (one_digit p s).

Definition literal (c : ascii) (s : string) : list string :=
  match s with
  | String a rest => if Ascii.eqb a c then [rest] else []
  | EmptyString => []
  end.

(** [%d] is [3[0-1]|[1-2]\d|0[1-9]|[1-9]| [1-9]]. *)
Definition re_d (s : string) : list (Z * string) :=
  two_digits (fun x y => (x =? 3) && (y <=? 1)) s
  ++ digit_then_decimal (fun x => (1 <=? x) && (x <=? 2)) s
  ++ two_digits (fun x y => (x =? 0) && (1 <=? y)) s
  ++ one_digit (fun x => 1 <=? x) s
  ++ flat_map (one_digit (fun x => 1 <=? x)) (literal " " s).

(** [%m] is [1[0-2]|0[1-9]|[1-9]]. *)
Definition re_m (s : string) : list (Z * string) :=
  two_digits (fun x y => (x =? 1) && (y <=? 2)) s
  ++ two_digits (fun x y => (x =? 0) && (1 <=? y)) s
  ++ one_digit (fun x => 1 <=? x) s.

(** [%Y] is [\d\d\d\d]. *)
Definition re_Y (s : string) : list (Z * string) :=
  flat_map (fun a : Z * string =>
    flat_map (fun b : Z * string =>
      flat_map (fun c : Z * string =>
        map (fun d : Z * string =>
               (1000 * fst a + 100 * fst b + 10 * fst c + fst d, snd d))
            (decimal (snd c)))
        (decimal (snd b)))
      (decimal (snd a)))
    (decimal s).

(** All matches of [%d\.%m\.%Y] at the start of [s], in the order of
    backtracking; [re.match] gives the first. *)
Definition re_dmY (s : string) : list (Z * Z * Z * string) :=
  flat_map (fun dr : Z * string =>
    flat_map (fun r1 =>
      flat_map (fun mr : Z * string =>
        flat_map (fun r2 =>
          map (fun yr : Z * string => (fst dr, fst mr, fst yr, snd yr))
              (re_Y r2))
          (literal "." (snd mr)))
        (re_m r1))
      (literal "." (snd dr)))
    (re_d s).

Definition is_leap (y : Z) : bool :=
  (y mod 4 =? 0) && (negb (y mod 100 =? 0) || (y mod 400 =? 0)).

Definition days_in_month (y m : Z) : Z :=
  if m =? 2 then (if is_leap y then 29 else 28)
  else if (m =? 4) || (m =? 6) || (m =? 9) || (m =? 11) then 30
  else 31.

(** [strptime(s, '%d.%m.%Y')]: [ValueError] when the pattern does not
    match, when text is left over after the match, and when the numbers
    read are not a date (year 0, 31.04, 29.02 outside a leap year). *)
Definition strptime_dmY (s : string) : outcome t :=
  match re_dmY s with
  | [] => Raise ValueError
  | (d, m, y, rest) :: _ =>
      if negb (String.eqb rest "") then Raise ValueError
      else if (1 <=? y) && (d <=? days_in_month y m)
      then Return {| year := y; month := m; day := d |}
      else Raise ValueError
  end.

End datetime.

(** ** The article record *)

Module Article.

(** Modelled from the spec: [Article] of [core_utils.article.article],
    which is not part of the sources; the record of the specification
    (url, sequence id, title, body text, optional date, topics,
    authors), built from its url and id with every other field empty. *)
Record t : Type := {
  url : string;
  article_id : Z;
  title : string;
  date : option datetime.t;
  author : list string;
  topics : list string;
  text : string
}.

Definition __init__ (url : string) (article_id : Z) : t :=
  {| url := url; article_id := article_id; title := ""; date := None;
     author := []; topics := []; text := "" |}.

Definition set_title (a : t) (v : string) : t :=
  {| url := url a; article_id := article_id a; title := v; date := date a;
     author := author a; topics := topics a; text := text a |}.
Definition set_date (a : t) (v : option datetime.t) : t :=
  {| url := url a; article_id := article_id a; title := title a; date := v;
     author := author a; topics := topics a; text := text a |}.
Definition set_author (a : t) (v : list string) : t :=
  {| url := url a; article_id := article_id a; title := title a; date := date a;
     author := v; topics := topics a; text := text a |}.
Definition set_topics (a : t) (v : list string) : t :=
  {| url := url a; article_id := article_id a; title := title a; date := date a;
     author := author a; topics := v; text := text a |}.
Definition set_text (a : t) (v : string) : t :=
  {| url := url a; article_id := article_id a; title := title a; date := date a;
     author := author a; topics := topics a; text := v |}.

End Article.

(** ** class HTMLParser *)

Module HTMLParser.

Record t : Type := {
  full_url : string;
  article_id : Z;
  config : Config.t;
  article : Article.t
}.

Definition __init__ (full_url : string) (article_id : Z) (config : Config.t) : t :=
  {| full_url := full_url; article_id := article_id; config := config;
     article := Article.__init__ full_url article_id |}.

(** [self.article.<field> = ...] and [self.article.<field>.append(...)]. *)
Definition update (self : t) (f : Article.t -> Article.t) : t :=
  {| full_url := full_url self; article_id := article_id self;
     config := config self; article := f (article self) |}.

(** [HTMLParser._fill_article_with_text] (lines 308-319). *)
Definition _fill_article_with_text (self : t) (article_soup : bs4.node) : t :=
  let text_paragraphs :=
    bs4.find_all (bs4.has_class "field field-text full-html field-name-body")
                 article_soup in
  let texts := map bs4.text text_paragraphs in
  update self (fun a => Article.set_text a (String.concat "" texts)).

(** [HTMLParser.unify_date_format] (lines 351-361). *)
Definition unify_date_format (date_str : string) : outcome datetime.t :=
  datetime.strptime_dmY date_str.

(** [s.split(' ')]: cut at every single space; never an empty list. *)
Fixpoint split_space (s : string) : list string :=
  match s with
  | EmptyString => [EmptyString]
  | String c s' =>
      if Ascii.eqb c " "%char then EmptyString :: split_space s'
      else match split_space s' with
           | w :: ws => String c w :: ws
           | [] => [String c EmptyString]
           end
  end.

(** The steps of [_fill_article_with_meta_information]: the title (line
    328), the date (330-332), the topics (334-340) and the authors
    (342-349).  A step that raises leaves the parser as it then is. *)
Definition fill_title (self : t) (article_soup : bs4.node) : outcome unit * t :=
  match bs4.find (bs4.has_name "h1") article_soup with
  | None => (Raise AttributeError, self)
  | Some h1 => (Return tt, update self (fun a => Article.set_title a (bs4.text h1)))
  end.

Definition fill_date (self : t) (article_soup : bs4.node) : outcome unit * t :=
  match bs4.find (bs4.has_class "field field-text field-name-date") article_soup with
  | Some date_str =>
      match unify_date_format (bs4.text date_str) with
      | Return d => (Return tt, update self (fun a => Article.set_date a (Some d)))
      | Raise e => (Raise e, self)
      end
  | None => (Return tt, self)
  end.

Fixpoint for_topics (self : t) (topics : list bs4.node) : outcome unit * t :=
  match topics with
  | [] => (Return tt, self)
  | topic :: rest =>
      match bs4.find (bs4.has_name "a") topic with
      | None => (Raise AttributeError, self)
      | Some a =>
          let tag := bs4.text a in
          for_topics
            (update self (fun r => Article.set_topics r (Article.topics r ++ [tag])))
            rest
      end
  end.

Definition fill_topics (self : t) (article_soup : bs4.node) : outcome unit * t :=
  let topics := bs4.find_all (bs4.has_class "tags") article_soup in
  match topics with
  | _ :: _ => for_topics self topics
  | [] =>
      (Return tt,
       update self (fun r => Article.set_topics r (Article.topics r ++ ["NOT FOUND"])))
  end.

Fixpoint for_authors (self : t) (authors : list bs4.node) : outcome unit * t :=
  match authors with
  | [] => (Return tt, self)
  | author :: rest =>
      match bs4.find (bs4.has_name "span") author with
      | None => (Raise AttributeError, self)
      | Some span =>
          let tmp := last (split_space (bs4.text span)) "" in
          for_authors
            (update self (fun r => Article.set_author r (Article.author r ++ [tmp])))
            rest
      end
  end.

Definition fill_authors (self : t) (article_soup : bs4.node) : outcome unit * t :=
  let self := update self (fun r => Article.set_author r []) in
  let authors :=
    bs4.find_all
      (bs4.has_class "field field-text field-multiple person field-name-authors")
      article_soup in
  match authors with
  | _ :: _ => for_authors self authors
  | [] =>
      (Return tt,
       update self (fun r => Article.set_author r (Article.author r ++ ["NOT FOUND"])))
  end.

Definition and_then (r : outcome unit * t) (k : t -> outcome unit * t)
    : outcome unit * t :=
  match r with
  | (Return _, self) => k self
  | (Raise e, self) => (Raise e, self)
  end.

(** [HTMLParser._fill_article_with_meta_information] (lines 321-349). *)
Definition _fill_article_with_meta_information (self : t) (article_soup : bs4.node)
    : outcome unit * t :=
  and_then (fill_title self article_soup) (fun self =>
  and_then (fill_date self article_soup) (fun self =>
  and_then (fill_topics self article_soup) (fun self =>
  fill_authors self article_soup))).

(** [HTMLParser.parse] (lines 363-376); it makes the request number
    [clock] of the run. *)
Definition parse (net : requests.network) (self : t) (clock : nat)
    : outcome Article.t * t :=
  match make_request net clock (full_url self) (config self) with
  | Raise e => (Raise e, self)
  | Return response =>
      if requests.ok response then
        let article_bs := requests.soup response in
        let self := _fill_article_with_text self article_bs in
        match _fill_article_with_meta_information self article_bs with
        | (Return _, self) => (Return (article self), self)
        | (Raise e, self) => (Raise e, self)
        end
      else (Return (article self), self)
  end.

End HTMLParser.

(** ** Statements of the specification, and concrete inputs *)

Module Spec.

(** The scheme/host pattern of the data model, [http(s)://(www.)?...]:
    the address starts with [http://] or with [https://]. *)
Definition scheme_host_pattern (s : string) : bool :=
  startswith s "http://" || startswith s "https://".

(** The rules of [_validate_config_content] that follow the one on the
    number of articles. *)
Definition later_rules (config : json) : outcome unit :=
  _ <- Config.check_headers config ;;
  _ <- Config.check_encoding config ;;
  _ <- Config.check_timeout config ;;
  Config.check_flags config.

(** An anchor "whose link target starts with the article-path prefix and
    is not already in the discovered set". *)
Definition new_article_link (self : Crawler.t) (link : bs4.node) : bool :=
  match bs4.get link "href" with
  | Some href =>
      startswith href "/content/"
      && negb (Crawler.contains (Crawler.urls self)
                 (Some (Crawler.url_pattern self ++ href)))
  | None => false
  end.

Definition has_href (link : bs4.node) : bool :=
  match bs4.get link "href" with Some _ => true | None => false end.

(** The stagnant situation: every fetch of a seed page succeeds, and
    the content region of the page has no new article link (and no
    anchor on which the scan would raise). *)
Definition nothing_new (self : Crawler.t) (links : list bs4.node) : bool :=
  forallb (fun l => has_href l && negb (new_article_link self l)) links.

(** [self] after [k] times [self.urls.append(None)]. *)
Definition padded (self : Crawler.t) (k : nat) : Crawler.t :=
  Nat.iter k (fun s => Crawler.append s None) self.

(** The anchors of the content region of a page, in document order. *)
Definition region_anchors (page : bs4.node) : option (list bs4.node) :=
  match bs4.find Crawler.is_region page with
  | Some region => Some (bs4.find_all (bs4.has_name "a") region)
  | None => None
  end.

Definition stagnant (net : requests.network) (seed_urls : list string)
    (self : Crawler.t) : Prop :=
  forall t url, In url seed_urls ->
    exists response links,
      make_request net t url (Crawler.config self) = Return response
      /\ requests.ok response = true
      /\ region_anchors (requests.soup response) = Some links
      /\ nothing_new self links = true.

(** The first node of a page, in document order, that satisfies [p];
    and a page without any. *)
Definition first_in_document (p : bs4.node -> bool) (page h : bs4.node) : Prop :=
  exists before after,
    bs4.descendants page = (before ++ h :: after)%list
    /\ p h = true
    /\ forallb (fun x => negb (p x)) before = true.

Definition none_in_document (p : bs4.node -> bool) (page : bs4.node) : Prop :=
  forallb (fun x => negb (p x)) (bs4.descendants page) = true.

(** A heading element of HTML: [h1] to [h6]. *)
Definition is_heading (n : bs4.node) : bool :=
  existsb (fun name => bs4.has_name name n) ["h1"; "h2"; "h3"; "h4"; "h5"; "h6"].









(** The title and date steps of the extraction go through on a page:
    there is an [h1], and the date label, if there is one, parses. *)
Definition date_label : bs4.node -> bool :=
  bs4.has_class "field field-text field-name-date".

Definition title_and_date_ok (page : bs4.node) : Prop :=
  (exists h, first_in_document (bs4.has_name "h1") page h)
  /\ forall label, first_in_document date_label page label ->
       exists d, HTMLParser.unify_date_format (bs4.text label) = Return d.

Definition tag_containers (page : bs4.node) : list bs4.node :=
  bs4.find_all (bs4.has_class "tags") page.

Definition author_containers (page : bs4.node) : list bs4.node :=
  bs4.find_all
    (bs4.has_class "field field-text field-multiple person field-name-authors")
    page.

(** Each container of the list has a first element named [name] below
    it, and [found] lists these elements. *)
Definition first_elements (name : string) (containers found : list bs4.node) : Prop :=
  Forall2 (fun c x => first_in_document (bs4.has_name name) c x) containers found.

(** A step of the extraction that leaves a field of the article as it
    is, whether it returns or raises. *)
Definition keeps {X : Type} (field : Article.t -> X)
    (step : HTMLParser.t -> outcome unit * HTMLParser.t) : Prop :=
  forall self, field (HTMLParser.article (snd (step self)))
               = field (HTMLParser.article self).

(** A text without any space character. *)
Fixpoint no_space (s : string) : bool :=
  match s with
  | EmptyString => true
  | String c s' => negb (Ascii.eqb c " "%char) && no_space s'
  end.

(** The part of a text after its last space character; the whole text
    when it has none. *)
Fixpoint after_last_space (s : string) : string :=
  match s with
  | EmptyString => EmptyString
  | String c s' =>
      if no_space s' then (if Ascii.eqb c " "%char then s' else s)
      else after_last_space s'
  end.

(** "The last whitespace-delimited token" of a text, as [str.split()]
    cuts it: at runs of blanks, tabs and line ends. *)
Definition is_space (c : ascii) : bool :=
  let n := nat_of_ascii c in
  Nat.eqb n 32 || (Nat.leb 9 n && Nat.leb n 13).

Fixpoint split_on (p : ascii -> bool) (s : string) : list string :=
  match s with
  | EmptyString => [EmptyString]
  | String c s' =>
      if p c then EmptyString :: split_on p s'
      else match split_on p s' with
           | w :: ws => String c w :: ws
           | [] => [String c EmptyString]
           end
  end.

Definition words (s : string) : list string :=
  filter (fun w => negb (String.eqb w "")) (split_on is_space s).

Definition last_word (s : string) : string := last (words s) "".

End Spec.

Module Samples.

(** A configuration document, all fields but two filled in well. *)
Definition document (seed_urls total : json) : json :=
  JDict [("seed_urls", seed_urls);
         ("total_articles_to_find_and_parse", total);
         ("headers", JDict [("User-Agent", JStr "Mozilla/5.0")]);
         ("encoding", JStr "utf-8");
         ("timeout", JInt 5);
         ("should_verify_certificate", JBool true);
         ("headless_mode", JBool false)].

Definition seed : json := JStr "https://www.comnews.ru/news".

(** The configuration that [Config] builds from
    [document (JList [seed]) (JInt 2)]. *)
Definition config : Config.t :=
  {| Config._seed_urls := ["https://www.comnews.ru/news"];
     Config._num_articles := 2;
     Config._headers := [("User-Agent", JStr "Mozilla/5.0")];
     Config._encoding := "utf-8";
     Config._timeout := 5;
     Config._should_verify_certificate := true;
     Config._headless_mode := false |}.

(** A page: the document with the given nodes at its top. *)
Definition page (contents : list bs4.node) : bs4.node :=
  bs4.Tag "[document]" [] [] contents.

Definition region (contents : list bs4.node) : bs4.node :=
  bs4.Tag "div" ["region"; "region-content"] [] contents.

Definition anchor (href : string) : bs4.node :=
  bs4.Tag "a" [] [("href", href)] [bs4.NavigableString "read"].

Definition anchor_without_href : bs4.node :=
  bs4.Tag "a" [] [("name", "top")] [].

(** A seed page with one article link, one with no link at all, and
    one whose second anchor has no [href]. *)
Definition page_one_link : bs4.node :=
  page [region [anchor "/content/a"]].

Definition page_no_link : bs4.node :=
  page [region [bs4.Tag "p" [] [] [bs4.NavigableString "nothing new"]]].

Definition page_link_then_bare_anchor : bs4.node :=
  page [region [anchor "/content/a"; anchor_without_href]].

Definition page_bare_anchor : bs4.node :=
  page [region [anchor "/about"; anchor_without_href; anchor "/content/a"]].

(** Article pages. *)
Definition element (name : string) (class_ : list string) (contents : list bs4.node)
    : bs4.node :=
  bs4.Tag name class_ [] contents.

Definition h1 (s : string) : bs4.node :=
  element "h1" [] [bs4.NavigableString s].

Definition date_div (s : string) : bs4.node :=
  element "div" ["field"; "field-text"; "field-name-date"] [bs4.NavigableString s].

Definition tag_container (s : string) : bs4.node :=
  element "div" ["tags"] [bs4.Tag "a" [] [("href", "/tags/x")] [bs4.NavigableString s]].

Definition author_container (s : string) : bs4.node :=
  element "div" ["field"; "field-text"; "field-multiple"; "person"; "field-name-authors"]
    [element "span" [] [bs4.NavigableString s]].

Definition body (s : string) : bs4.node :=
  element "div" ["field"; "field-text"; "full-html"; "field-name-body"]
    [bs4.NavigableString s].

Definition article_page : bs4.node :=
  page [h1 "Title"; date_div "04.03.2024"; body "Text.";
        tag_container "5G"; tag_container "Telecom";
        author_container "Ivan Petrov"].

Definition article_page_plain : bs4.node :=
  page [h1 "Title"; body "Text."].

(** A page without [h1], whose only heading is an [h2]; and a page
    whose first heading is an [h2], before its [h1]. *)
Definition h2 (s : string) : bs4.node :=
  element "h2" [] [bs4.NavigableString s].

Definition article_page_no_heading : bs4.node :=
  page [element "h2" [] [bs4.NavigableString "Title"]; body "Text."].

Definition article_page_h2_first : bs4.node :=
  page [h2 "Breaking"; h1 "Title"; body "Text."].

Definition article_page_bad_date : bs4.node :=
  page [h1 "Title"; date_div "2024-03-04"; body "Text."].

(** An author whose names are separated by a tab. *)
Definition tab_separated_name : string :=
  "Ivan" ++ String "009"%char "Petrov".

Definition article_page_tab_author : bs4.node :=
  page [h1 "Title"; author_container tab_separated_name].

Definition article_url : string := "https://www.comnews.ru//content/a".

(** A network on which every request is answered, successfully, with
    the same page. *)
Definition serving (p : bs4.node) : requests.network :=
  fun _ _ _ _ _ => Return {| requests.ok := true; requests.soup := p |}.

(** A network on which every request is answered with a failure. *)
Definition failing : requests.network :=
  fun _ _ _ _ _ =>
    Return {| requests.ok := false; requests.soup := page [] |}.

(** A date whose year is written in Arabic-Indic digits (U+0660 to
    U+0669), and one whose day is. *)
Definition date_with_arabic_indic_year : string := "04.03.٢٠٢٤".
Definition date_with_arabic_indic_day : string := "٠٤.03.2024".

End Samples.

(** ** prepare_environment *)

Module os.

(** What an entry of a directory is: a regular file, a directory, a
    symbolic link (to whatever it points), or something else that is not
    a directory (a FIFO, a socket, a device). *)
Inductive kind : Type :=
| RegularFile
| Directory
| SymbolicLink
| Special.

(** What [base_path] is on disk, as far as [prepare_environment] can
    tell: nothing there ([exists()] is false; and then whether
    [mkdir(parents=True)] can make it), something that cannot be listed
    (a file), or a directory with its entries in the order in which
    [iterdir] lists them.  The process is taken to have the rights to
    list the directory and to delete from it. *)

Inductive path_state : Type :=
| Missing (can_be_made : bool)
| IsFile
| IsDir (entries : list (string * kind)).

(** How a call on the file system ends: normally, or with an [OSError]
    ([NotADirectoryError], [IsADirectoryError], [PermissionError], ...). *)
Inductive status : Type :=
| Done
| OSError.

Definition is_file (entry : string * kind) : bool :=
  match snd entry with RegularFile => true | _ => false end.

Definition is_dir (entry : string * kind) : bool :=
  match snd entry with Directory => true | _ => false end.

(** The directory once the entry [name] is gone. *)
Definition remove (name : string) (entries : list (string * kind))
    : list (string * kind) :=
  filter (fun entry => negb (String.eqb (fst entry) name)) entries.

(** [for file in base_path.iterdir(): file.unlink()] (lines 389-390):
    [todo] is the listing, made when the loop starts; [unlink] raises on
    a directory and removes anything else, a symbolic link to a
    directory included. *)
Fixpoint unlink_each (todo entries : list (string * kind))
    : status * list (string * kind) :=
  match todo with
  | [] => (Done, entries)
  | (name, Directory) :: _ => (OSError, entries)
  | (name, _) :: rest => unlink_each rest (remove name entries)
  end.

End os.

(** [prepare_environment] (lines 379-390): the outcome and what
    [base_path] is afterwards. *)
Definition prepare_environment (base_path : os.path_state)
    : os.status * os.path_state :=
  match base_path with
  | os.Missing true => (os.Done, os.IsDir [])
  | os.Missing false => (os.OSError, os.Missing false)
  | os.IsFile => (os.OSError, os.IsFile)
  | os.IsDir entries =>
      let (status, remaining) := os.unlink_each entries entries in
      (status, os.IsDir remaining)
  end.

(** ** main *)

Module Main.

(** What [main] acts on: the number of requests made, the assets
    directory as [prepare_environment] finds and leaves it, and the
    records handed over for storage.  What the writers then put into the
    directory is not part of [assets]. *)
Record world : Type := {
  requests_made : nat;
  assets : os.path_state;
  saved : list Article.t
}.

(** How [main] can fail: with an exception of the crawler and parser, or
    on the file system. *)
Inductive failure : Type :=
| Exn (e : exn)
| FileSystem.

(** Modelled from the spec: [to_raw] and [to_meta] of
    [core_utils.article.io], which are not part of the sources; the
    record is handed over for storage, once per url and in order.  The
    files they write are not modelled: [saved] is all that tells of
    them. *)
Definition store (article : Article.t) (w : world) : world :=
  {| requests_made := requests_made w; assets := assets w;
     saved := saved w ++ [article] |}.

Definition tick (w : world) : world :=
  {| requests_made := S (requests_made w); assets := assets w; saved := saved w |}.

(** [for i, url in enumerate(crawler.urls, 1)] (lines 402-406).  For the
    entry [None], [requests.get] refuses the url before any request is
    made ([MissingSchema], a [RequestException]). *)
Fixpoint for_urls (net : requests.network) (conf : Config.t) (i : Z)
    (urls : list (option string)) (w : world) : option failure * world :=
  match urls with
  | [] => (None, w)
  | None :: _ => (Some (Exn RequestException), w)
  | Some url :: rest =>
      let parser := HTMLParser.__init__ url i conf in
      match HTMLParser.parse net parser (requests_made w) with
      | (Return article, _) => for_urls net conf (i + 1) rest (store article (tick w))
      | (Raise e, _) => (Some (Exn e), tick w)
      end
  end.

(** [main] (lines 393-406), from the document read at
    [CRAWLER_CONFIG_PATH]; [None] when [fuel] passes of the crawler were
    not enough. *)
Definition main (fuel : nat) (net : requests.network) (document : json) (w : world)
    : option (option failure * world) :=
  match Config.__init__ document with
  | Raise e => Some (Some (Exn e), w)
  | Return conf =>
      match Crawler.find_articles fuel net (Crawler.__init__ conf) (requests_made w) with
      | None => None
      | Some (Raise e, _, clock) =>
          Some (Some (Exn e),
                {| requests_made := clock; assets := assets w; saved := saved w |})
      | Some (Return _, crawler, clock) =>
          match prepare_environment (assets w) with
          | (os.OSError, remaining) =>
              Some (Some FileSystem,
                    {| requests_made := clock; assets := remaining; saved := saved w |})
          | (os.Done, remaining) =>
              Some (for_urls net conf 1 (Crawler.urls crawler)
                      {| requests_made := clock; assets := remaining;
                         saved := saved w |})
          end
      end
  end.

End Main.

(** ** Further statements and inputs *)

Module Shape.

(** A configuration document of the expected shape: a dict whose seven
    fields are a list of addresses of the scheme/host pattern, an integer
    in (1, 150], a dict, a string, an integer in (0, 60) and two
    booleans.  An integer is what [isinstance(v, int)] takes for one. *)
Definition well_formed (config : json) : Prop :=
  (exists urls, getitem config "seed_urls" = Return (JList (map JStr urls))
      /\ Forall (fun s => Spec.scheme_host_pattern s = true) urls)
  /\ (exists v n, getitem config "total_articles_to_find_and_parse" = Return v
      /\ as_int v = Some n /\ 1 < n <= 150)
  /\ (exists h, getitem config "headers" = Return (JDict h))
  /\ (exists e, getitem config "encoding" = Return (JStr e))
  /\ (exists v t, getitem config "timeout" = Return v
      /\ as_int v = Some t /\ 0 < t < 60)
  /\ (exists b, getitem config "should_verify_certificate" = Return (JBool b))
  /\ (exists b, getitem config "headless_mode" = Return (JBool b)).

(** The document and the configuration built from it agree field by
    field. *)
Definition agrees (config : json) (c : Config.t) : Prop :=
  getitem config "seed_urls" = Return (JList (map JStr (Config.get_seed_urls c)))
  /\ (exists v, getitem config "total_articles_to_find_and_parse" = Return v
      /\ as_int v = Some (Config.get_num_articles c))
  /\ getitem config "headers" = Return (JDict (Config.get_headers c))
  /\ getitem config "encoding" = Return (JStr (Config.get_encoding c))
  /\ (exists v, getitem config "timeout" = Return v
      /\ as_int v = Some (Config.get_timeout c))
  /\ getitem config "should_verify_certificate"
     = Return (JBool (Config.get_verify_certificate c))
  /\ getitem config "headless_mode" = Return (JBool (Config.get_headless_mode c)).

(** The exceptions that validation can end with: the seven of the
    module, and the two of a document that is not a dict or lacks a key. *)
Definition config_error (e : exn) : Prop :=
  In e [IncorrectSeedURLError; NumberOfArticlesOutOfRangeError;
        IncorrectNumberOfArticlesError; IncorrectHeadersError;
        IncorrectEncodingError; IncorrectTimeoutError; IncorrectVerifyError;
        KeyError; TypeError].

(** An entry of [urls] as the crawler makes them: [None], or the site
    prefix followed by a link target that starts with [/content/]. *)
Definition article_entry (pattern : string) (x : option string) : Prop :=
  match x with
  | None => True
  | Some u => exists href, u = pattern ++ href /\ startswith href "/content/" = true
  end.

(** No seed page is fetched successfully: every request is answered, and
    none of the answers is [ok]. *)
Definition all_fetches_fail (net : requests.network) (config : Config.t) : Prop :=
  forall t url, exists response,
    make_request net t url config = Return response
    /\ requests.ok response = false.

(** A step of the extraction that leaves [g] of the parser as it is,
    whether it returns or raises. *)
Definition stays {X : Type} (g : HTMLParser.t -> X)
    (step : HTMLParser.t -> outcome unit * HTMLParser.t) : Prop :=
  forall self, g (snd (step self)) = g self.

(** The elements that carry the text of the article, in document order. *)
Definition body_fragments (page : bs4.node) : list bs4.node :=
  bs4.find_all (bs4.has_class "field field-text full-html field-name-body") page.

(** A page from which every step of the extraction goes through: an
    [h1], a date label that parses if there is one, a link in each tag
    container and a [span] in each author container. *)
Definition extractable (page : bs4.node) : Prop :=
  Spec.title_and_date_ok page
  /\ (exists links, Spec.first_elements "a" (Spec.tag_containers page) links)
  /\ (exists spans, Spec.first_elements "span" (Spec.author_containers page) spans).

(** The topics and the authors that a page gives. *)
Definition topics_of (page : bs4.node) (links : list bs4.node) : list string :=
  match Spec.tag_containers page with
  | [] => ["NOT FOUND"]
  | _ :: _ => map bs4.text links
  end.

Definition authors_of (page : bs4.node) (spans : list bs4.node) : list string :=
  match Spec.author_containers page with
  | [] => ["NOT FOUND"]
  | _ :: _ => map (fun span => Spec.after_last_space (bs4.text span)) spans
  end.

(** A date of the calendar, in the range of [datetime]. *)
Definition calendar_date (dt : datetime.t) : Prop :=
  1 <= datetime.year dt <= 9999
  /\ 1 <= datetime.month dt <= 12
  /\ 1 <= datetime.day dt <= datetime.days_in_month (datetime.year dt) (datetime.month dt).

(** A date written [dd.mm.yyyy], with leading zeros. *)
Definition chr (k : Z) : ascii := ascii_of_nat (Z.to_nat (48 + k)).

Definition two_digits_text (n : Z) : string :=
  String (chr (n / 10)) (String (chr (n mod 10)) "").

Definition four_digits_text (n : Z) : string :=
  String (chr (n / 1000)) (String (chr (n / 100 mod 10))
    (String (chr (n / 10 mod 10)) (String (chr (n mod 10)) ""))).

Definition dd_mm_yyyy (dt : datetime.t) : string :=
  two_digits_text (datetime.day dt) ++ "." ++ two_digits_text (datetime.month dt)
  ++ "." ++ four_digits_text (datetime.year dt).

(** The numbers [i], [i + 1], ... that [enumerate(..., i)] gives to [n]
    items. *)
Definition ids (i : Z) (n : nat) : list Z :=
  map (fun j => i + Z.of_nat j) (seq 0 n).

End Shape.

Module Cases.

(** A document with every field given. *)
Definition document (seed_urls total headers encoding timeout verify headless : json)
    : json :=
  JDict [("seed_urls", seed_urls);
         ("total_articles_to_find_and_parse", total);
         ("headers", headers);
         ("encoding", encoding);
         ("timeout", timeout);
         ("should_verify_certificate", verify);
         ("headless_mode", headless)].

Definition good_document : json :=
  document (JList [JStr "https://www.comnews.ru/news"]) (JInt 2)
           (JDict [("User-Agent", JStr "Mozilla/5.0")]) (JStr "utf-8") (JInt 5)
           (JBool true) (JBool false).

Definition headers_as_list : json :=
  document (JList []) (JInt 2) (JList []) (JStr "utf-8") (JInt 5)
           (JBool true) (JBool true).

Definition encoding_null : json :=
  document (JList []) (JInt 2) (JDict []) JNull (JInt 5) (JBool true) (JBool true).

Definition timeout_sixty : json :=
  document (JList []) (JInt 2) (JDict []) (JStr "utf-8") (JInt 60)
           (JBool true) (JBool true).

Definition timeout_true : json :=
  document (JList []) (JInt 2) (JDict []) (JStr "utf-8") (JBool true)
           (JBool true) (JBool true).

Definition verify_one_without_headless : json :=
  JDict [("seed_urls", JList []);
         ("total_articles_to_find_and_parse", JInt 2);
         ("headers", JDict []); ("encoding", JStr "utf-8");
         ("timeout", JInt 5); ("should_verify_certificate", JInt 1)].

Definition headless_zero : json :=
  document (JList []) (JInt 2) (JDict []) (JStr "utf-8") (JInt 5)
           (JBool false) (JInt 0).

(** A seed page whose first anchors are an outside link and an article
    that is already known. *)
Definition page_three_links : bs4.node :=
  Samples.page [Samples.region [Samples.anchor "/about"; Samples.anchor "/content/a";
                                Samples.anchor "/content/b"; Samples.anchor "/content/c"]].

Definition crawler_knowing_a : Crawler.t :=
  Crawler.append (Crawler.__init__ Samples.config)
    (Some "https://www.comnews.ru//content/a").

(** The parser of [Samples.article_page] after a first [parse]. *)
Definition parsed_once : HTMLParser.t :=
  snd (HTMLParser.parse (Samples.serving Samples.article_page)
         (HTMLParser.__init__ Samples.article_url 1 Samples.config) 0).

Definition directory_with_link : os.path_state :=
  os.IsDir [("1_raw.txt", os.RegularFile); ("latest", os.SymbolicLink);
            ("queue", os.Special)].

Definition directory_with_folder : os.path_state :=
  os.IsDir [("1_raw.txt", os.RegularFile); ("1_meta.json", os.RegularFile);
            ("old", os.Directory); ("2_raw.txt", os.RegularFile)].

(** A site: the seed page under the seed url, an article page under
    every other url. *)
Definition site : requests.network :=
  fun _ url _ _ _ =>
    if String.eqb url "https://www.comnews.ru/news"
    then Return {| requests.ok := true; requests.soup := Samples.page_one_link |}
    else Return {| requests.ok := true; requests.soup := Samples.article_page |}.

Definition nothing_yet : Main.world :=
  {| Main.requests_made := 0; Main.assets := os.Missing true; Main.saved := [] |}.


End Cases.

(** * Properties *)

(** ** Config *)

Lemma strip_prefix_app (p q s : string) :
  strip_prefix (p ++ q) s =
  match strip_prefix p s with
  | Some r => strip_prefix q r
  | None => None
  end.
Proof.
  revert s; induction p as [|c p IH]; intros s; simpl; [reflexivity|].
  destruct s as [|d s]; [reflexivity|].
  destruct (Ascii.eqb c d); [apply IH | reflexivity].
Qed.

(** The regular expression of the code accepts exactly the addresses that
    start with [http://] or [https://]. *)
Lemma re_match_seed_spec (s : string) :
  Config.re_match_seed s = Spec.scheme_host_pattern s.
Proof.
  unfold Config.re_match_seed, Spec.scheme_host_pattern, startswith.
  change "http://" with ("http" ++ "://").
  change "https://" with ("http" ++ ("s" ++ "://")).
  rewrite !strip_prefix_app.
  destruct (strip_prefix "http" s) as [r|]; [|reflexivity].
  rewrite strip_prefix_app.
  unfold Config.re_match_after_scheme.
  destruct (strip_prefix "s" r) as [r'|].
  - destruct (strip_prefix "://" r'), (strip_prefix "://" r);
      repeat match goal with |- context [if ?b then _ else _] => destruct b end;
      reflexivity.
  - destruct (strip_prefix "://" r);
      repeat match goal with |- context [if ?b then _ else _] => destruct b end;
      reflexivity.
Qed.

Lemma all_match_rejects (pre : list string) (s : string) (post : list json) :
  Config.re_match_seed s = false ->
  Config.all_match (map JStr pre ++ JStr s :: post) = Return false.
Proof.
  intros Hs; induction pre as [|a pre IH]; simpl.
  - now rewrite Hs.
  - destruct (Config.re_match_seed a); [exact IH | reflexivity].
Qed.

Lemma validate_stops_at_seed_urls (config : json) (e : exn) :
  Config.check_seed_urls config = Raise e ->
  Config._validate_config_content config = Raise e.
Proof.
  intros H; unfold Config._validate_config_content; now rewrite H.
Qed.

Lemma init_stops_at_validation (config : json) (e : exn) :
  Config._validate_config_content config = Raise e ->
  Config.__init__ config = Raise e.
Proof.
  intros H; unfold Config.__init__; now rewrite H.
Qed.

(** A [seed_urls] that is not a list at all is refused as well. *)
Lemma seed_urls_not_a_list (config v : json) :
  getitem config "seed_urls" = Return v ->
  is_list v = false ->
  Config.__init__ config = Raise IncorrectSeedURLError.
Proof.
  intros Hget Hv.
  apply init_stops_at_validation, validate_stops_at_seed_urls.
  unfold Config.check_seed_urls; rewrite Hget; simpl; now rewrite Hv.
Qed.

(** C2, as the specification has it, fails
    - on the empty list: [all] of nothing is true, the document passes
      every rule and the configuration is built;
    - on a list whose mismatching string comes after a value that is not
      a string: [re.match] raises [TypeError] on that value first. *)
Lemma seed_urls_rule_counterexample :
  (getitem (Samples.document (JList []) (JInt 2)) "seed_urls" = Return (JList [])
   /\ Config._validate_config_content (Samples.document (JList []) (JInt 2)) = Return tt
   /\ exists c, Config.__init__ (Samples.document (JList []) (JInt 2)) = Return c
                /\ Config.get_seed_urls c = [])
  /\ (Spec.scheme_host_pattern "ftp://comnews.ru" = false
      /\ Config.__init__
           (Samples.document (JList [JInt 7; JStr "ftp://comnews.ru"]) (JInt 2))
         = Raise TypeError).
Proof.
  split.
  - split; [reflexivity|]. split; [reflexivity|].
    eexists; split; reflexivity.
  - split; reflexivity.
Qed.

(** C2 (amended): when [seed_urls] is a list in which a string that does
    not match the scheme/host pattern comes after strings only, validation
    raises [IncorrectSeedURLError] and so does the construction of
    [Config]: no configuration object is produced. *)
Theorem bad_seed_url_rejected
    (config : json) (pre : list string) (s : string) (post : list json) :
  getitem config "seed_urls" = Return (JList (map JStr pre ++ JStr s :: post)) ->
  Spec.scheme_host_pattern s = false ->
  Config._validate_config_content config = Raise IncorrectSeedURLError
  /\ Config.__init__ config = Raise IncorrectSeedURLError
  /\ forall c, Config.__init__ config <> Return c.
Proof.
  intros Hget Hs.
  assert (Hv : Config._validate_config_content config = Raise IncorrectSeedURLError).
  { apply validate_stops_at_seed_urls.
    unfold Config.check_seed_urls; rewrite Hget; simpl.
    rewrite all_match_rejects by (now rewrite re_match_seed_spec).
    reflexivity. }
  split; [exact Hv|].
  pose proof (init_stops_at_validation _ _ Hv) as Hi.
  split; [exact Hi|].
  intros c Hc; rewrite Hi in Hc; discriminate.
Qed.

Lemma bad_seed_url_rejected_witness :
  Config.__init__
    (Samples.document (JList [Samples.seed; JStr "ftp://comnews.ru"; JInt 7]) (JInt 2))
  = Raise IncorrectSeedURLError.
Proof.
  exact (proj1 (proj2
    (bad_seed_url_rejected
       (Samples.document (JList [Samples.seed; JStr "ftp://comnews.ru"; JInt 7]) (JInt 2))
       ["https://www.comnews.ru/news"] "ftp://comnews.ru" [JInt 7]
       eq_refl eq_refl))).
Defined.

(** C5, as the specification has it, fails
    - at 0: an integer that is not positive is refused together with the
      values of a wrong type, with [IncorrectNumberOfArticlesError],
      before the range is looked at;
    - on a document whose [seed_urls] is refused: the rules are checked
      in order, and the error is that of the seed URLs whatever the
      number of articles is. *)
Lemma total_articles_rule_counterexample :
  (Config.check_seed_urls (Samples.document (JList [Samples.seed]) (JInt 0)) = Return tt
   /\ Config._validate_config_content (Samples.document (JList [Samples.seed]) (JInt 0))
      = Raise IncorrectNumberOfArticlesError
   /\ Config._validate_config_content (Samples.document (JList [Samples.seed]) (JInt 0))
      <> Raise NumberOfArticlesOutOfRangeError)
  /\ (as_int (JStr "ten") = None
      /\ Config._validate_config_content
           (Samples.document (JStr "https://www.comnews.ru/news") (JStr "ten"))
         = Raise IncorrectSeedURLError).
Proof.
  split.
  - split; [reflexivity|]. split; [reflexivity|]. discriminate.
  - split; reflexivity.
Qed.

Lemma validate_after_seed_urls (config : json) :
  Config.check_seed_urls config = Return tt ->
  Config._validate_config_content config =
  (_ <- Config.check_total_articles config ;; Spec.later_rules config).
Proof.
  intros H; unfold Config._validate_config_content; now rewrite H.
Qed.

(** C5 (amended): on a document whose seed-URL rule has passed, with [v]
    the value of [total_articles_to_find_and_parse]:
    - [v] is not an [int] ([isinstance], for which a boolean is the
      integer 1 or 0), or is an integer [<= 0]: validation raises
      [IncorrectNumberOfArticlesError];
    - [v] is the integer 1 or an integer [> 150]: validation raises
      [NumberOfArticlesOutOfRangeError];
    - [v] is an integer in (1, 150]: the rule passes, and validation goes
      on with the rules that follow it. *)
Theorem total_articles_rule (config v : json) :
  Config.check_seed_urls config = Return tt ->
  getitem config "total_articles_to_find_and_parse" = Return v ->
  (as_int v = None ->
   Config._validate_config_content config = Raise IncorrectNumberOfArticlesError)
  /\ (forall n, as_int v = Some n -> n <= 0 ->
      Config._validate_config_content config = Raise IncorrectNumberOfArticlesError)
  /\ (forall n, as_int v = Some n -> n = 1 \/ 150 < n ->
      Config._validate_config_content config = Raise NumberOfArticlesOutOfRangeError)
  /\ (forall n, as_int v = Some n -> 1 < n <= 150 ->
      Config.check_total_articles config = Return tt
      /\ Config._validate_config_content config = Spec.later_rules config).
Proof.
  intros Hseed Hget.
  rewrite (validate_after_seed_urls _ Hseed).
  unfold Config.check_total_articles; rewrite Hget; simpl.
  split; [intros ->; reflexivity|].
  split; [|split]; intros n -> Hn.
  - destruct (Z.leb_spec n 0); [reflexivity | lia].
  - destruct (Z.leb_spec n 0); [lia|].
    destruct (Z.ltb_spec 1 n); destruct (Z.leb_spec n 150); simpl;
      try reflexivity; lia.
  - destruct (Z.leb_spec n 0); [lia|].
    destruct (Z.ltb_spec 1 n); destruct (Z.leb_spec n 150); simpl;
      try (split; reflexivity); lia.
Qed.

Lemma total_articles_rule_witness :
  Config._validate_config_content (Samples.document (JList [Samples.seed]) (JInt 151))
  = Raise NumberOfArticlesOutOfRangeError
  /\ Config._validate_config_content (Samples.document (JList [Samples.seed]) (JInt 150))
     = Spec.later_rules (Samples.document (JList [Samples.seed]) (JInt 150)).
Proof.
  split.
  - refine (proj1 (proj2 (proj2
      (total_articles_rule (Samples.document (JList [Samples.seed]) (JInt 151))
         (JInt 151) eq_refl eq_refl))) 151 eq_refl _).
    right; reflexivity.
  - refine (proj2 (proj2 (proj2 (proj2
      (total_articles_rule (Samples.document (JList [Samples.seed]) (JInt 150))
         (JInt 150) eq_refl eq_refl))) 150 eq_refl _)).
    split; [reflexivity | discriminate].
Defined.

(** *** What a configuration that was built is known to satisfy *)

Lemma bind_Return {A B : Type} (c : outcome A) (k : A -> outcome B) (b : B) :
  bind c k = Return b -> exists a, c = Return a /\ k a = Return b.
Proof. destruct c as [a|e]; simpl; [eauto | discriminate]. Qed.

Lemma all_match_strings (urls : list json) :
  Config.all_match urls = Return true ->
  exists l, Config.to_str_list urls = Return l
            /\ Forall (fun s => Spec.scheme_host_pattern s = true) l.
Proof.
  induction urls as [|v urls IH]; simpl.
  - intros _; exists []; split; [reflexivity | constructor].
  - destruct v; try discriminate.
    destruct (Config.re_match_seed s) eqn:E; [|discriminate].
    intros H; destruct (IH H) as (l & -> & Hl).
    exists (s :: l); split; [reflexivity|].
    constructor; [now rewrite <- re_match_seed_spec | exact Hl].
Qed.

(** Once validation has passed, [_extract_config_content] and the
    conversions to the field types do not raise, and the configuration
    has its invariants. *)
Lemma init_after_validation (config : json) :
  Config._validate_config_content config = Return tt ->
  exists c, Config.__init__ config = Return c
    /\ 1 < Config.get_num_articles c <= 150
    /\ Forall (fun s => Spec.scheme_host_pattern s = true) (Config.get_seed_urls c)
    /\ 0 < Config.get_timeout c < 60.
Proof.
  intros Hv; unfold Config.__init__; rewrite Hv; simpl.
  unfold Config._validate_config_content in Hv.
  apply bind_Return in Hv as ([] & Hseed & Hv).
  apply bind_Return in Hv as ([] & Htotal & Hv).
  apply bind_Return in Hv as ([] & Hheaders & Hv).
  apply bind_Return in Hv as ([] & Hencoding & Hv).
  apply bind_Return in Hv as ([] & Htimeout & Hflags).
  unfold Config.check_seed_urls in Hseed.
  apply bind_Return in Hseed as (a & Ha & Hseed).
  rewrite Ha in Hseed; simpl in Hseed.
  destruct a as [| | | | |urls|]; simpl in Hseed; try discriminate.
  apply bind_Return in Hseed as (okb & Hall & Hseed).
  destruct okb; [|discriminate].
  apply all_match_strings in Hall as (l & Hl & Hpat).
  unfold Config.check_total_articles in Htotal.
  apply bind_Return in Htotal as (b & Hb & Htotal).
  destruct (as_int b) as [n|] eqn:En; [|discriminate].
  destruct (Z.leb_spec n 0); [discriminate|].
  destruct (Z.ltb_spec 1 n); destruct (Z.leb_spec n 150); simpl in Htotal;
    try discriminate.
  unfold Config.check_headers in Hheaders.
  apply bind_Return in Hheaders as (c & Hc & Hheaders).
  destruct c as [| | | | | |h]; simpl in Hheaders; try discriminate.
  unfold Config.check_encoding in Hencoding.
  apply bind_Return in Hencoding as (d & Hd & Hencoding).
  destruct d as [| | | |enc| |]; simpl in Hencoding; try discriminate.
  unfold Config.check_timeout in Htimeout.
  apply bind_Return in Htimeout as (e & He & Htimeout).
  destruct (as_int e) as [t|] eqn:Et; [|discriminate].
  destruct (Z.ltb_spec 0 t); destruct (Z.ltb_spec t 60); simpl in Htimeout;
    try discriminate.
  unfold Config.check_flags in Hflags.
  apply bind_Return in Hflags as (f & Hf & Hflags).
  destruct f as [|vf| | | | |]; simpl in Hflags; try discriminate.
  apply bind_Return in Hflags as (g & Hg & Hflags).
  destruct g as [|vg| | | | |]; simpl in Hflags; try discriminate.
  unfold Config._extract_config_content.
  rewrite Ha, Hb, Hc, Hd, He, Hf, Hg; simpl.
  rewrite Hl; simpl.
  unfold Config.to_int; rewrite En, Et; simpl.
  eexists; split; [reflexivity|].
  unfold Config.get_num_articles, Config.get_seed_urls, Config.get_timeout; simpl.
  repeat split; auto; lia.
Qed.

Lemma built_config_invariant (config : json) (c : Config.t) :
  Config.__init__ config = Return c ->
  1 < Config.get_num_articles c <= 150
  /\ Forall (fun s => Spec.scheme_host_pattern s = true) (Config.get_seed_urls c)
  /\ 0 < Config.get_timeout c < 60.
Proof.
  intros H.
  assert (Hv : Config._validate_config_content config = Return tt).
  { unfold Config.__init__ in H.
    destruct (Config._validate_config_content config) as [[]|e];
      [reflexivity | discriminate]. }
  destruct (init_after_validation config Hv) as (c' & Hc' & Hinv).
  rewrite H in Hc'; injection Hc' as <-; exact Hinv.
Qed.

Lemma sample_config_is_built :
  Config.__init__ (Samples.document (JList [Samples.seed]) (JInt 2))
  = Return Samples.config.
Proof. reflexivity. Qed.

(** ** Crawler *)

Lemma scan_links_keeps (self : Crawler.t) (links : list bs4.node) :
  let self' := snd (Crawler.scan_links self links) in
  Crawler.config self' = Crawler.config self
  /\ Crawler.url_pattern self' = Crawler.url_pattern self
  /\ (Crawler.urls self' = Crawler.urls self
      \/ exists u, Crawler.urls self' = (Crawler.urls self ++ [Some u])%list
                   /\ Crawler.contains (Crawler.urls self) (Some u) = false).
Proof.
  induction links as [|link rest IH]; simpl.
  - auto.
  - destruct (bs4.get link "href") as [href|]; simpl; [|auto].
    destruct (startswith href "/content/"); [|exact IH].
    destruct (Crawler.contains _ _) eqn:E; simpl; [exact IH|].
    repeat split; right; eexists; split; [reflexivity | exact E].
Qed.

Lemma extract_url_keeps (self : Crawler.t) (page : bs4.node) :
  let self' := snd (Crawler._extract_url self page) in
  Crawler.config self' = Crawler.config self
  /\ Crawler.url_pattern self' = Crawler.url_pattern self
  /\ (Crawler.urls self' = Crawler.urls self
      \/ exists u, Crawler.urls self' = (Crawler.urls self ++ [Some u])%list
                   /\ Crawler.contains (Crawler.urls self) (Some u) = false).
Proof.
  unfold Crawler._extract_url.
  destruct (bs4.find Crawler.is_region page); [apply scan_links_keeps | simpl; auto].
Qed.

Lemma len_app1 {A : Type} (l : list A) (x : A) : len (l ++ [x]) = len l + 1.
Proof. unfold len; rewrite length_app; simpl; lia. Qed.

(** One pass started below the target ends at the target or below. *)
Lemma for_seed_urls_bound (net : requests.network) (n_len : Z)
    (seed_urls : list string) :
  forall (self : Crawler.t) (clock : nat),
    len (Crawler.urls self) < n_len ->
    len (Crawler.urls (snd (fst (Crawler.for_seed_urls net n_len seed_urls self clock))))
    <= n_len.
Proof.
  induction seed_urls as [|seed_url rest IH]; intros self clock Hlt; simpl; [lia|].
  destruct (make_request net clock seed_url (Crawler.config self)) as [response|e];
    simpl; [|lia].
  destruct (requests.ok response); simpl; [|now apply IH].
  pose proof (extract_url_keeps self (requests.soup response)) as Hk.
  destruct (Crawler._extract_url self (requests.soup response)) as [[new_url|e] self1];
    simpl in *.
  - assert (Hb : len (Crawler.urls self1) <= n_len).
    { destruct Hk as (_ & _ & [-> | (u & -> & _)]); [lia|]. rewrite len_app1; lia. }
    destruct (Z.geb_spec (len (Crawler.urls self1)) n_len); simpl; [lia|].
    rewrite len_app1.
    destruct (Z.geb_spec (len (Crawler.urls self1) + 1) n_len); simpl.
    + rewrite len_app1; lia.
    + apply IH; simpl; rewrite len_app1; lia.
  - destruct Hk as (_ & _ & [-> | (u & -> & _)]); [lia|]. rewrite len_app1; lia.
Qed.

Lemma while_loop_bound (net : requests.network) (n_len : Z)
    (seed_urls : list string) (fuel : nat) :
  forall (self : Crawler.t) (clock : nat) r self' clock',
    len (Crawler.urls self) <= n_len ->
    Crawler.while_loop fuel net n_len seed_urls self clock = Some (r, self', clock') ->
    len (Crawler.urls self') <= n_len.
Proof.
  induction fuel as [|fuel IH]; intros self clock r self' clock' Hle; simpl.
  - destruct (Z.ltb_spec (len (Crawler.urls self)) n_len); [discriminate|].
    intros [= _ <- _]; exact Hle.
  - destruct (Z.ltb_spec (len (Crawler.urls self)) n_len) as [Hlt|Hge].
    + pose proof (for_seed_urls_bound net n_len seed_urls self clock Hlt) as Hb.
      destruct (Crawler.for_seed_urls net n_len seed_urls self clock)
        as [[[x|e] self1] clock1]; simpl in Hb.
      * apply IH; exact Hb.
      * intros [= _ <- _]; exact Hb.
    + intros [= _ <- _]; exact Hle.
Qed.

(** Whatever the pages are, the list that [find_articles] leaves behind
    is no longer than the configured number of articles (when that number
    is not negative, as validation ensures). *)
Lemma find_articles_length_bound (fuel : nat) (net : requests.network)
    (config : Config.t) (clock : nat) r self' clock' :
  0 <= Config.get_num_articles config ->
  Crawler.find_articles fuel net (Crawler.__init__ config) clock = Some (r, self', clock') ->
  len (Crawler.urls self') <= Config.get_num_articles config.
Proof.
  intros Hn H.
  unfold Crawler.find_articles in H.
  apply (while_loop_bound _ _ _ _ _ _ _ _ _) in H; [exact H | exact Hn].
Qed.

(** C1: a seed page with the single link [/content/a] and a target of
    two.  [_extract_url] appends the address and [find_articles] appends
    what [_extract_url] returned: the list ends as twice the same
    address. *)
Theorem find_articles_appends_twice :
  exists self clock,
    Crawler.find_articles 1 (Samples.serving Samples.page_one_link)
      (Crawler.__init__ Samples.config) 0 = Some (Return tt, self, clock)
    /\ Crawler.urls self =
         [Some "https://www.comnews.ru//content/a";
          Some "https://www.comnews.ru//content/a"]
    /\ ~ NoDup (Crawler.urls self)
    /\ len (Crawler.urls self) <= Config.get_num_articles Samples.config.
Proof.
  eexists _, _; split; [reflexivity|]. split; [reflexivity|].
  split; [|discriminate].
  simpl; intros H; inversion H as [|? ? Hnotin _]; subst.
  apply Hnotin; left; reflexivity.
Qed.

(** [None] in the list does not change which addresses count as seen. *)
Lemma contains_app_None (l : list (option string)) (u : string) :
  Crawler.contains (l ++ [None]) (Some u) = Crawler.contains l (Some u).
Proof.
  unfold Crawler.contains; rewrite existsb_app; simpl.
  now rewrite !orb_false_r.
Qed.

Lemma new_article_link_append_None (self : Crawler.t) (link : bs4.node) :
  Spec.new_article_link (Crawler.append self None) link
  = Spec.new_article_link self link.
Proof.
  unfold Spec.new_article_link; simpl.
  destruct (bs4.get link "href"); [|reflexivity].
  now rewrite contains_app_None.
Qed.

(** A scan that meets no new article link and no anchor without [href]
    falls off the end of [_extract_url]: the result is [None] and the
    list is untouched. *)
Lemma scan_links_nothing_new (self : Crawler.t) (links : list bs4.node) :
  Spec.nothing_new self links = true ->
  Crawler.scan_links self links = (Return None, self).
Proof.
  unfold Spec.nothing_new.
  induction links as [|link rest IH]; simpl; [reflexivity|].
  unfold Spec.has_href, Spec.new_article_link.
  destruct (bs4.get link "href") as [href|]; simpl; [|discriminate].
  intros H; apply andb_prop in H as [Hl Hrest].
  destruct (startswith href "/content/"); simpl in *; [|now apply IH].
  destruct (Crawler.contains _ _); simpl in *; [now apply IH | discriminate].
Qed.

(** A scan that meets an anchor without [href] before any new article
    link raises. *)
Lemma scan_links_bare_anchor (self : Crawler.t)
    (before : list bs4.node) (link : bs4.node) (after : list bs4.node) :
  forallb (fun l => negb (Spec.new_article_link self l)) before = true ->
  Spec.has_href link = false ->
  Crawler.scan_links self (before ++ link :: after) = (Raise AttributeError, self).
Proof.
  intros Hbefore Hlink.
  induction before as [|l before IH]; simpl.
  - unfold Spec.has_href in Hlink.
    destruct (bs4.get link "href"); [discriminate | reflexivity].
  - simpl in Hbefore; apply andb_prop in Hbefore as [Hl Hrest].
    unfold Spec.new_article_link in Hl.
    destruct (bs4.get l "href") as [href|]; [|reflexivity].
    destruct (startswith href "/content/"); simpl in *; [|now apply IH].
    destruct (Crawler.contains _ _); simpl in *; [now apply IH | discriminate].
Qed.

(** What a seed page without anything new does to one step of the pass:
    [None] is appended, and the pass goes on unless the list is full. *)
Lemma stagnant_seed_step (net : requests.network) (n_len : Z)
    (seed_url : string) (rest : list string) (self : Crawler.t) (clock : nat)
    (response : requests.Response) (links : list bs4.node) :
  make_request net clock seed_url (Crawler.config self) = Return response ->
  requests.ok response = true ->
  Spec.region_anchors (requests.soup response) = Some links ->
  Spec.nothing_new self links = true ->
  len (Crawler.urls self) < n_len ->
  Crawler.for_seed_urls net n_len (seed_url :: rest) self clock =
  if len (Crawler.urls self) + 1 >=? n_len
  then (Return tt, Crawler.append self None, S clock)
  else Crawler.for_seed_urls net n_len rest (Crawler.append self None) (S clock).
Proof.
  intros Hreq Hok Hregion Hlinks Hlt; simpl.
  rewrite Hreq, Hok; simpl.
  unfold Crawler._extract_url.
  unfold Spec.region_anchors in Hregion.
  destruct (bs4.find Crawler.is_region (requests.soup response)) as [region|];
    [|discriminate].
  injection Hregion as <-.
  rewrite (scan_links_nothing_new _ _ Hlinks).
  destruct (Z.geb_spec (len (Crawler.urls self)) n_len); [lia|].
  simpl; now rewrite len_app1.
Qed.

Lemma padded_S (self : Crawler.t) (k : nat) :
  Spec.padded (Crawler.append self None) k = Spec.padded self (S k).
Proof.
  unfold Spec.padded; induction k as [|k IH]; simpl; [reflexivity|].
  simpl in IH; now rewrite IH.
Qed.

Lemma padded_urls (self : Crawler.t) (k : nat) :
  Crawler.urls (Spec.padded self k) = (Crawler.urls self ++ repeat None k)%list
  /\ Crawler.config (Spec.padded self k) = Crawler.config self.
Proof.
  revert self; induction k as [|k IH]; intros self.
  - simpl; now rewrite app_nil_r.
  - rewrite <- padded_S.
    destruct (IH (Crawler.append self None)) as [-> ->]; simpl.
    now rewrite <- app_assoc.
Qed.

Lemma stagnant_append_None (net : requests.network) (seed_urls : list string)
    (self : Crawler.t) :
  Spec.stagnant net seed_urls self ->
  Spec.stagnant net seed_urls (Crawler.append self None).
Proof.
  intros H t url Hin.
  destruct (H t url Hin) as (response & links & Hreq & Hok & Hregion & Hnew).
  exists response, links; repeat split; try assumption.
  rewrite <- Hnew; unfold Spec.nothing_new.
  clear; induction links as [|l links IH]; simpl; [reflexivity|].
  now rewrite IH, new_article_link_append_None.
Qed.

Lemma stagnant_padded (net : requests.network) (seed_urls : list string)
    (k : nat) :
  forall self, Spec.stagnant net seed_urls self ->
               Spec.stagnant net seed_urls (Spec.padded self k).
Proof.
  induction k as [|k IH]; intros self H; [exact H|].
  rewrite <- padded_S; apply IH, stagnant_append_None, H.
Qed.

(** A stagnant pass appends one [None] per seed, until the list is full. *)
Lemma for_seed_urls_stagnant (net : requests.network) (n_len : Z)
    (seed_urls : list string) (todo : list string) :
  incl todo seed_urls ->
  forall (self : Crawler.t) (clock : nat),
    Spec.stagnant net seed_urls self ->
    len (Crawler.urls self) < n_len ->
    exists (j : nat) (clock' : nat),
      Crawler.for_seed_urls net n_len todo self clock
      = (Return tt, Spec.padded self j, clock')
      /\ len (Crawler.urls self) + Z.of_nat j <= n_len
      /\ (todo <> [] -> (1 <= j)%nat).
Proof.
  induction todo as [|seed_url rest IH]; intros Hincl self clock Hst Hlt.
  - exists 0%nat, clock; simpl; repeat split; [lia | congruence].
  - destruct (Hst clock seed_url) as (response & links & Hreq & Hok & Hregion & Hnew).
    { apply Hincl; left; reflexivity. }
    rewrite (stagnant_seed_step _ _ _ _ _ _ _ _ Hreq Hok Hregion Hnew Hlt).
    destruct (Z.geb_spec (len (Crawler.urls self) + 1) n_len) as [Hfull|Hroom].
    + exists 1%nat, (S clock); repeat split; lia.
    + destruct (IH (fun x Hx => Hincl x (or_intror Hx))
                   (Crawler.append self None) (S clock)) as (j & clock' & Hrun & Hj & _).
      * now apply stagnant_append_None.
      * simpl; rewrite len_app1; lia.
      * exists (S j), clock'; rewrite Hrun, padded_S.
        simpl in Hj; rewrite len_app1 in Hj.
        repeat split; lia.
Qed.

(** In the stagnant situation, with at least one seed, the loop ends:
    [n_len - len(urls)] passes are enough, and what they leave is the
    list filled up with [None] to the target. *)
Lemma while_loop_stagnant (net : requests.network) (n_len : Z)
    (seed_urls : list string) :
  seed_urls <> [] ->
  forall (fuel : nat) (self : Crawler.t) (clock : nat),
    Spec.stagnant net seed_urls self ->
    n_len - len (Crawler.urls self) <= Z.of_nat fuel ->
    exists clock',
      Crawler.while_loop fuel net n_len seed_urls self clock
      = Some (Return tt,
              Spec.padded self (Z.to_nat (n_len - len (Crawler.urls self))),
              clock').
Proof.
  intros Hseeds; induction fuel as [|fuel IH]; intros self clock Hst Hfuel; simpl.
  - destruct (Z.ltb_spec (len (Crawler.urls self)) n_len); [lia|].
    exists clock.
    replace (Z.to_nat (n_len - len (Crawler.urls self))) with 0%nat by lia.
    reflexivity.
  - destruct (Z.ltb_spec (len (Crawler.urls self)) n_len) as [Hlt|Hge].
    + destruct (for_seed_urls_stagnant net n_len seed_urls seed_urls
                  (incl_refl _) self clock Hst Hlt) as (j & clock1 & -> & Hj & Hpos).
      specialize (Hpos Hseeds).
      destruct (padded_urls self j) as [Hu Hc].
      destruct (IH (Spec.padded self j) clock1) as (clock' & ->).
      * now apply stagnant_padded.
      * rewrite Hu; unfold len in *; rewrite length_app, repeat_length; lia.
      * exists clock'; do 3 f_equal.
        rewrite Hu; unfold len; rewrite length_app, repeat_length.
        unfold Spec.padded; rewrite <- Nat.iter_add; f_equal; unfold len in *; lia.
    + exists clock.
      replace (Z.to_nat (n_len - len (Crawler.urls self))) with 0%nat by lia.
      reflexivity.
Qed.

(** C4: the seed page has a content region and no link at all, the list
    is empty and the target is two.  The step of the pass for this seed
    appends what [_extract_url] returned, which is [None]. *)
Theorem seed_without_new_link_appends_None :
  Spec.region_anchors Samples.page_no_link = Some []
  /\ Crawler._extract_url (Crawler.__init__ Samples.config) Samples.page_no_link
     = (Return None, Crawler.__init__ Samples.config)
  /\ exists self clock,
       Crawler.for_seed_urls (Samples.serving Samples.page_no_link) 2
         (Crawler.get_search_urls (Crawler.__init__ Samples.config))
         (Crawler.__init__ Samples.config) 0 = (Return tt, self, clock)
       /\ Crawler.urls self = [None]
       /\ Crawler.urls self <> Crawler.urls (Crawler.__init__ Samples.config).
Proof.
  split; [reflexivity|]. split; [reflexivity|].
  eexists _, _; split; [reflexivity|]. split; [reflexivity | discriminate].
Qed.

(** C3: the same seed page, served at every request.  The passes do not
    go on for ever: each one appends a [None], and after the second the
    list has reached the target and [find_articles] returns. *)
Theorem stagnant_find_articles_returns :
  exists self clock,
    Crawler.find_articles 2 (Samples.serving Samples.page_no_link)
      (Crawler.__init__ Samples.config) 0 = Some (Return tt, self, clock)
    /\ Crawler.urls self = [None; None]
    /\ clock = 2%nat.
Proof.
  eexists _, _; split; [reflexivity|]. split; reflexivity.
Qed.

(** Where the loop does run for ever: while no seed page is fetched
    successfully (and so with no seed at all), a pass changes nothing and
    no number of passes is enough. *)
Lemma for_seed_urls_all_failed (net : requests.network) (n_len : Z)
    (seed_urls : list string) (self : Crawler.t) :
  (forall t url, exists response,
      make_request net t url (Crawler.config self) = Return response
      /\ requests.ok response = false) ->
  forall clock,
    Crawler.for_seed_urls net n_len seed_urls self clock
    = (Return tt, self, (clock + List.length seed_urls)%nat).
Proof.
  intros Hnet; induction seed_urls as [|seed_url rest IH]; intros clock; simpl.
  - now rewrite Nat.add_0_r.
  - destruct (Hnet clock seed_url) as (response & -> & ->); simpl.
    rewrite IH; f_equal; lia.
Qed.

Lemma find_articles_never_returns (net : requests.network)
    (self : Crawler.t) (fuel : nat) :
  (forall t url, exists response,
      make_request net t url (Crawler.config self) = Return response
      /\ requests.ok response = false) ->
  len (Crawler.urls self) < Config.get_num_articles (Crawler.config self) ->
  forall clock, Crawler.find_articles fuel net self clock = None.
Proof.
  intros Hnet Hlt; unfold Crawler.find_articles.
  apply Z.ltb_lt in Hlt.
  induction fuel as [|fuel IH]; intros clock; simpl; rewrite Hlt; [reflexivity|].
  rewrite for_seed_urls_all_failed by exact Hnet.
  apply IH.
Qed.

(** C10, as the specification has it, fails on a region whose anchor
    without [href] comes after a new article link: the scan returns at
    the link and never reaches the bare anchor. *)
Lemma bare_anchor_not_reached :
  Spec.region_anchors Samples.page_link_then_bare_anchor
  = Some [Samples.anchor "/content/a"; Samples.anchor_without_href]
  /\ Spec.has_href Samples.anchor_without_href = false
  /\ fst (Crawler._extract_url (Crawler.__init__ Samples.config)
            Samples.page_link_then_bare_anchor)
     = Return (Some "https://www.comnews.ru//content/a").
Proof. repeat split. Qed.

(** C10 (amended): [_extract_url] raises [AttributeError], leaving the
    list as it was, on every page without the content region, and on
    every page whose content region has an anchor without [href] that no
    new article link precedes in document order. *)
Theorem extract_url_raises (self : Crawler.t) (page : bs4.node) :
  (Spec.region_anchors page = None ->
   Crawler._extract_url self page = (Raise AttributeError, self))
  /\ (forall before link after,
        Spec.region_anchors page = Some (before ++ link :: after)%list ->
        Spec.has_href link = false ->
        forallb (fun l => negb (Spec.new_article_link self l)) before = true ->
        Crawler._extract_url self page = (Raise AttributeError, self)).
Proof.
  unfold Spec.region_anchors, Crawler._extract_url.
  destruct (bs4.find Crawler.is_region page) as [region|]; split.
  - discriminate.
  - intros before link after [= ->] Hlink Hbefore.
    now apply scan_links_bare_anchor.
  - reflexivity.
  - discriminate.
Qed.

Lemma extract_url_raises_witness :
  Crawler._extract_url (Crawler.__init__ Samples.config) (Samples.page [])
  = (Raise AttributeError, Crawler.__init__ Samples.config)
  /\ Crawler._extract_url (Crawler.__init__ Samples.config) Samples.page_bare_anchor
     = (Raise AttributeError, Crawler.__init__ Samples.config).
Proof.
  split.
  - exact (proj1 (extract_url_raises (Crawler.__init__ Samples.config)
                    (Samples.page [])) eq_refl).
  - exact (proj2 (extract_url_raises (Crawler.__init__ Samples.config)
                    Samples.page_bare_anchor)
             [Samples.anchor "/about"] Samples.anchor_without_href
             [Samples.anchor "/content/a"] eq_refl eq_refl eq_refl).
Defined.

(** ** The searches of bs4 *)

Lemma find_first_in_document (p : bs4.node -> bool) (page h : bs4.node) :
  Spec.first_in_document p page h -> bs4.find p page = Some h.
Proof.
  intros (before & after & Hd & Hh & Hbefore).
  unfold bs4.find, bs4.find_all; rewrite Hd; clear Hd.
  induction before as [|x before IH]; simpl.
  - now rewrite Hh.
  - simpl in Hbefore; apply andb_prop in Hbefore as [Hx Hrest].
    apply negb_true_iff in Hx; rewrite Hx; now apply IH.
Qed.

Lemma find_is_first_in_document (p : bs4.node -> bool) (page h : bs4.node) :
  bs4.find p page = Some h -> Spec.first_in_document p page h.
Proof.
  unfold bs4.find, bs4.find_all, Spec.first_in_document.
  induction (bs4.descendants page) as [|x l IH]; simpl; [discriminate|].
  destruct (p x) eqn:Ex; simpl.
  - intros [= <-]; exists [], l; auto.
  - intros H; destruct (IH H) as (before & after & -> & Hh & Hbefore).
    exists (x :: before), after; simpl; rewrite Ex; auto.
Qed.

Lemma first_elements_found (name : string) (containers found : list bs4.node) :
  Spec.first_elements name containers found ->
  Forall2 (fun c x => bs4.find (bs4.has_name name) c = Some x) containers found.
Proof.
  induction 1 as [|c x cs xs Hc _ IH]; constructor;
    [now apply find_first_in_document | exact IH].
Qed.

Lemma find_none_in_document (p : bs4.node -> bool) (page : bs4.node) :
  Spec.none_in_document p page -> bs4.find p page = None.
Proof.
  unfold Spec.none_in_document, bs4.find, bs4.find_all.
  induction (bs4.descendants page) as [|x l IH]; simpl; [reflexivity|].
  intros H; apply andb_prop in H as [Hx Hrest].
  apply negb_true_iff in Hx; rewrite Hx; now apply IH.
Qed.

(** ** HTMLParser *)

(** What [parse] returns is the article the parser holds. *)
Lemma parse_returns_its_article (net : requests.network) (self : HTMLParser.t)
    (clock : nat) (a : Article.t) :
  fst (HTMLParser.parse net self clock) = Return a ->
  a = HTMLParser.article (snd (HTMLParser.parse net self clock)).
Proof.
  unfold HTMLParser.parse.
  destruct (make_request net clock _ _) as [response|e]; simpl; [|discriminate].
  destruct (requests.ok response); simpl.
  - destruct (HTMLParser._fill_article_with_meta_information _ _) as [[x|e] s]; simpl;
      [congruence | discriminate].
  - congruence.
Qed.

(** C8: when the answer to the request is not [ok], [parse] of a newly
    built parser returns, without raising, the article exactly as
    [Article(url, id)] made it, and leaves the parser as it was: nothing
    but the url and the id has been filled in. *)
Theorem parse_of_failed_fetch (net : requests.network) (url : string) (id : Z)
    (config : Config.t) (clock : nat) (response : requests.Response) :
  make_request net clock url config = Return response ->
  requests.ok response = false ->
  HTMLParser.parse net (HTMLParser.__init__ url id config) clock
  = (Return (Article.__init__ url id), HTMLParser.__init__ url id config).
Proof.
  intros Hreq Hok.
  unfold HTMLParser.parse; simpl.
  now rewrite Hreq, Hok.
Qed.

Lemma parse_of_failed_fetch_witness :
  HTMLParser.parse Samples.failing
    (HTMLParser.__init__ Samples.article_url 1 Samples.config) 0
  = (Return (Article.__init__ Samples.article_url 1),
     HTMLParser.__init__ Samples.article_url 1 Samples.config).
Proof.
  exact (parse_of_failed_fetch Samples.failing Samples.article_url 1
           Samples.config 0
           {| requests.ok := false; requests.soup := Samples.page [] |}
           eq_refl eq_refl).
Defined.

(** Steps in sequence keep a field that each of them keeps. *)
Section Frames.

Variable X : Type.
Variable field : Article.t -> X.

Lemma and_then_keeps (r : outcome unit * HTMLParser.t)
    (k : HTMLParser.t -> outcome unit * HTMLParser.t) :
  Spec.keeps field k ->
  field (HTMLParser.article (snd (HTMLParser.and_then r k)))
  = field (HTMLParser.article (snd r)).
Proof.
  intros Hk; destruct r as [[x|e] s]; simpl; [apply Hk | reflexivity].
Qed.

Lemma keeps_and_then (step k : HTMLParser.t -> outcome unit * HTMLParser.t) :
  Spec.keeps field step -> Spec.keeps field k ->
  Spec.keeps field (fun s => HTMLParser.and_then (step s) k).
Proof.
  intros Hs Hk self; rewrite and_then_keeps by exact Hk; apply Hs.
Qed.

End Frames.

Lemma fill_date_keeps_title (page : bs4.node) :
  Spec.keeps Article.title (fun s => HTMLParser.fill_date s page).
Proof.
  intros self; unfold HTMLParser.fill_date.
  destruct (bs4.find _ page) as [label|]; [|reflexivity].
  destruct (HTMLParser.unify_date_format _); reflexivity.
Qed.

Lemma for_topics_keeps_title (tags : list bs4.node) :
  Spec.keeps Article.title (fun s => HTMLParser.for_topics s tags).
Proof.
  induction tags as [|tag tags IH]; intros self; simpl; [reflexivity|].
  destruct (bs4.find _ tag); [|reflexivity].
  now rewrite IH.
Qed.

Lemma fill_topics_keeps_title (page : bs4.node) :
  Spec.keeps Article.title (fun s => HTMLParser.fill_topics s page).
Proof.
  intros self; unfold HTMLParser.fill_topics.
  destruct (bs4.find_all _ page) as [|tag tags] eqn:E; [reflexivity|].
  apply (for_topics_keeps_title (tag :: tags)).
Qed.

Lemma for_authors_keeps_title (authors : list bs4.node) :
  Spec.keeps Article.title (fun s => HTMLParser.for_authors s authors).
Proof.
  induction authors as [|author authors IH]; intros self; simpl; [reflexivity|].
  destruct (bs4.find _ author); [|reflexivity].
  now rewrite IH.
Qed.

Lemma fill_authors_keeps_title (page : bs4.node) :
  Spec.keeps Article.title (fun s => HTMLParser.fill_authors s page).
Proof.
  intros self; unfold HTMLParser.fill_authors.
  destruct (bs4.find_all _ page) as [|author authors] eqn:E; [reflexivity|].
  now rewrite (for_authors_keeps_title (author :: authors)).
Qed.

(** C7, as the specification has it, fails on pages whose first heading
    is not an [h1]: a page whose only heading is an [h2] has a heading
    and yet [parse] raises [AttributeError]; and on a page with an [h2]
    before its [h1] the title is the text of the [h1], not of the first
    heading. *)
Lemma first_heading_counterexample :
  (Spec.first_in_document Spec.is_heading Samples.article_page_no_heading
     (Samples.h2 "Title")
   /\ fst (HTMLParser.parse (Samples.serving Samples.article_page_no_heading)
             (HTMLParser.__init__ Samples.article_url 1 Samples.config) 0)
      = Raise AttributeError)
  /\ (Spec.first_in_document Spec.is_heading Samples.article_page_h2_first
        (Samples.h2 "Breaking")
      /\ bs4.text (Samples.h2 "Breaking") = "Breaking"
      /\ exists a,
           fst (HTMLParser.parse (Samples.serving Samples.article_page_h2_first)
                  (HTMLParser.__init__ Samples.article_url 1 Samples.config) 0)
           = Return a
           /\ Article.title a = "Title").
Proof.
  split; [split | split; [|split]].
  - apply find_is_first_in_document; reflexivity.
  - reflexivity.
  - apply find_is_first_in_document; reflexivity.
  - reflexivity.
  - eexists; split; reflexivity.
Qed.

(** C7 (amended): on a page that was fetched successfully,
    - when the page has no [h1], [parse] raises [AttributeError] and
      returns no record;
    - when [h] is the first [h1] of the page, the title of the article
      that the parser holds after [parse], and of the record [parse]
      returns when it returns, is the text of [h]. *)
Theorem parse_title (net : requests.network) (self : HTMLParser.t) (clock : nat)
    (response : requests.Response) :
  make_request net clock (HTMLParser.full_url self) (HTMLParser.config self)
  = Return response ->
  requests.ok response = true ->
  (Spec.none_in_document (bs4.has_name "h1") (requests.soup response) ->
   fst (HTMLParser.parse net self clock) = Raise AttributeError)
  /\ (forall h,
        Spec.first_in_document (bs4.has_name "h1") (requests.soup response) h ->
        Article.title (HTMLParser.article (snd (HTMLParser.parse net self clock)))
        = bs4.text h
        /\ forall a, fst (HTMLParser.parse net self clock) = Return a ->
                     Article.title a = bs4.text h).
Proof.
  intros Hreq Hok; split.
  - intros Hnone; apply find_none_in_document in Hnone.
    unfold HTMLParser.parse; rewrite Hreq, Hok.
    unfold HTMLParser._fill_article_with_meta_information, HTMLParser.fill_title.
    now rewrite Hnone.
  - intros h Hfirst; apply find_first_in_document in Hfirst.
    assert (Ht : Article.title
                   (HTMLParser.article (snd (HTMLParser.parse net self clock)))
                 = bs4.text h).
    { unfold HTMLParser.parse; rewrite Hreq, Hok.
      set (s0 := HTMLParser._fill_article_with_text self (requests.soup response)).
      assert (Hm : Article.title (HTMLParser.article
                     (snd (HTMLParser._fill_article_with_meta_information s0
                             (requests.soup response)))) = bs4.text h).
      { unfold HTMLParser._fill_article_with_meta_information.
        rewrite and_then_keeps.
        - unfold HTMLParser.fill_title; now rewrite Hfirst.
        - apply keeps_and_then; [apply fill_date_keeps_title|].
          apply keeps_and_then;
            [apply fill_topics_keeps_title | apply fill_authors_keeps_title]. }
      destruct (HTMLParser._fill_article_with_meta_information s0 _) as [[x|e] s];
        exact Hm. }
    split; [exact Ht|].
    intros a Ha; now rewrite (parse_returns_its_article _ _ _ _ Ha).
Qed.

Lemma parse_title_witness :
  fst (HTMLParser.parse (Samples.serving Samples.article_page_no_heading)
         (HTMLParser.__init__ Samples.article_url 1 Samples.config) 0)
  = Raise AttributeError
  /\ Article.title (HTMLParser.article (snd
       (HTMLParser.parse (Samples.serving Samples.article_page)
          (HTMLParser.__init__ Samples.article_url 1 Samples.config) 0)))
     = "Title".
Proof.
  split.
  - exact (proj1 (parse_title (Samples.serving Samples.article_page_no_heading)
                    (HTMLParser.__init__ Samples.article_url 1 Samples.config) 0
                    {| requests.ok := true;
                       requests.soup := Samples.article_page_no_heading |}
                    eq_refl eq_refl) eq_refl).
  - refine (proj1 (proj2 (parse_title (Samples.serving Samples.article_page)
                    (HTMLParser.__init__ Samples.article_url 1 Samples.config) 0
                    {| requests.ok := true; requests.soup := Samples.article_page |}
                    eq_refl eq_refl) (Samples.h1 "Title") _)).
    exists [], (tl (bs4.descendants Samples.article_page)).
    repeat split.
Defined.

(** ** The date format *)

Lemma digit_range (a : ascii) (x : Z) :
  datetime.digit a = Some x -> 0 <= x <= 9.
Proof.
  unfold datetime.digit.
  destruct (Z.leb_spec 48 (Z.of_nat (nat_of_ascii a)));
    destruct (Z.leb_spec (Z.of_nat (nat_of_ascii a)) 57); simpl;
    intros [= <-]; lia.
Qed.















Lemma string_app_assoc (a b c : string) : (a ++ b) ++ c = a ++ (b ++ c).
Proof. induction a as [|x a IH]; simpl; [reflexivity | now rewrite IH]. Qed.




Lemma strptime_raises_only_ValueError (s : string) (e : exn) :
  datetime.strptime_dmY s = Raise e -> e = ValueError.
Proof.
  unfold datetime.strptime_dmY.
  destruct (datetime.re_dmY s) as [|[[[d m] y] rest] l]; [congruence|].
  destruct (negb (String.eqb rest "")); [congruence|].
  destruct ((1 <=? y) && (d <=? datetime.days_in_month y m)); congruence.
Qed.


(** The digits of the year may be of any script, as [\d] has it; those
    of a day that starts with [0] may not. *)
Lemma unify_date_format_other_scripts :
  HTMLParser.unify_date_format Samples.date_with_arabic_indic_year
  = Return {| datetime.year := 2024; datetime.month := 3; datetime.day := 4 |}
  /\ HTMLParser.unify_date_format Samples.date_with_arabic_indic_day
     = Raise ValueError.
Proof. split; reflexivity. Qed.



(** ** Topics and authors *)

Lemma split_space_not_nil (s : string) : HTMLParser.split_space s <> [].
Proof.
  destruct s as [|c s]; simpl; [discriminate|].
  destruct (Ascii.eqb c " "); [discriminate|].
  destruct (HTMLParser.split_space s); discriminate.
Qed.

(** [split(' ')] is undone by [' '.join], and its pieces have no space. *)
Lemma split_space_join (s : string) :
  String.concat " " (HTMLParser.split_space s) = s.
Proof.
  induction s as [|c s IH]; simpl; [reflexivity|].
  pose proof (split_space_not_nil s) as Hne.
  destruct (Ascii.eqb_spec c " ") as [->|Hc].
  - destruct (HTMLParser.split_space s) as [|w ws]; [congruence|].
    simpl in *; now rewrite IH.
  - destruct (HTMLParser.split_space s) as [|w ws]; [congruence|].
    destruct ws as [|w' ws]; simpl in *; now rewrite <- IH.
Qed.

Lemma split_space_pieces (s : string) :
  Forall (fun w => Spec.no_space w = true) (HTMLParser.split_space s).
Proof.
  induction s as [|c s IH]; simpl; [repeat constructor|].
  destruct (Ascii.eqb c " ") eqn:Ec; [constructor; [reflexivity | exact IH]|].
  destruct (HTMLParser.split_space s) as [|w ws]; [repeat constructor; simpl; now rewrite Ec|].
  inversion IH as [|? ? Hw Hws]; subst.
  constructor; [simpl; now rewrite Ec, Hw | exact Hws].
Qed.

Lemma join_last (l : list string) :
  l <> [] ->
  String.concat " " l = last l ""
  \/ exists pre, String.concat " " l = pre ++ String " " (last l "").
Proof.
  induction l as [|w l IH]; [congruence|]; intros _.
  destruct l as [|w' l]; [left; reflexivity|].
  right; destruct IH as [IH|(pre & IH)]; [discriminate| |].
  - exists w. change (String.concat " " (w :: w' :: l))
      with (w ++ String " " (String.concat " " (w' :: l))).
    now rewrite IH.
  - exists (w ++ String " " pre).
    change (String.concat " " (w :: w' :: l))
      with (w ++ String " " (String.concat " " (w' :: l))).
    rewrite IH, string_app_assoc; reflexivity.
Qed.

(** What [text.split(' ')[-1]] is: the part of the text after its last
    space character, and the whole text when it has none. *)
Lemma last_of_split_space (s : string) :
  Spec.no_space (last (HTMLParser.split_space s) "") = true
  /\ (s = last (HTMLParser.split_space s) ""
      \/ exists pre, s = pre ++ String " " (last (HTMLParser.split_space s) "")).
Proof.
  split.
  - pose proof (split_space_pieces s) as H.
    pose proof (split_space_not_nil s) as Hne.
    induction H as [|w l Hw Hl IH]; [congruence|].
    destruct l as [|w' l]; [exact Hw|].
    apply IH; discriminate.
  - pose proof (join_last _ (split_space_not_nil s)) as H.
    now rewrite split_space_join in H.
Qed.

Lemma after_last_space_whole (s : string) :
  Spec.no_space s = true -> Spec.after_last_space s = s.
Proof.
  destruct s as [|c s]; simpl; [reflexivity|].
  intros H; apply andb_prop in H as [Hc Hs].
  rewrite Hs; apply negb_true_iff in Hc; now rewrite Hc.
Qed.

Lemma no_space_app_space (pre tok : string) :
  Spec.no_space (pre ++ String " " tok) = false.
Proof.
  induction pre as [|c pre IH]; simpl; [reflexivity|].
  rewrite IH; apply andb_false_r.
Qed.

Lemma after_last_space_cut (pre tok : string) :
  Spec.no_space tok = true ->
  Spec.after_last_space (pre ++ String " " tok) = tok.
Proof.
  intros Htok; induction pre as [|c pre IH]; simpl.
  - now rewrite Htok.
  - now rewrite no_space_app_space.
Qed.

Lemma last_of_split_space_is_after_last_space (s : string) :
  last (HTMLParser.split_space s) "" = Spec.after_last_space s.
Proof.
  destruct (last_of_split_space s) as [Htok [Hs|(pre & Hs)]].
  - rewrite Hs at 2; now rewrite after_last_space_whole.
  - rewrite Hs at 2; now rewrite after_last_space_cut.
Qed.

Lemma for_topics_ok (tags links : list bs4.node) :
  Forall2 (fun c x => bs4.find (bs4.has_name "a") c = Some x) tags links ->
  forall self,
    fst (HTMLParser.for_topics self tags) = Return tt
    /\ Article.topics (HTMLParser.article (snd (HTMLParser.for_topics self tags)))
       = (Article.topics (HTMLParser.article self) ++ map bs4.text links)%list.
Proof.
  induction 1 as [|tag a tags links Ha _ IH]; intros self; simpl.
  - now rewrite app_nil_r.
  - rewrite Ha.
    destruct (IH (HTMLParser.update self
                    (fun r => Article.set_topics r (Article.topics r ++ [bs4.text a]))))
      as [-> ->]; simpl.
    now rewrite <- app_assoc.
Qed.

Lemma for_authors_ok (authors spans : list bs4.node) :
  Forall2 (fun c x => bs4.find (bs4.has_name "span") c = Some x) authors spans ->
  forall self,
    fst (HTMLParser.for_authors self authors) = Return tt
    /\ Article.author (HTMLParser.article (snd (HTMLParser.for_authors self authors)))
       = (Article.author (HTMLParser.article self)
          ++ map (fun span => last (HTMLParser.split_space (bs4.text span)) "") spans)%list.
Proof.
  induction 1 as [|author span authors spans Hs _ IH]; intros self; simpl.
  - now rewrite app_nil_r.
  - rewrite Hs.
    match goal with |- context [HTMLParser.for_authors ?s authors] =>
      destruct (IH s) as [-> ->] end; simpl.
    now rewrite <- app_assoc.
Qed.

Lemma for_authors_keeps_topics (authors : list bs4.node) :
  Spec.keeps Article.topics (fun s => HTMLParser.for_authors s authors).
Proof.
  induction authors as [|author authors IH]; intros self; simpl; [reflexivity|].
  destruct (bs4.find _ author); [|reflexivity].
  now rewrite IH.
Qed.

Lemma fill_authors_keeps_topics (page : bs4.node) :
  Spec.keeps Article.topics (fun s => HTMLParser.fill_authors s page).
Proof.
  intros self; unfold HTMLParser.fill_authors.
  destruct (bs4.find_all _ page) as [|author authors] eqn:E; [reflexivity|].
  now rewrite (for_authors_keeps_topics (author :: authors)).
Qed.

Lemma fill_topics_ok (page : bs4.node) (links : list bs4.node) (self : HTMLParser.t) :
  Spec.first_elements "a" (Spec.tag_containers page) links ->
  fst (HTMLParser.fill_topics self page) = Return tt
  /\ Article.topics (HTMLParser.article (snd (HTMLParser.fill_topics self page)))
     = (Article.topics (HTMLParser.article self)
        ++ match Spec.tag_containers page with
           | [] => ["NOT FOUND"]
           | _ :: _ => map bs4.text links
           end)%list.
Proof.
  unfold HTMLParser.fill_topics, Spec.tag_containers.
  destruct (bs4.find_all (bs4.has_class "tags") page) as [|tag tags]; intros H.
  - split; reflexivity.
  - apply (for_topics_ok _ _ (first_elements_found _ _ _ H)).
Qed.

Lemma fill_authors_ok (page : bs4.node) (spans : list bs4.node) (self : HTMLParser.t) :
  Spec.first_elements "span" (Spec.author_containers page) spans ->
  fst (HTMLParser.fill_authors self page) = Return tt
  /\ Article.author (HTMLParser.article (snd (HTMLParser.fill_authors self page)))
     = match Spec.author_containers page with
       | [] => ["NOT FOUND"]
       | _ :: _ => map (fun span => Spec.after_last_space (bs4.text span)) spans
       end.
Proof.
  unfold HTMLParser.fill_authors, Spec.author_containers.
  destruct (bs4.find_all _ page) as [|author authors]; intros H.
  - split; reflexivity.
  - rewrite (proj2 (for_authors_ok _ _ (first_elements_found _ _ _ H) _)).
    split; [apply (for_authors_ok _ _ (first_elements_found _ _ _ H)) | simpl].
    apply map_ext; intros span; apply last_of_split_space_is_after_last_space.
Qed.

(** The topics and authors steps, from a parser whose article has no
    topic yet. *)
Lemma topics_then_authors (page : bs4.node) (links : list bs4.node)
    (self : HTMLParser.t) :
  Article.topics (HTMLParser.article self) = [] ->
  Spec.first_elements "a" (Spec.tag_containers page) links ->
  let r := HTMLParser.and_then (HTMLParser.fill_topics self page)
             (fun s => HTMLParser.fill_authors s page) in
  Article.topics (HTMLParser.article (snd r))
  = match Spec.tag_containers page with
    | [] => ["NOT FOUND"]
    | _ :: _ => map bs4.text links
    end
  /\ forall spans,
       Spec.first_elements "span" (Spec.author_containers page) spans ->
       fst r = Return tt
       /\ Article.author (HTMLParser.article (snd r))
          = match Spec.author_containers page with
            | [] => ["NOT FOUND"]
            | _ :: _ => map (fun span => Spec.after_last_space (bs4.text span)) spans
            end.
Proof.
  intros Hempty Hlinks r; subst r.
  destruct (fill_topics_ok page links self Hlinks) as [Hf Ht].
  rewrite Hempty in Ht; simpl in Ht.
  split.
  - rewrite and_then_keeps by apply fill_authors_keeps_topics; exact Ht.
  - intros spans Hspans.
    destruct (HTMLParser.fill_topics self page) as [[[]|e] s]; simpl in *;
      [|discriminate].
    apply (fill_authors_ok _ _ _ Hspans).
Qed.

(** C9, as the specification has it, fails
    - on a fetched page without tag containers that has no [h1]: the
      extraction raises at the title, before the topics are looked at,
      and the topics stay empty;
    - on an author whose names are separated by a tab: the name is cut at
      single spaces only, and the entry is the whole text, not its last
      word. *)
Lemma topics_and_authors_counterexample :
  (Spec.tag_containers Samples.article_page_no_heading = []
   /\ HTMLParser.parse (Samples.serving Samples.article_page_no_heading)
        (HTMLParser.__init__ Samples.article_url 1 Samples.config) 0
      = (Raise AttributeError,
         HTMLParser._fill_article_with_text
           (HTMLParser.__init__ Samples.article_url 1 Samples.config)
           Samples.article_page_no_heading)
   /\ Article.topics (HTMLParser.article (snd
        (HTMLParser.parse (Samples.serving Samples.article_page_no_heading)
           (HTMLParser.__init__ Samples.article_url 1 Samples.config) 0)))
      <> ["NOT FOUND"])
  /\ (Spec.author_containers Samples.article_page_tab_author
      = [Samples.author_container Samples.tab_separated_name]
      /\ Spec.last_word Samples.tab_separated_name = "Petrov"
      /\ exists a,
           fst (HTMLParser.parse (Samples.serving Samples.article_page_tab_author)
                  (HTMLParser.__init__ Samples.article_url 1 Samples.config) 0)
           = Return a
           /\ Article.author a = [Samples.tab_separated_name]
           /\ Article.author a <> [Spec.last_word Samples.tab_separated_name]).
Proof.
  split.
  - split; [reflexivity|]. split; [reflexivity | discriminate].
  - split; [reflexivity|]. split; [reflexivity|].
    eexists; split; [reflexivity|]. split; [reflexivity | discriminate].
Qed.

(** C9 (amended): on a page that was fetched successfully and on which
    the title and date steps go through (there is an [h1]; the date
    label, if any, parses), for a newly built parser:
    - without tag containers the topics are exactly ["NOT FOUND"]; with
      tag containers that each have a link, the topics are the texts of
      their first links, one per container, in document order;
    - if moreover each author container has a [span]: [parse] returns
      the record; without author containers the authors are exactly
      ["NOT FOUND"], and otherwise they are, per container and in
      document order, the part of the text of its first [span] that
      follows the last space character. *)
Theorem parse_topics_and_authors (net : requests.network) (url : string) (id : Z)
    (config : Config.t) (clock : nat) (response : requests.Response)
    (links : list bs4.node) :
  make_request net clock url config = Return response ->
  requests.ok response = true ->
  Spec.title_and_date_ok (requests.soup response) ->
  Spec.first_elements "a" (Spec.tag_containers (requests.soup response)) links ->
  let result := HTMLParser.parse net (HTMLParser.__init__ url id config) clock in
  Article.topics (HTMLParser.article (snd result))
  = match Spec.tag_containers (requests.soup response) with
    | [] => ["NOT FOUND"]
    | _ :: _ => map bs4.text links
    end
  /\ List.length links = List.length (Spec.tag_containers (requests.soup response))
  /\ forall spans,
       Spec.first_elements "span" (Spec.author_containers (requests.soup response)) spans ->
       fst result = Return (HTMLParser.article (snd result))
       /\ Article.author (HTMLParser.article (snd result))
          = match Spec.author_containers (requests.soup response) with
            | [] => ["NOT FOUND"]
            | _ :: _ => map (fun span => Spec.after_last_space (bs4.text span)) spans
            end.
Proof.
  intros Hreq Hok [[h Hh1] Hdate] Hlinks result; subst result.
  apply find_first_in_document in Hh1.
  unfold HTMLParser.parse; simpl HTMLParser.full_url; simpl HTMLParser.config.
  rewrite Hreq, Hok.
  set (page := requests.soup response) in *.
  set (s0 := HTMLParser._fill_article_with_text (HTMLParser.__init__ url id config) page).
  assert (Hmeta : exists s,
             Article.topics (HTMLParser.article s) = []
             /\ HTMLParser._fill_article_with_meta_information s0 page
                = HTMLParser.and_then (HTMLParser.fill_topics s page)
                    (fun s => HTMLParser.fill_authors s page)).
  { unfold HTMLParser._fill_article_with_meta_information, HTMLParser.fill_title.
    rewrite Hh1; simpl; unfold HTMLParser.fill_date.
    fold Spec.date_label.
    destruct (bs4.find Spec.date_label page) as [label|] eqn:El.
    - destruct (Hdate label (find_is_first_in_document _ _ _ El)) as [d ->]; simpl.
      eexists; split; [|reflexivity]; reflexivity.
    - simpl; eexists; split; [|reflexivity]; reflexivity. }
  destruct Hmeta as (s & Hempty & ->).
  destruct (topics_then_authors page links s Hempty Hlinks) as [Ht Ha].
  split; [|split].
  - destruct (HTMLParser.and_then _ _) as [[x|e] s']; exact Ht.
  - symmetry; exact (Forall2_length Hlinks).
  - intros spans Hspans; destruct (Ha spans Hspans) as [Hf Hauth].
    destruct (HTMLParser.and_then _ _) as [[x|e] s']; simpl in *;
      [split; [reflexivity | exact Hauth] | discriminate].
Qed.

Lemma parse_topics_and_authors_witness :
  Article.topics (HTMLParser.article (snd
    (HTMLParser.parse (Samples.serving Samples.article_page)
       (HTMLParser.__init__ Samples.article_url 1 Samples.config) 0)))
  = ["5G"; "Telecom"]
  /\ Article.author (HTMLParser.article (snd
       (HTMLParser.parse (Samples.serving Samples.article_page)
          (HTMLParser.__init__ Samples.article_url 1 Samples.config) 0)))
     = ["Petrov"].
Proof.
  assert (Hok : Spec.title_and_date_ok Samples.article_page).
  { split.
    - exists (Samples.h1 "Title"); apply find_is_first_in_document; reflexivity.
    - intros label Hl; apply find_first_in_document in Hl.
      injection Hl as <-; eexists; reflexivity. }
  assert (Hlinks : Spec.first_elements "a" (Spec.tag_containers Samples.article_page)
                     [bs4.Tag "a" [] [("href", "/tags/x")] [bs4.NavigableString "5G"];
                      bs4.Tag "a" [] [("href", "/tags/x")] [bs4.NavigableString "Telecom"]]).
  { repeat constructor; apply find_is_first_in_document; reflexivity. }
  assert (Hspans : Spec.first_elements "span"
                     (Spec.author_containers Samples.article_page)
                     [Samples.element "span" [] [bs4.NavigableString "Ivan Petrov"]]).
  { repeat constructor; apply find_is_first_in_document; reflexivity. }
  pose proof (parse_topics_and_authors (Samples.serving Samples.article_page)
                Samples.article_url 1 Samples.config 0
                {| requests.ok := true; requests.soup := Samples.article_page |}
                _ eq_refl eq_refl Hok Hlinks) as [Ht [_ Ha]].
  split; [exact Ht|].
  exact (proj2 (Ha _ Hspans)).
Defined.

(** * Further properties of the code *)

(** ** Config: the whole of the validation *)

Lemma all_match_true (l : list json) :
  Config.all_match l = Return true <->
  exists urls, l = map JStr urls
               /\ Forall (fun s => Spec.scheme_host_pattern s = true) urls.
Proof.
  split.
  - induction l as [|v l IH]; simpl.
    + intros _; exists []; split; [reflexivity | constructor].
    + destruct v; try discriminate.
      destruct (Config.re_match_seed s) eqn:E; [|discriminate].
      intros H; destruct (IH H) as (urls & -> & Hall).
      exists (s :: urls); split; [reflexivity|].
      constructor; [now rewrite <- re_match_seed_spec | exact Hall].
  - intros (urls & -> & Hall).
    induction Hall as [|s urls Hs _ IH]; simpl; [reflexivity|].
    rewrite re_match_seed_spec, Hs; exact IH.
Qed.

Lemma to_str_list_strings (urls : list string) :
  Config.to_str_list (map JStr urls) = Return urls.
Proof.
  induction urls as [|s urls IH]; simpl; [reflexivity | now rewrite IH].
Qed.

Lemma validation_passes_well_formed (config : json) :
  Config._validate_config_content config = Return tt -> Shape.well_formed config.
Proof.
  intros Hv; unfold Config._validate_config_content in Hv.
  apply bind_Return in Hv as ([] & Hseed & Hv).
  apply bind_Return in Hv as ([] & Htotal & Hv).
  apply bind_Return in Hv as ([] & Hheaders & Hv).
  apply bind_Return in Hv as ([] & Hencoding & Hv).
  apply bind_Return in Hv as ([] & Htimeout & Hflags).
  unfold Shape.well_formed; repeat split.
  - unfold Config.check_seed_urls in Hseed.
    apply bind_Return in Hseed as (a & Ha & Hseed).
    rewrite Ha in Hseed; simpl in Hseed.
    destruct a as [| | | | |l|]; simpl in Hseed; try discriminate.
    apply bind_Return in Hseed as (okb & Hall & Hseed).
    destruct okb; [|discriminate].
    apply all_match_true in Hall as (urls & -> & Hpat).
    exists urls; auto.
  - unfold Config.check_total_articles in Htotal.
    apply bind_Return in Htotal as (b & Hb & Htotal).
    destruct (as_int b) as [n|] eqn:En; [|discriminate].
    destruct (Z.leb_spec n 0); [discriminate|].
    destruct (Z.ltb_spec 1 n); destruct (Z.leb_spec n 150); simpl in Htotal;
      try discriminate.
    exists b, n; repeat split; auto.
  - unfold Config.check_headers in Hheaders.
    apply bind_Return in Hheaders as (c & Hc & Hheaders).
    destruct c as [| | | | | |h]; simpl in Hheaders; try discriminate.
    exists h; exact Hc.
  - unfold Config.check_encoding in Hencoding.
    apply bind_Return in Hencoding as (d & Hd & Hencoding).
    destruct d as [| | | |enc| |]; simpl in Hencoding; try discriminate.
    exists enc; exact Hd.
  - unfold Config.check_timeout in Htimeout.
    apply bind_Return in Htimeout as (e & He & Htimeout).
    destruct (as_int e) as [t|] eqn:Et; [|discriminate].
    destruct (Z.ltb_spec 0 t); destruct (Z.ltb_spec t 60); simpl in Htimeout;
      try discriminate.
    exists e, t; repeat split; auto.
  - unfold Config.check_flags in Hflags.
    apply bind_Return in Hflags as (f & Hf & Hflags).
    destruct f as [|vf| | | | |]; simpl in Hflags; try discriminate.
    exists vf; exact Hf.
  - unfold Config.check_flags in Hflags.
    apply bind_Return in Hflags as (f & Hf & Hflags).
    destruct f as [|vf| | | | |]; simpl in Hflags; try discriminate.
    apply bind_Return in Hflags as (g & Hg & Hflags).
    destruct g as [|vg| | | | |]; simpl in Hflags; try discriminate.
    exists vg; exact Hg.
Qed.

Lemma well_formed_passes_validation (config : json) :
  Shape.well_formed config -> Config._validate_config_content config = Return tt.
Proof.
  intros ((urls & Ha & Hpat) & (b & n & Hb & En & Hn) & (h & Hc) & (enc & Hd)
          & (e & t & He & Et & Ht) & (vf & Hf) & (vg & Hg)).
  unfold Config._validate_config_content, Config.check_seed_urls,
    Config.check_total_articles, Config.check_headers, Config.check_encoding,
    Config.check_timeout, Config.check_flags.
  rewrite Ha, Hb, Hc, Hd, He, Hf, Hg; simpl.
  rewrite (proj2 (all_match_true _)) by (exists urls; auto); simpl.
  rewrite En, Et.
  destruct (Z.leb_spec n 0); [lia|].
  destruct (Z.ltb_spec 1 n); [|lia]. destruct (Z.leb_spec n 150); [|lia].
  destruct (Z.ltb_spec 0 t); [|lia]. destruct (Z.ltb_spec t 60); [|lia].
  reflexivity.
Qed.

(** X1: [_validate_config_content] returns normally exactly on the
    documents of the expected shape: a dict with a list of addresses that
    all start with [http://] or [https://] (possibly none), an integer in
    (1, 150], a dict of headers, a string, an integer in (0, 60) and two
    booleans; on every other document it raises. *)
Theorem validation_passes_iff (config : json) :
  Config._validate_config_content config = Return tt <-> Shape.well_formed config.
Proof.
  split; [apply validation_passes_well_formed | apply well_formed_passes_validation].
Qed.

Lemma init_agrees (config : json) (c : Config.t) :
  Config.__init__ config = Return c -> Shape.agrees config c.
Proof.
  intros H.
  assert (Hv : Config._validate_config_content config = Return tt).
  { unfold Config.__init__ in H.
    destruct (Config._validate_config_content config) as [[]|e];
      [reflexivity | discriminate]. }
  unfold Config.__init__ in H; rewrite Hv in H; simpl in H.
  apply validation_passes_well_formed in Hv
    as ((urls & Ha & Hpat) & (b & n & Hb & En & Hn) & (h & Hc) & (enc & Hd)
        & (e & t & He & Et & Ht) & (vf & Hf) & (vg & Hg)).
  unfold Config._extract_config_content in H.
  rewrite Ha, Hb, Hc, Hd, He, Hf, Hg in H; simpl in H.
  rewrite to_str_list_strings in H; simpl in H.
  unfold Config.to_int in H; rewrite En, Et in H; simpl in H.
  injection H as <-.
  unfold Shape.agrees, Config.get_seed_urls, Config.get_num_articles,
    Config.get_headers, Config.get_encoding, Config.get_timeout,
    Config.get_verify_certificate, Config.get_headless_mode; simpl.
  repeat split; eauto.
Qed.

(** X2: a configuration is built exactly from the documents of the
    expected shape, and what its seven getters return is what the
    document holds under the seven keys. *)
Theorem config_reads_document (config : json) :
  (Shape.well_formed config <-> exists c, Config.__init__ config = Return c)
  /\ (forall c, Config.__init__ config = Return c -> Shape.agrees config c).
Proof.
  split; [split|].
  - intros Hw; apply well_formed_passes_validation in Hw.
    destruct (init_after_validation config Hw) as (c & Hc & _); eauto.
  - intros (c & Hc); apply validation_passes_well_formed.
    unfold Config.__init__ in Hc.
    destruct (Config._validate_config_content config) as [[]|e];
      [reflexivity | discriminate].
  - apply init_agrees.
Qed.

Lemma config_reads_document_witness :
  Shape.agrees Cases.good_document Samples.config.
Proof.
  exact (proj2 (config_reads_document Cases.good_document) Samples.config eq_refl).
Defined.

Lemma validation_passes_iff_witness :
  Config._validate_config_content Cases.good_document = Return tt.
Proof.
  apply (proj2 (validation_passes_iff Cases.good_document)).
  unfold Shape.well_formed; repeat split.
  - exists ["https://www.comnews.ru/news"]; split; [reflexivity|].
    repeat constructor.
  - exists (JInt 2), 2; repeat split; try reflexivity; lia.
  - eexists; reflexivity.
  - eexists; reflexivity.
  - exists (JInt 5), 5; repeat split; try reflexivity; lia.
  - eexists; reflexivity.
  - eexists; reflexivity.
Defined.

(** ** Config: the rules after the number of articles *)

Lemma validate_after_total (config : json) :
  Config.check_seed_urls config = Return tt ->
  Config.check_total_articles config = Return tt ->
  Config._validate_config_content config = Spec.later_rules config.
Proof.
  intros H1 H2; unfold Config._validate_config_content; now rewrite H1, H2.
Qed.

(** X3: once the rules on the seed URLs and on the number of articles
    have passed, a [headers] that is not a dict raises
    [IncorrectHeadersError]; with a dict for [headers], an [encoding]
    that is not a string raises [IncorrectEncodingError]. *)
Theorem headers_and_encoding_rules (config : json) :
  Config.check_seed_urls config = Return tt ->
  Config.check_total_articles config = Return tt ->
  (forall v, getitem config "headers" = Return v -> is_dict v = false ->
     Config._validate_config_content config = Raise IncorrectHeadersError)
  /\ (forall h v, getitem config "headers" = Return (JDict h) ->
        getitem config "encoding" = Return v -> is_str v = false ->
        Config._validate_config_content config = Raise IncorrectEncodingError).
Proof.
  intros H1 H2; rewrite (validate_after_total _ H1 H2).
  unfold Spec.later_rules, Config.check_headers, Config.check_encoding; split.
  - intros v -> Hv; simpl; now rewrite Hv.
  - intros h v -> -> Hv; simpl; now rewrite Hv.
Qed.

Lemma headers_and_encoding_rules_witness :
  Config._validate_config_content Cases.headers_as_list
  = Raise IncorrectHeadersError
  /\ Config._validate_config_content Cases.encoding_null
     = Raise IncorrectEncodingError.
Proof.
  split.
  - exact (proj1 (headers_and_encoding_rules Cases.headers_as_list eq_refl eq_refl)
             (JList []) eq_refl eq_refl).
  - exact (proj2 (headers_and_encoding_rules Cases.encoding_null eq_refl eq_refl)
             [] JNull eq_refl eq_refl eq_refl).
Defined.

(** X4: once the four rules before it have passed, a [timeout] that is
    not an [int], or is an integer [<= 0] or [>= 60], raises
    [IncorrectTimeoutError]; an integer from 1 to 59 passes, and so does
    [true], which [isinstance] takes for the integer 1. *)
Theorem timeout_rule (config v : json) :
  Config.check_seed_urls config = Return tt ->
  Config.check_total_articles config = Return tt ->
  Config.check_headers config = Return tt ->
  Config.check_encoding config = Return tt ->
  getitem config "timeout" = Return v ->
  (as_int v = None ->
   Config._validate_config_content config = Raise IncorrectTimeoutError)
  /\ (forall t, as_int v = Some t -> t <= 0 \/ 60 <= t ->
      Config._validate_config_content config = Raise IncorrectTimeoutError)
  /\ (forall t, as_int v = Some t -> 0 < t < 60 ->
      Config.check_timeout config = Return tt
      /\ Config._validate_config_content config = Config.check_flags config)
  /\ as_int (JBool true) = Some 1.
Proof.
  intros H1 H2 H3 H4 Hget; rewrite (validate_after_total _ H1 H2).
  unfold Spec.later_rules; rewrite H3, H4; simpl.
  unfold Config.check_timeout; rewrite Hget; simpl.
  split; [intros ->; reflexivity|].
  split; [|split; [|reflexivity]]; intros t -> Ht.
  - destruct (Z.ltb_spec 0 t); destruct (Z.ltb_spec t 60); simpl;
      try reflexivity; lia.
  - destruct (Z.ltb_spec 0 t); destruct (Z.ltb_spec t 60); simpl;
      try (split; reflexivity); lia.
Qed.

Lemma timeout_rule_witness :
  Config._validate_config_content Cases.timeout_sixty
  = Raise IncorrectTimeoutError
  /\ Config._validate_config_content Cases.timeout_true = Return tt.
Proof.
  split.
  - refine (proj1 (proj2 (timeout_rule Cases.timeout_sixty (JInt 60)
                            eq_refl eq_refl eq_refl eq_refl eq_refl)) 60 eq_refl _).
    right; lia.
  - refine (eq_trans (proj2 (proj1 (proj2 (proj2
              (timeout_rule Cases.timeout_true (JBool true)
                 eq_refl eq_refl eq_refl eq_refl eq_refl)))
              1 eq_refl _)) eq_refl).
    lia.
Defined.

(** X5: once the five rules before it have passed, the last rule raises
    [IncorrectVerifyError] as soon as [should_verify_certificate] is not
    a boolean, without reading [headless_mode] (which may even be
    missing); with a boolean there, it raises [IncorrectVerifyError] on a
    [headless_mode] that is not a boolean, and validation passes on one
    that is.  The numbers 0 and 1 are not booleans. *)
Theorem flags_rule (config v : json) :
  Config.check_seed_urls config = Return tt ->
  Config.check_total_articles config = Return tt ->
  Config.check_headers config = Return tt ->
  Config.check_encoding config = Return tt ->
  Config.check_timeout config = Return tt ->
  getitem config "should_verify_certificate" = Return v ->
  (is_bool v = false ->
   Config._validate_config_content config = Raise IncorrectVerifyError)
  /\ (forall h, is_bool v = true -> getitem config "headless_mode" = Return h ->
      Config._validate_config_content config
      = if is_bool h then Return tt else Raise IncorrectVerifyError)
  /\ (forall z, is_bool (JInt z) = false).
Proof.
  intros H1 H2 H3 H4 H5 Hget; rewrite (validate_after_total _ H1 H2).
  unfold Spec.later_rules; rewrite H3, H4, H5; simpl.
  unfold Config.check_flags; rewrite Hget; simpl.
  split; [intros ->; reflexivity|].
  split; [|reflexivity].
  intros h -> ->; simpl; now destruct (is_bool h).
Qed.

Lemma flags_rule_witness :
  Config._validate_config_content Cases.verify_one_without_headless
  = Raise IncorrectVerifyError
  /\ Config._validate_config_content Cases.headless_zero
     = Raise IncorrectVerifyError.
Proof.
  split.
  - exact (proj1 (flags_rule Cases.verify_one_without_headless (JInt 1)
                    eq_refl eq_refl eq_refl eq_refl eq_refl eq_refl) eq_refl).
  - exact (proj1 (proj2 (flags_rule Cases.headless_zero (JBool false)
                           eq_refl eq_refl eq_refl eq_refl eq_refl eq_refl))
             (JInt 0) eq_refl eq_refl).
Defined.

(** ** Config: documents that are not of the expected kind at all *)

Lemma getitem_raises (config : json) (key : string) (e : exn) :
  getitem config key = Raise e -> e = KeyError \/ e = TypeError.
Proof.
  unfold getitem; destruct config; try (intros [= <-]; auto).
  destruct (dict_get items key); [discriminate | intros [= <-]; auto].
Qed.

Lemma all_match_raises (l : list json) (e : exn) :
  Config.all_match l = Raise e -> e = TypeError.
Proof.
  induction l as [|v l IH]; simpl; [discriminate|].
  destruct v; try (intros [= <-]; reflexivity).
  destruct (Config.re_match_seed s); [exact IH | discriminate].
Qed.


Lemma check_seed_urls_raises (config : json) (e : exn) :
  Config.check_seed_urls config = Raise e -> Shape.config_error e.
Proof.
  unfold Config.check_seed_urls, Shape.config_error.
  destruct (getitem config "seed_urls") as [v|e'] eqn:E; simpl.
  - destruct v; simpl; try (intros [= <-]; simpl; tauto).
    destruct (Config.all_match items) as [[]|e'] eqn:Ea; simpl;
      try (intros [= <-]; simpl; tauto).
    intros [= <-]; apply all_match_raises in Ea; subst; simpl; tauto.
  - intros [= <-]; apply getitem_raises in E as [-> | ->]; simpl; tauto.
Qed.

Ltac rule_raises key :=
  match goal with
  | |- context [getitem ?c key] =>
      let E := fresh "E" in
      destruct (getitem c key) as [?v|?e] eqn:E; simpl;
      [| intros [= <-]; apply getitem_raises in E as [-> | ->]; simpl; tauto]
  end.

Lemma later_checks_raise (config : json) (e : exn) :
  (Config.check_total_articles config = Raise e
   \/ Config.check_headers config = Raise e
   \/ Config.check_encoding config = Raise e
   \/ Config.check_timeout config = Raise e
   \/ Config.check_flags config = Raise e) ->
  Shape.config_error e.
Proof.
  unfold Shape.config_error.
  intros [H|[H|[H|[H|H]]]]; revert H.
  - unfold Config.check_total_articles.
    rule_raises "total_articles_to_find_and_parse".
    destruct (as_int v); [|intros [= <-]; simpl; tauto].
    destruct (z <=? 0); [intros [= <-]; simpl; tauto|].
    destruct (negb _); [intros [= <-]; simpl; tauto | discriminate].
  - unfold Config.check_headers; rule_raises "headers".
    destruct (negb _); [intros [= <-]; simpl; tauto | discriminate].
  - unfold Config.check_encoding; rule_raises "encoding".
    destruct (negb _); [intros [= <-]; simpl; tauto | discriminate].
  - unfold Config.check_timeout; rule_raises "timeout".
    destruct (as_int v); [|intros [= <-]; simpl; tauto].
    destruct (negb _); [intros [= <-]; simpl; tauto | discriminate].
  - unfold Config.check_flags; rule_raises "should_verify_certificate".
    destruct (negb _); [intros [= <-]; simpl; tauto|].
    rule_raises "headless_mode".
    destruct (negb _); [intros [= <-]; simpl; tauto | discriminate].
Qed.

Lemma validation_raises (config : json) (e : exn) :
  Config._validate_config_content config = Raise e -> Shape.config_error e.
Proof.
  unfold Config._validate_config_content.
  destruct (Config.check_seed_urls config) as [[]|e1] eqn:E1; simpl;
    [|intros [= <-]; now apply check_seed_urls_raises in E1].
  destruct (Config.check_total_articles config) as [[]|e2] eqn:E2; simpl;
    [|intros [= <-]; apply (later_checks_raise config); auto].
  destruct (Config.check_headers config) as [[]|e3] eqn:E3; simpl;
    [|intros [= <-]; apply (later_checks_raise config); auto].
  destruct (Config.check_encoding config) as [[]|e4] eqn:E4; simpl;
    [|intros [= <-]; apply (later_checks_raise config); auto].
  destruct (Config.check_timeout config) as [[]|e5] eqn:E5; simpl;
    [|intros [= <-]; apply (later_checks_raise config); auto 6].
  intros H; apply (later_checks_raise config); auto 6.
Qed.

(** X6: the construction of [Config] raises exactly when validation
    does, with the same exception: reading the fields afterwards never
    fails.  The exception is one of the seven of the module, [KeyError]
    or [TypeError]; it is [TypeError] on every document that is not a
    dict, and [KeyError] on a dict without [seed_urls]. *)
Theorem config_failures (config : json) :
  (forall e, Config.__init__ config = Raise e <->
             Config._validate_config_content config = Raise e)
  /\ (forall e, Config.__init__ config = Raise e -> Shape.config_error e)
  /\ (is_dict config = false -> Config.__init__ config = Raise TypeError)
  /\ (forall items, config = JDict items -> dict_get items "seed_urls" = None ->
      Config.__init__ config = Raise KeyError).
Proof.
  assert (Hiff : forall e, Config.__init__ config = Raise e <->
                           Config._validate_config_content config = Raise e).
  { intros e; split.
    - intros H.
      destruct (Config._validate_config_content config) as [[]|e'] eqn:Ev.
      + destruct (init_after_validation config Ev) as (c & Hc & _); congruence.
      + rewrite (init_stops_at_validation _ _ Ev) in H; congruence.
    - apply init_stops_at_validation. }
  split; [exact Hiff|]. split; [|split].
  - intros e He; apply Hiff in He; exact (validation_raises _ _ He).
  - intros Hd; apply init_stops_at_validation, validate_stops_at_seed_urls.
    unfold Config.check_seed_urls; destruct config; try reflexivity; discriminate.
  - intros items -> Hnone.
    apply init_stops_at_validation, validate_stops_at_seed_urls.
    unfold Config.check_seed_urls; simpl; now rewrite Hnone.
Qed.

Lemma config_failures_witness :
  Config.__init__ (JList [Cases.good_document]) = Raise TypeError
  /\ Config.__init__ (JDict [("seed_url", JList [])]) = Raise KeyError.
Proof.
  split.
  - exact (proj1 (proj2 (proj2 (config_failures (JList [Cases.good_document]))))
             eq_refl).
  - exact (proj2 (proj2 (proj2 (config_failures (JDict [("seed_url", JList [])]))))
             [("seed_url", JList [])] eq_refl eq_refl).
Defined.

Lemma strip_prefix_Some (p s r : string) :
  strip_prefix p s = Some r <-> s = p ++ r.
Proof.
  revert s; induction p as [|c p IH]; intros s; simpl.
  - split; [intros [= ->]; reflexivity | intros ->; reflexivity].
  - destruct s as [|d s]; [split; discriminate|].
    destruct (Ascii.eqb_spec c d) as [->|Hne].
    + rewrite IH; split; [intros ->; reflexivity | intros [= ->]; reflexivity].
    + split; [discriminate | intros [= H _]; congruence].
Qed.

(** X7: the test applied to each seed URL, the regular expression
    [https?://(www.)?] matched at the start, accepts exactly the strings
    that begin with [http://] or with [https://], whatever follows and
    even if nothing does: the optional group changes nothing. *)
Theorem seed_url_test_is_a_prefix_test (s : string) :
  Config.re_match_seed s = true <->
  exists rest, s = "http://" ++ rest \/ s = "https://" ++ rest.
Proof.
  rewrite re_match_seed_spec; unfold Spec.scheme_host_pattern, startswith.
  split.
  - intros H; apply orb_prop in H as [H|H].
    + destruct (strip_prefix "http://" s) as [r|] eqn:E; [|discriminate].
      exists r; left; now apply strip_prefix_Some.
    + destruct (strip_prefix "https://" s) as [r|] eqn:E; [|discriminate].
      exists r; right; now apply strip_prefix_Some.
  - intros (rest & [H|H]); apply strip_prefix_Some in H; rewrite H;
      [reflexivity | apply orb_true_r].
Qed.

Lemma seed_url_test_is_a_prefix_test_witness :
  Config.re_match_seed "http://" = true.
Proof.
  apply (proj2 (seed_url_test_is_a_prefix_test "http://")).
  exists ""; left; reflexivity.
Defined.

(** ** Crawler: what one scan of a seed page can do *)

Lemma scan_links_outcomes (self : Crawler.t) (links : list bs4.node) :
  match Crawler.scan_links self links with
  | (Return (Some u), self') =>
      self' = Crawler.append self (Some u)
      /\ Crawler.contains (Crawler.urls self) (Some u) = false
      /\ exists link href,
           In link links /\ bs4.get link "href" = Some href
           /\ startswith href "/content/" = true
           /\ u = Crawler.url_pattern self ++ href
  | (Return None, self') => self' = self
  | (Raise e, self') => self' = self /\ e = AttributeError
  end.
Proof.
  induction links as [|link rest IH]; simpl; [reflexivity|].
  destruct (bs4.get link "href") as [href|] eqn:Eh; [|auto].
  assert (Hrest :
    match Crawler.scan_links self rest with
    | (Return (Some u), self') =>
        self' = Crawler.append self (Some u)
        /\ Crawler.contains (Crawler.urls self) (Some u) = false
        /\ exists link0 href0,
             In link0 (link :: rest) /\ bs4.get link0 "href" = Some href0
             /\ startswith href0 "/content/" = true
             /\ u = Crawler.url_pattern self ++ href0
    | (Return None, self') => self' = self
    | (Raise e, self') => self' = self /\ e = AttributeError
    end).
  { destruct (Crawler.scan_links self rest) as [[[u|]|e] self']; auto.
    destruct IH as (H1 & H2 & l & h & Hin & H3); repeat split; auto.
    exists l, h; simpl; tauto. }
  destruct (startswith href "/content/") eqn:Es; [|exact Hrest].
  destruct (Crawler.contains _ _) eqn:Ec; simpl; [exact Hrest|].
  repeat split; auto.
  exists link, href; simpl; auto.
Qed.

Lemma extract_url_cases (self : Crawler.t) (page : bs4.node) :
  match Crawler._extract_url self page with
  | (Return (Some u), self') =>
      self' = Crawler.append self (Some u)
      /\ Crawler.contains (Crawler.urls self) (Some u) = false
      /\ exists anchors link href,
           Spec.region_anchors page = Some anchors
           /\ In link anchors /\ bs4.get link "href" = Some href
           /\ startswith href "/content/" = true
           /\ u = Crawler.url_pattern self ++ href
  | (Return None, self') => self' = self
  | (Raise e, self') => self' = self /\ e = AttributeError
  end.
Proof.
  unfold Crawler._extract_url, Spec.region_anchors.
  destruct (bs4.find Crawler.is_region page) as [region|]; [|auto].
  pose proof (scan_links_outcomes self (bs4.find_all (bs4.has_name "a") region)) as H.
  destruct (Crawler.scan_links self _) as [[[u|]|e] self']; auto.
  destruct H as (H1 & H2 & l & h & H3); repeat split; auto.
  exists (bs4.find_all (bs4.has_name "a") region), l, h; auto.
Qed.

(** X8: whatever the page, [_extract_url] does one of three things.  It
    returns an address and appends exactly that address, which was not
    in the list and is the site prefix followed by the [href], starting
    with [/content/], of an anchor of the content region; or it returns
    [None] and changes nothing; or it raises [AttributeError] and changes
    nothing. *)
Theorem extract_url_outcomes (self : Crawler.t) (page : bs4.node) :
  match Crawler._extract_url self page with
  | (Return (Some u), self') =>
      self' = Crawler.append self (Some u)
      /\ Crawler.contains (Crawler.urls self) (Some u) = false
      /\ exists anchors link href,
           Spec.region_anchors page = Some anchors
           /\ In link anchors /\ bs4.get link "href" = Some href
           /\ startswith href "/content/" = true
           /\ u = Crawler.url_pattern self ++ href
  | (Return None, self') => self' = self
  | (Raise e, self') => self' = self /\ e = AttributeError
  end.
Proof.
  unfold Crawler._extract_url, Spec.region_anchors.
  destruct (bs4.find Crawler.is_region page) as [region|]; [|auto].
  pose proof (scan_links_outcomes self (bs4.find_all (bs4.has_name "a") region)) as H.
  destruct (Crawler.scan_links self _) as [[[u|]|e] self']; auto.
  destruct H as (H1 & H2 & l & h & H3); repeat split; auto.
  exists (bs4.find_all (bs4.has_name "a") region), l, h; auto.
Qed.

Lemma scan_links_first_new (self : Crawler.t) (before : list bs4.node)
    (link : bs4.node) (after : list bs4.node) (href : string) :
  Spec.nothing_new self before = true ->
  bs4.get link "href" = Some href ->
  Spec.new_article_link self link = true ->
  Crawler.scan_links self (before ++ link :: after)
  = (Return (Some (Crawler.url_pattern self ++ href)),
     Crawler.append self (Some (Crawler.url_pattern self ++ href))).
Proof.
  intros Hbefore Hhref Hnew.
  unfold Spec.nothing_new in Hbefore.
  induction before as [|l before IH]; simpl.
  - unfold Spec.new_article_link in Hnew; rewrite Hhref in *.
    apply andb_prop in Hnew as [-> Hc]; now rewrite Hc.
  - simpl in Hbefore; apply andb_prop in Hbefore as [Hl Hrest].
    unfold Spec.has_href, Spec.new_article_link in Hl.
    destruct (bs4.get l "href") as [h|]; [|discriminate].
    destruct (startswith h "/content/"); simpl in *; [|now apply IH].
    destruct (Crawler.contains _ _); simpl in *; [now apply IH | discriminate].
Qed.

(** X9: of the anchors of the content region, [_extract_url] takes the
    first, in document order, whose [href] starts with [/content/] and
    whose address is not in the list yet, provided every anchor before it
    has an [href]: it returns the site prefix followed by that [href]
    and appends it; later anchors are not looked at. *)
Theorem extract_url_takes_first_new_link (self : Crawler.t) (page : bs4.node)
    (before : list bs4.node) (link : bs4.node) (after : list bs4.node)
    (href : string) :
  Spec.region_anchors page = Some (before ++ link :: after)%list ->
  Spec.nothing_new self before = true ->
  bs4.get link "href" = Some href ->
  Spec.new_article_link self link = true ->
  Crawler._extract_url self page
  = (Return (Some (Crawler.url_pattern self ++ href)),
     Crawler.append self (Some (Crawler.url_pattern self ++ href))).
Proof.
  unfold Spec.region_anchors, Crawler._extract_url.
  destruct (bs4.find Crawler.is_region page) as [region|]; [|discriminate].
  intros [= ->]; apply scan_links_first_new.
Qed.

Lemma extract_url_takes_first_new_link_witness :
  Crawler._extract_url Cases.crawler_knowing_a Cases.page_three_links
  = (Return (Some "https://www.comnews.ru//content/b"),
     Crawler.append Cases.crawler_knowing_a
       (Some "https://www.comnews.ru//content/b")).
Proof.
  exact (extract_url_takes_first_new_link Cases.crawler_knowing_a
           Cases.page_three_links
           [Samples.anchor "/about"; Samples.anchor "/content/a"]
           (Samples.anchor "/content/b") [Samples.anchor "/content/c"]
           "/content/b" eq_refl eq_refl eq_refl eq_refl).
Defined.

(** ** Crawler: what [find_articles] leaves behind *)

Lemma for_seed_urls_keeps_config (net : requests.network) (n_len : Z)
    (seed_urls : list string) :
  forall (self : Crawler.t) (clock : nat),
    let self' := snd (fst (Crawler.for_seed_urls net n_len seed_urls self clock)) in
    Crawler.config self' = Crawler.config self
    /\ Crawler.url_pattern self' = Crawler.url_pattern self.
Proof.
  induction seed_urls as [|seed_url rest IH]; intros self clock; simpl; [auto|].
  destruct (make_request net clock seed_url (Crawler.config self)) as [response|e];
    simpl; [|auto].
  destruct (requests.ok response); simpl; [|apply IH].
  pose proof (extract_url_keeps self (requests.soup response)) as (Hc & Hp & _).
  destruct (Crawler._extract_url self (requests.soup response)) as [[new_url|e] self1];
    simpl in *; [|auto].
  destruct (len (Crawler.urls self1) >=? n_len); simpl; [auto|].
  destruct (len (Crawler.urls self1 ++ [new_url]) >=? n_len); simpl; [auto|].
  destruct (IH (Crawler.append self1 new_url) (S clock)) as [H1 H2].
  simpl in *; split; congruence.
Qed.

Lemma while_loop_keeps_config (net : requests.network) (n_len : Z)
    (seed_urls : list string) (fuel : nat) :
  forall (self : Crawler.t) (clock : nat) r self' clock',
    Crawler.while_loop fuel net n_len seed_urls self clock = Some (r, self', clock') ->
    Crawler.config self' = Crawler.config self
    /\ Crawler.url_pattern self' = Crawler.url_pattern self.
Proof.
  induction fuel as [|fuel IH]; intros self clock r self' clock'; simpl.
  - destruct (len (Crawler.urls self) <? n_len); [discriminate|].
    intros [= _ <- _]; auto.
  - destruct (len (Crawler.urls self) <? n_len); [|intros [= _ <- _]; auto].
    pose proof (for_seed_urls_keeps_config net n_len seed_urls self clock) as Hk.
    destruct (Crawler.for_seed_urls net n_len seed_urls self clock)
      as [[[x|e] self1] clock1]; simpl in Hk.
    + intros H; apply IH in H; destruct H, Hk; split; congruence.
    + intros [= _ <- _]; exact Hk.
Qed.

Lemma while_loop_returns_full (net : requests.network) (n_len : Z)
    (seed_urls : list string) (fuel : nat) :
  forall (self : Crawler.t) (clock : nat) x self' clock',
    Crawler.while_loop fuel net n_len seed_urls self clock
    = Some (Return x, self', clock') ->
    n_len <= len (Crawler.urls self').
Proof.
  induction fuel as [|fuel IH]; intros self clock x self' clock'; simpl.
  - destruct (Z.ltb_spec (len (Crawler.urls self)) n_len); [discriminate|].
    intros [= _ <- _]; assumption.
  - destruct (Z.ltb_spec (len (Crawler.urls self)) n_len);
      [|intros [= _ <- _]; assumption].
    destruct (Crawler.for_seed_urls net n_len seed_urls self clock)
      as [[[y|e] self1] clock1]; [apply IH | discriminate].
Qed.

(** X10: with a target that is not negative, [find_articles] on a new
    crawler never leaves more entries than the target, however it ends;
    when it returns normally it leaves exactly as many; and calling it
    again then returns at once, without a request and without a change,
    whatever the network. *)
Theorem find_articles_fills_to_target (fuel : nat) (net : requests.network)
    (config : Config.t) (clock : nat) (r : outcome unit) (self' : Crawler.t)
    (clock' : nat) :
  0 <= Config.get_num_articles config ->
  Crawler.find_articles fuel net (Crawler.__init__ config) clock
  = Some (r, self', clock') ->
  len (Crawler.urls self') <= Config.get_num_articles config
  /\ (r = Return tt ->
      len (Crawler.urls self') = Config.get_num_articles config
      /\ forall fuel2 net2 clock2,
           Crawler.find_articles fuel2 net2 self' clock2
           = Some (Return tt, self', clock2)).
Proof.
  intros Hn H.
  pose proof (find_articles_length_bound _ _ _ _ _ _ _ Hn H) as Hle.
  split; [exact Hle|].
  intros ->; unfold Crawler.find_articles in H.
  pose proof (while_loop_returns_full _ _ _ _ _ _ _ _ _ H) as Hge.
  pose proof (while_loop_keeps_config _ _ _ _ _ _ _ _ _ H) as [Hc _].
  simpl in *; split; [lia|].
  intros fuel2 net2 clock2; unfold Crawler.find_articles.
  rewrite Hc; simpl.
  destruct fuel2; simpl;
    destruct (Z.ltb_spec (len (Crawler.urls self')) (Config.get_num_articles config));
    try lia; reflexivity.
Qed.

Lemma find_articles_fills_to_target_witness :
  exists self' clock',
    Crawler.find_articles 1 (Samples.serving Cases.page_three_links)
      (Crawler.__init__ Samples.config) 0 = Some (Return tt, self', clock')
    /\ len (Crawler.urls self') = 2.
Proof.
  eexists _, _; split; [reflexivity|].
  refine (proj1 (proj2 (find_articles_fills_to_target 1
            (Samples.serving Cases.page_three_links) Samples.config 0 (Return tt)
            _ _ _ eq_refl) eq_refl)).
  simpl; lia.
Defined.

Lemma while_loop_idle (net : requests.network) (n_len : Z)
    (seed_urls : list string) (self : Crawler.t) :
  len (Crawler.urls self) < n_len ->
  (forall clock, exists clock',
      Crawler.for_seed_urls net n_len seed_urls self clock = (Return tt, self, clock')) ->
  forall fuel clock, Crawler.while_loop fuel net n_len seed_urls self clock = None.
Proof.
  intros Hlt Hpass; apply Z.ltb_lt in Hlt.
  induction fuel as [|fuel IH]; intros clock; simpl; rewrite Hlt; [reflexivity|].
  destruct (Hpass clock) as (clock' & ->); apply IH.
Qed.

(** X11: while the list is below the target, [find_articles] does not
    come to an end when there is no seed URL at all, nor when every
    request for a seed page is answered with a response that is not
    [ok]: a pass then changes nothing, and no number of passes is
    enough. *)
Theorem find_articles_hangs (net : requests.network) (self : Crawler.t) :
  Crawler.get_search_urls self = []
  \/ Shape.all_fetches_fail net (Crawler.config self) ->
  len (Crawler.urls self) < Config.get_num_articles (Crawler.config self) ->
  forall fuel clock, Crawler.find_articles fuel net self clock = None.
Proof.
  intros Hcase Hlt fuel clock; unfold Crawler.find_articles.
  apply while_loop_idle; [exact Hlt|].
  intros c; destruct Hcase as [-> | Hfail].
  - exists c; reflexivity.
  - eexists; apply for_seed_urls_all_failed; exact Hfail.
Qed.

Lemma find_articles_hangs_witness :
  Crawler.find_articles 50 Samples.failing (Crawler.__init__ Samples.config) 0 = None.
Proof.
  refine (find_articles_hangs Samples.failing (Crawler.__init__ Samples.config)
            (or_intror _) _ 50%nat 0%nat).
  - intros t url; eexists; split; reflexivity.
  - simpl; unfold len; simpl; lia.
Defined.

(** X12: when every seed page is fetched successfully and none has a
    new article link (nor an anchor without [href]), [find_articles] on
    a new crawler with at least one seed comes to an end within as many
    passes as the target, and the list it leaves is [None], as many times
    as the target. *)
Theorem find_articles_pads_with_None (net : requests.network) (config : Config.t) :
  Config.get_seed_urls config <> [] ->
  Spec.stagnant net (Config.get_seed_urls config) (Crawler.__init__ config) ->
  exists self' clock',
    Crawler.find_articles (Z.to_nat (Config.get_num_articles config)) net
      (Crawler.__init__ config) 0 = Some (Return tt, self', clock')
    /\ Crawler.urls self'
       = repeat None (Z.to_nat (Config.get_num_articles config)).
Proof.
  intros Hseeds Hst.
  destruct (while_loop_stagnant net (Config.get_num_articles config)
              (Config.get_seed_urls config) Hseeds
              (Z.to_nat (Config.get_num_articles config))
              (Crawler.__init__ config) 0%nat Hst) as (clock' & H).
  { simpl; unfold len; simpl; lia. }
  eexists _, clock'; split; [exact H|].
  rewrite (proj1 (padded_urls _ _)); simpl.
  unfold len; simpl; now rewrite Z.sub_0_r.
Qed.

Lemma find_articles_pads_with_None_witness :
  exists self' clock',
    Crawler.find_articles 2 (Samples.serving Samples.page_no_link)
      (Crawler.__init__ Samples.config) 0 = Some (Return tt, self', clock')
    /\ Crawler.urls self' = [None; None].
Proof.
  refine (find_articles_pads_with_None (Samples.serving Samples.page_no_link)
            Samples.config _ _).
  - discriminate.
  - intros t url Hin; eexists _, _; repeat split; reflexivity.
Defined.

(** ** Crawler: the entries of the list *)

Lemma app_article_entry (pattern : string) (l : list (option string))
    (x : option string) :
  Forall (Shape.article_entry pattern) l -> Shape.article_entry pattern x ->
  Forall (Shape.article_entry pattern) (l ++ [x]).
Proof.
  intros Hl Hx; apply Forall_app; split; [exact Hl | repeat constructor; exact Hx].
Qed.

Lemma extract_url_entries (self : Crawler.t) (page : bs4.node) :
  Forall (Shape.article_entry (Crawler.url_pattern self)) (Crawler.urls self) ->
  let r := Crawler._extract_url self page in
  Forall (Shape.article_entry (Crawler.url_pattern self)) (Crawler.urls (snd r))
  /\ (forall new_url, fst r = Return new_url ->
        Shape.article_entry (Crawler.url_pattern self) new_url)
  /\ (forall e, fst r = Raise e -> e = AttributeError).
Proof.
  intros Hinv r; subst r.
  pose proof (extract_url_cases self page) as H.
  destruct (Crawler._extract_url self page) as [[[u|]|e] self']; simpl.
  - destruct H as (-> & _ & _ & link & href & _ & _ & _ & Hs & ->).
    assert (He : Shape.article_entry (Crawler.url_pattern self)
                   (Some (Crawler.url_pattern self ++ href))).
    { exists href; auto. }
    repeat split.
    + simpl; now apply app_article_entry.
    + intros new_url [= <-]; exact He.
    + discriminate.
  - subst; repeat split; [exact Hinv | intros new_url [= <-]; exact I | discriminate].
  - destruct H as [-> ->]; repeat split; [exact Hinv | discriminate | congruence].
Qed.

Lemma for_seed_urls_entries (net : requests.network) (n_len : Z)
    (seed_urls : list string) :
  forall (self : Crawler.t) (clock : nat),
    Forall (Shape.article_entry (Crawler.url_pattern self)) (Crawler.urls self) ->
    let r := Crawler.for_seed_urls net n_len seed_urls self clock in
    Forall (Shape.article_entry (Crawler.url_pattern self))
      (Crawler.urls (snd (fst r)))
    /\ (forall e, fst (fst r) = Raise e ->
          e = AttributeError
          \/ exists t url, make_request net t url (Crawler.config self) = Raise e).
Proof.
  induction seed_urls as [|seed_url rest IH]; intros self clock Hinv; simpl.
  - split; [exact Hinv | discriminate].
  - destruct (make_request net clock seed_url (Crawler.config self))
      as [response|e] eqn:Ereq; simpl.
    + destruct (requests.ok response); simpl; [|apply IH; exact Hinv].
      pose proof (extract_url_entries self (requests.soup response) Hinv)
        as (H1 & H2 & H3).
      pose proof (extract_url_keeps self (requests.soup response)) as (Hc & Hp & _).
      destruct (Crawler._extract_url self (requests.soup response))
        as [[new_url|e] self1]; simpl in *.
      * specialize (H2 new_url eq_refl).
        destruct (len (Crawler.urls self1) >=? n_len); simpl;
          [split; [exact H1 | discriminate]|].
        destruct (len (Crawler.urls self1 ++ [new_url]) >=? n_len); simpl;
          [split; [now apply app_article_entry | discriminate]|].
        destruct (IH (Crawler.append self1 new_url) (S clock)) as [Ha Hb].
        { simpl; rewrite Hp; now apply app_article_entry. }
        simpl in Ha, Hb; rewrite Hp, Hc in *; split; assumption.
      * split; [exact H1|]. intros e' [= <-]; left; now apply H3.
    + split; [exact Hinv|].
      intros e' [= <-]; right; eauto.
Qed.

Lemma while_loop_entries (net : requests.network) (n_len : Z)
    (seed_urls : list string) (fuel : nat) :
  forall (self : Crawler.t) (clock : nat) r self' clock',
    Forall (Shape.article_entry (Crawler.url_pattern self)) (Crawler.urls self) ->
    Crawler.while_loop fuel net n_len seed_urls self clock = Some (r, self', clock') ->
    Forall (Shape.article_entry (Crawler.url_pattern self)) (Crawler.urls self')
    /\ (forall e, r = Raise e ->
          e = AttributeError
          \/ exists t url, make_request net t url (Crawler.config self) = Raise e).
Proof.
  induction fuel as [|fuel IH]; intros self clock r self' clock' Hinv; simpl.
  - destruct (len (Crawler.urls self) <? n_len); [discriminate|].
    intros [= <- <- _]; split; [exact Hinv | discriminate].
  - destruct (len (Crawler.urls self) <? n_len);
      [|intros [= <- <- _]; split; [exact Hinv | discriminate]].
    pose proof (for_seed_urls_entries net n_len seed_urls self clock Hinv) as [Ha Hb].
    pose proof (for_seed_urls_keeps_config net n_len seed_urls self clock) as [Hc Hp].
    destruct (Crawler.for_seed_urls net n_len seed_urls self clock)
      as [[[x|e] self1] clock1]; simpl in *.
    + intros H; apply IH in H; rewrite ?Hp, ?Hc in H; [exact H|].
      rewrite Hp; exact Ha.
    + intros [= <- <- _]; split; [exact Ha|].
      intros e' [= <-]; now apply Hb.
Qed.

(** X13: whatever the pages are and however [find_articles] ends on a
    new crawler, every entry of the list is [None] or the site prefix
    [https://www.comnews.ru/] followed by a link target that starts with
    [/content/]. *)
Theorem find_articles_entries (fuel : nat) (net : requests.network)
    (config : Config.t) (clock : nat) (r : outcome unit) (self' : Crawler.t)
    (clock' : nat) :
  Crawler.find_articles fuel net (Crawler.__init__ config) clock
  = Some (r, self', clock') ->
  Forall (Shape.article_entry "https://www.comnews.ru/") (Crawler.urls self').
Proof.
  intros H; unfold Crawler.find_articles in H.
  apply (while_loop_entries _ _ _ _ _ _ _ _ _) in H; [exact (proj1 H)|].
  constructor.
Qed.

Lemma find_articles_entries_witness :
  Forall (Shape.article_entry "https://www.comnews.ru/")
    [Some "https://www.comnews.ru//content/a";
     Some "https://www.comnews.ru//content/a"].
Proof.
  exact (find_articles_entries 1 (Samples.serving Samples.page_one_link)
           Samples.config 0 (Return tt) _ 1%nat eq_refl).
Defined.

(** ** HTMLParser: what the steps leave alone *)

Section StepFrames.

Variable X : Type.
Variable g : HTMLParser.t -> X.

Lemma and_then_stays (step k : HTMLParser.t -> outcome unit * HTMLParser.t) :
  Shape.stays g step -> Shape.stays g k ->
  Shape.stays g (fun s => HTMLParser.and_then (step s) k).
Proof.
  intros Hs Hk self; specialize (Hs self).
  destruct (step self) as [[x|e] s]; simpl in *; [now rewrite Hk | exact Hs].
Qed.

Lemma fill_title_stays (page : bs4.node) :
  (forall self v, g (HTMLParser.update self (fun a => Article.set_title a v)) = g self) ->
  Shape.stays g (fun s => HTMLParser.fill_title s page).
Proof.
  intros H self; unfold HTMLParser.fill_title.
  destruct (bs4.find _ page); [apply H | reflexivity].
Qed.

Lemma fill_date_stays (page : bs4.node) :
  (forall self v, g (HTMLParser.update self (fun a => Article.set_date a v)) = g self) ->
  Shape.stays g (fun s => HTMLParser.fill_date s page).
Proof.
  intros H self; unfold HTMLParser.fill_date.
  destruct (bs4.find _ page); [|reflexivity].
  destruct (HTMLParser.unify_date_format _); [apply H | reflexivity].
Qed.

Hypothesis topics_append :
  forall self v,
    g (HTMLParser.update self
         (fun r => Article.set_topics r (Article.topics r ++ [v]))) = g self.

Lemma for_topics_stays (tags : list bs4.node) :
  Shape.stays g (fun s => HTMLParser.for_topics s tags).
Proof.
  induction tags as [|tag tags IH]; intros self; simpl; [reflexivity|].
  destruct (bs4.find _ tag); [|reflexivity].
  now rewrite IH.
Qed.

Lemma fill_topics_stays (page : bs4.node) :
  Shape.stays g (fun s => HTMLParser.fill_topics s page).
Proof.
  intros self; unfold HTMLParser.fill_topics.
  destruct (bs4.find_all _ page) as [|tag tags]; [apply topics_append|].
  apply (for_topics_stays (tag :: tags)).
Qed.

Hypothesis author_reset :
  forall self, g (HTMLParser.update self (fun r => Article.set_author r [])) = g self.
Hypothesis author_append :
  forall self v,
    g (HTMLParser.update self
         (fun r => Article.set_author r (Article.author r ++ [v]))) = g self.

Lemma for_authors_stays (authors : list bs4.node) :
  Shape.stays g (fun s => HTMLParser.for_authors s authors).
Proof.
  induction authors as [|author authors IH]; intros self; simpl; [reflexivity|].
  destruct (bs4.find _ author); [|reflexivity].
  now rewrite IH.
Qed.

Lemma fill_authors_stays (page : bs4.node) :
  Shape.stays g (fun s => HTMLParser.fill_authors s page).
Proof.
  intros self; unfold HTMLParser.fill_authors.
  destruct (bs4.find_all _ page) as [|author authors].
  - simpl; now rewrite author_append, author_reset.
  - now rewrite (for_authors_stays (author :: authors)).
Qed.

Lemma topics_and_authors_stay (page : bs4.node) :
  Shape.stays g (fun s => HTMLParser.and_then (HTMLParser.fill_topics s page)
                            (fun s => HTMLParser.fill_authors s page)).
Proof.
  apply and_then_stays; [apply fill_topics_stays | apply fill_authors_stays].
Qed.

Hypothesis title_set :
  forall self v, g (HTMLParser.update self (fun a => Article.set_title a v)) = g self.
Hypothesis date_set :
  forall self v, g (HTMLParser.update self (fun a => Article.set_date a v)) = g self.

Lemma meta_information_stays (page : bs4.node) :
  Shape.stays g (fun s => HTMLParser._fill_article_with_meta_information s page).
Proof.
  unfold HTMLParser._fill_article_with_meta_information.
  apply and_then_stays; [now apply fill_title_stays|].
  apply and_then_stays; [now apply fill_date_stays|].
  apply topics_and_authors_stay.
Qed.

Hypothesis text_set :
  forall self v, g (HTMLParser.update self (fun a => Article.set_text a v)) = g self.

Lemma parse_stays (net : requests.network) (self : HTMLParser.t) (clock : nat) :
  g (snd (HTMLParser.parse net self clock)) = g self.
Proof.
  unfold HTMLParser.parse.
  destruct (make_request net clock _ _) as [response|e]; [|reflexivity].
  destruct (requests.ok response); [|reflexivity].
  pose proof (meta_information_stays (requests.soup response)
                (HTMLParser._fill_article_with_text self (requests.soup response)))
    as H.
  cbv beta in H.
  destruct (HTMLParser._fill_article_with_meta_information _ _) as [[x|e] s];
    simpl in *; rewrite H; apply text_set.
Qed.

End StepFrames.

(** X15: whatever the network answers and however it ends, [parse]
    leaves the url, the id and the configuration of the parser, and the
    url and the id of its article, as they were. *)
Theorem parse_keeps_identity (net : requests.network) (self : HTMLParser.t)
    (clock : nat) :
  let self' := snd (HTMLParser.parse net self clock) in
  HTMLParser.full_url self' = HTMLParser.full_url self
  /\ HTMLParser.article_id self' = HTMLParser.article_id self
  /\ HTMLParser.config self' = HTMLParser.config self
  /\ Article.url (HTMLParser.article self') = Article.url (HTMLParser.article self)
  /\ Article.article_id (HTMLParser.article self')
     = Article.article_id (HTMLParser.article self).
Proof.
  simpl; repeat split.
  - apply (parse_stays _ HTMLParser.full_url); reflexivity.
  - apply (parse_stays _ HTMLParser.article_id); reflexivity.
  - apply (parse_stays _ HTMLParser.config); reflexivity.
  - apply (parse_stays _ (fun s => Article.url (HTMLParser.article s))); reflexivity.
  - apply (parse_stays _ (fun s => Article.article_id (HTMLParser.article s)));
      reflexivity.
Qed.

(** X16: on a page that was fetched successfully, the text of the
    article after [parse] is the concatenation, in document order and
    with nothing between them, of the texts of the elements of the body
    class, also when a later step raises; it is empty when the page has
    no such element. *)
Theorem parse_text (net : requests.network) (self : HTMLParser.t) (clock : nat)
    (response : requests.Response) :
  make_request net clock (HTMLParser.full_url self) (HTMLParser.config self)
  = Return response ->
  requests.ok response = true ->
  Article.text (HTMLParser.article (snd (HTMLParser.parse net self clock)))
  = String.concat "" (map bs4.text (Shape.body_fragments (requests.soup response)))
  /\ (Shape.body_fragments (requests.soup response) = [] ->
      Article.text (HTMLParser.article (snd (HTMLParser.parse net self clock))) = "").
Proof.
  intros Hreq Hok.
  assert (H : Article.text (HTMLParser.article (snd (HTMLParser.parse net self clock)))
              = String.concat ""
                  (map bs4.text (Shape.body_fragments (requests.soup response)))).
  { unfold HTMLParser.parse; rewrite Hreq, Hok.
    pose proof (meta_information_stays _
                  (fun s => Article.text (HTMLParser.article s))
                  (fun _ _ => eq_refl) (fun _ => eq_refl) (fun _ _ => eq_refl)
                  (fun _ _ => eq_refl) (fun _ _ => eq_refl)
                  (requests.soup response)
                  (HTMLParser._fill_article_with_text self (requests.soup response)))
      as Hm.
    cbv beta in Hm.
    destruct (HTMLParser._fill_article_with_meta_information _ _) as [[x|e] s];
      simpl in *; rewrite Hm; reflexivity. }
  split; [exact H|].
  intros Hnone; rewrite H, Hnone; reflexivity.
Qed.

Lemma parse_text_witness :
  Article.text (HTMLParser.article (snd
    (HTMLParser.parse (Samples.serving Samples.article_page_bad_date)
       (HTMLParser.__init__ Samples.article_url 1 Samples.config) 0)))
  = "Text.".
Proof.
  exact (proj1 (parse_text (Samples.serving Samples.article_page_bad_date)
                  (HTMLParser.__init__ Samples.article_url 1 Samples.config) 0
                  {| requests.ok := true;
                     requests.soup := Samples.article_page_bad_date |}
                  eq_refl eq_refl)).
Defined.

(** ** HTMLParser: the date *)

Lemma date_after_topics_and_authors (page : bs4.node) (self : HTMLParser.t) :
  Article.date (HTMLParser.article (snd
    (HTMLParser.and_then (HTMLParser.fill_topics self page)
       (fun s => HTMLParser.fill_authors s page))))
  = Article.date (HTMLParser.article self).
Proof.
  exact (topics_and_authors_stay _ (fun s => Article.date (HTMLParser.article s))
           (fun _ _ => eq_refl) (fun _ => eq_refl) (fun _ _ => eq_refl) page self).
Qed.

(** X17: on a page that was fetched successfully and has its [h1], the
    date of the article after [parse] is what it was before when the
    page has no date label (so [None] for a new parser), and also when
    the text of the label does not parse; it is the parsed date when the
    text of the first date label parses. *)
Theorem parse_date (net : requests.network) (self : HTMLParser.t) (clock : nat)
    (response : requests.Response) (h : bs4.node) :
  make_request net clock (HTMLParser.full_url self) (HTMLParser.config self)
  = Return response ->
  requests.ok response = true ->
  Spec.first_in_document (bs4.has_name "h1") (requests.soup response) h ->
  let date' :=
    Article.date (HTMLParser.article (snd (HTMLParser.parse net self clock))) in
  (Spec.none_in_document Spec.date_label (requests.soup response) ->
   date' = Article.date (HTMLParser.article self))
  /\ (forall label,
        Spec.first_in_document Spec.date_label (requests.soup response) label ->
        date' = match HTMLParser.unify_date_format (bs4.text label) with
                | Return d => Some d
                | Raise _ => Article.date (HTMLParser.article self)
                end).
Proof.
  intros Hreq Hok Hh date'; subst date'.
  apply find_first_in_document in Hh.
  unfold HTMLParser.parse; rewrite Hreq, Hok.
  set (page := requests.soup response) in *.
  set (s0 := HTMLParser._fill_article_with_text self page).
  assert (Hs0 : Article.date (HTMLParser.article s0)
                = Article.date (HTMLParser.article self)) by reflexivity.
  assert (Hsnd : forall r : outcome unit * HTMLParser.t,
             snd (match r with
                  | (Return _, s) => (Return (HTMLParser.article s), s)
                  | (Raise e, s) => (Raise e, s)
                  end) = snd r).
  { intros [[x|e] s]; reflexivity. }
  rewrite Hsnd.
  unfold HTMLParser._fill_article_with_meta_information, HTMLParser.fill_title.
  rewrite Hh; simpl; unfold HTMLParser.fill_date; fold Spec.date_label.
  split.
  - intros Hnone; apply find_none_in_document in Hnone; rewrite Hnone; simpl.
    now rewrite date_after_topics_and_authors.
  - intros label Hlabel; apply find_first_in_document in Hlabel; rewrite Hlabel.
    destruct (HTMLParser.unify_date_format (bs4.text label)) as [d|e]; simpl.
    + now rewrite date_after_topics_and_authors.
    + exact Hs0.
Qed.

Lemma parse_date_witness :
  Article.date (HTMLParser.article (snd
    (HTMLParser.parse (Samples.serving Samples.article_page_plain)
       (HTMLParser.__init__ Samples.article_url 1 Samples.config) 0)))
  = None
  /\ Article.date (HTMLParser.article (snd
       (HTMLParser.parse (Samples.serving Samples.article_page)
          (HTMLParser.__init__ Samples.article_url 1 Samples.config) 0)))
     = Some {| datetime.year := 2024; datetime.month := 3; datetime.day := 4 |}.
Proof.
  split.
  - refine (proj1 (parse_date (Samples.serving Samples.article_page_plain)
                     (HTMLParser.__init__ Samples.article_url 1 Samples.config) 0
                     {| requests.ok := true;
                        requests.soup := Samples.article_page_plain |}
                     (Samples.h1 "Title") eq_refl eq_refl _) eq_refl).
    apply find_is_first_in_document; reflexivity.
  - refine (proj2 (parse_date (Samples.serving Samples.article_page)
                     (HTMLParser.__init__ Samples.article_url 1 Samples.config) 0
                     {| requests.ok := true; requests.soup := Samples.article_page |}
                     (Samples.h1 "Title") eq_refl eq_refl _)
              (Samples.date_div "04.03.2024") _);
      apply find_is_first_in_document; reflexivity.
Defined.

(** ** HTMLParser: when [parse] returns *)

Lemma for_topics_returns (tags : list bs4.node) :
  forall self,
    fst (HTMLParser.for_topics self tags) = Return tt ->
    exists links, Spec.first_elements "a" tags links.
Proof.
  induction tags as [|tag tags IH]; intros self; simpl.
  - intros _; exists []; constructor.
  - destruct (bs4.find (bs4.has_name "a") tag) as [a|] eqn:E; [|discriminate].
    intros H; destruct (IH _ H) as (links & Hl).
    exists (a :: links); constructor;
      [now apply find_is_first_in_document | exact Hl].
Qed.

Lemma for_authors_returns (authors : list bs4.node) :
  forall self,
    fst (HTMLParser.for_authors self authors) = Return tt ->
    exists spans, Spec.first_elements "span" authors spans.
Proof.
  induction authors as [|author authors IH]; intros self; simpl.
  - intros _; exists []; constructor.
  - destruct (bs4.find (bs4.has_name "span") author) as [sp|] eqn:E; [|discriminate].
    intros H; destruct (IH _ H) as (spans & Hl).
    exists (sp :: spans); constructor;
      [now apply find_is_first_in_document | exact Hl].
Qed.

Lemma for_topics_raises (tags : list bs4.node) :
  forall self e, fst (HTMLParser.for_topics self tags) = Raise e -> e = AttributeError.
Proof.
  induction tags as [|tag tags IH]; intros self e; simpl; [discriminate|].
  destruct (bs4.find _ tag); [apply IH | simpl; intros [= <-]; reflexivity].
Qed.

Lemma for_authors_raises (authors : list bs4.node) :
  forall self e, fst (HTMLParser.for_authors self authors) = Raise e -> e = AttributeError.
Proof.
  induction authors as [|author authors IH]; intros self e; simpl; [discriminate|].
  destruct (bs4.find _ author); [apply IH | simpl; intros [= <-]; reflexivity].
Qed.

Lemma fill_topics_outcome (page : bs4.node) (self : HTMLParser.t) :
  match fst (HTMLParser.fill_topics self page) with
  | Return _ => exists links, Spec.first_elements "a" (Spec.tag_containers page) links
  | Raise e =>
      e = AttributeError
      /\ ~ exists links, Spec.first_elements "a" (Spec.tag_containers page) links
  end.
Proof.
  unfold HTMLParser.fill_topics, Spec.tag_containers.
  destruct (bs4.find_all (bs4.has_class "tags") page) as [|tag tags].
  - exists []; constructor.
  - cbv beta match zeta.
    remember (tag :: tags) as l.
    destruct (HTMLParser.for_topics self l) as [[[]|e] s'] eqn:Ef; simpl.
    + apply (for_topics_returns l self); now rewrite Ef.
    + split; [apply (for_topics_raises l self); now rewrite Ef|].
      intros (links & Hlinks); apply first_elements_found in Hlinks.
      destruct (for_topics_ok _ _ Hlinks self) as [Hok _].
      rewrite Ef in Hok; discriminate.
Qed.

Lemma fill_authors_outcome (page : bs4.node) (self : HTMLParser.t) :
  match fst (HTMLParser.fill_authors self page) with
  | Return _ =>
      exists spans, Spec.first_elements "span" (Spec.author_containers page) spans
  | Raise e =>
      e = AttributeError
      /\ ~ exists spans,
            Spec.first_elements "span" (Spec.author_containers page) spans
  end.
Proof.
  unfold HTMLParser.fill_authors, Spec.author_containers.
  set (s0 := HTMLParser.update self _).
  destruct (bs4.find_all _ page) as [|author authors].
  - exists []; constructor.
  - cbv beta match zeta.
    remember (author :: authors) as l.
    destruct (HTMLParser.for_authors s0 l) as [[[]|e] s'] eqn:Ef; simpl.
    + apply (for_authors_returns l s0); now rewrite Ef.
    + split; [apply (for_authors_raises l s0); now rewrite Ef|].
      intros (spans & Hspans); apply first_elements_found in Hspans.
      destruct (for_authors_ok _ _ Hspans s0) as [Hok _].
      rewrite Ef in Hok; discriminate.
Qed.

Lemma fill_date_outcome (page : bs4.node) (self : HTMLParser.t) :
  match fst (HTMLParser.fill_date self page) with
  | Return _ =>
      forall label, Spec.first_in_document Spec.date_label page label ->
        exists d, HTMLParser.unify_date_format (bs4.text label) = Return d
  | Raise e =>
      e = ValueError
      /\ exists label, Spec.first_in_document Spec.date_label page label
          /\ HTMLParser.unify_date_format (bs4.text label) = Raise e
  end.
Proof.
  unfold HTMLParser.fill_date; fold Spec.date_label.
  destruct (bs4.find Spec.date_label page) as [label|] eqn:El.
  - destruct (HTMLParser.unify_date_format (bs4.text label)) as [d|e] eqn:Ed; simpl.
    + intros label' Hl'; apply find_first_in_document in Hl'.
      assert (label' = label) by congruence; subst; eauto.
    + split; [exact (strptime_raises_only_ValueError _ _ Ed)|].
      exists label; split; [now apply find_is_first_in_document | exact Ed].
  - simpl; intros label Hl; apply find_first_in_document in Hl; congruence.
Qed.

Lemma meta_information_outcome (page : bs4.node) (self : HTMLParser.t) :
  match fst (HTMLParser._fill_article_with_meta_information self page) with
  | Return _ => Shape.extractable page
  | Raise e => (e = AttributeError \/ e = ValueError) /\ ~ Shape.extractable page
  end.
Proof.
  unfold HTMLParser._fill_article_with_meta_information, HTMLParser.fill_title,
    Shape.extractable, Spec.title_and_date_ok.
  destruct (bs4.find (bs4.has_name "h1") page) as [h|] eqn:Eh; simpl.
  2:{ split; [auto|].
      intros [[[h Hh] _] _]; apply find_first_in_document in Hh; congruence. }
  apply find_is_first_in_document in Eh.
  set (s1 := HTMLParser.update self _).
  pose proof (fill_date_outcome page s1) as Hd.
  destruct (HTMLParser.fill_date s1 page) as [[[]|e] s2]; simpl in *.
  2:{ destruct Hd as (-> & label & Hl & Hraise); split; [auto|].
      intros [[_ Hdate] _]; destruct (Hdate label Hl) as [d Hd']; congruence. }
  pose proof (fill_topics_outcome page s2) as Ht.
  destruct (HTMLParser.fill_topics s2 page) as [[[]|e] s3]; simpl in *.
  2:{ destruct Ht as [-> Hnot]; split; [auto | tauto]. }
  pose proof (fill_authors_outcome page s3) as Ha.
  destruct (HTMLParser.fill_authors s3 page) as [[[]|e] s4]; simpl in *.
  - repeat split; eauto.
  - destruct Ha as [-> Hnot]; split; [auto | tauto].
Qed.

(** X18: on a page that was fetched successfully and whose tree is
    [soup], [parse] returns the record exactly when the tree has an
    [h1], its first date label (if it has one) parses, each tag
    container has a link and each author container has a [span]. *)
Theorem parse_returns_iff (net : requests.network) (self : HTMLParser.t)
    (clock : nat) (response : requests.Response) :
  make_request net clock (HTMLParser.full_url self) (HTMLParser.config self)
  = Return response ->
  requests.ok response = true ->
  ((exists a, fst (HTMLParser.parse net self clock) = Return a)
   <-> Shape.extractable (requests.soup response)).
Proof.
  intros Hreq Hok; unfold HTMLParser.parse; rewrite Hreq, Hok.
  pose proof (meta_information_outcome (requests.soup response)
                (HTMLParser._fill_article_with_text self (requests.soup response)))
    as H.
  destruct (HTMLParser._fill_article_with_meta_information _ _) as [[x|e] s];
    simpl in *.
  - split; [intros _; exact H | intros _; eauto].
  - destruct H as [He Hnot].
    split; [intros [a Ha]; discriminate | tauto].
Qed.

Lemma article_page_extractable : Shape.extractable Samples.article_page.
Proof.
  split; [split|split].
  - exists (Samples.h1 "Title"); apply find_is_first_in_document; reflexivity.
  - intros label Hl; apply find_first_in_document in Hl.
    injection Hl as <-; eexists; reflexivity.
  - eexists [_; _]; repeat constructor; apply find_is_first_in_document; reflexivity.
  - eexists [_]; repeat constructor; apply find_is_first_in_document; reflexivity.
Defined.

Lemma parse_returns_iff_witness :
  exists a,
    fst (HTMLParser.parse (Samples.serving Samples.article_page)
           (HTMLParser.__init__ Samples.article_url 1 Samples.config) 0)
    = Return a.
Proof.
  exact (proj2 (parse_returns_iff (Samples.serving Samples.article_page)
                  (HTMLParser.__init__ Samples.article_url 1 Samples.config) 0
                  {| requests.ok := true; requests.soup := Samples.article_page |}
                  eq_refl eq_refl)
           article_page_extractable).
Defined.

(** ** HTMLParser: topics pile up, authors are replaced *)

(** X19: when [parse] goes through on a page, the topics of the page
    are appended to the topics the article already had, while the
    authors of the page replace the ones it had: a second [parse] of the
    same page by the same parser lists every topic twice and every
    author once. *)
Theorem parse_appends_topics (net : requests.network) (self : HTMLParser.t)
    (clock : nat) (response : requests.Response) (links spans : list bs4.node) :
  make_request net clock (HTMLParser.full_url self) (HTMLParser.config self)
  = Return response ->
  requests.ok response = true ->
  Spec.title_and_date_ok (requests.soup response) ->
  Spec.first_elements "a" (Spec.tag_containers (requests.soup response)) links ->
  Spec.first_elements "span" (Spec.author_containers (requests.soup response)) spans ->
  let self' := snd (HTMLParser.parse net self clock) in
  fst (HTMLParser.parse net self clock) = Return (HTMLParser.article self')
  /\ Article.topics (HTMLParser.article self')
     = (Article.topics (HTMLParser.article self)
        ++ Shape.topics_of (requests.soup response) links)%list
  /\ Article.author (HTMLParser.article self')
     = Shape.authors_of (requests.soup response) spans.
Proof.
  intros Hreq Hok [[h Hh1] Hdate] Hlinks Hspans self'; subst self'.
  apply find_first_in_document in Hh1.
  unfold HTMLParser.parse; rewrite Hreq, Hok.
  set (page := requests.soup response) in *.
  set (s0 := HTMLParser._fill_article_with_text self page).
  assert (Hmeta : exists s,
             Article.topics (HTMLParser.article s)
             = Article.topics (HTMLParser.article self)
             /\ HTMLParser._fill_article_with_meta_information s0 page
                = HTMLParser.and_then (HTMLParser.fill_topics s page)
                    (fun s => HTMLParser.fill_authors s page)).
  { unfold HTMLParser._fill_article_with_meta_information, HTMLParser.fill_title.
    rewrite Hh1; simpl; unfold HTMLParser.fill_date.
    fold Spec.date_label.
    destruct (bs4.find Spec.date_label page) as [label|] eqn:El.
    - destruct (Hdate label (find_is_first_in_document _ _ _ El)) as [d ->]; simpl.
      eexists; split; [|reflexivity]; reflexivity.
    - simpl; eexists; split; [|reflexivity]; reflexivity. }
  destruct Hmeta as (s & Hsame & ->).
  destruct (fill_topics_ok page links s Hlinks) as [Hf Ht].
  destruct (HTMLParser.fill_topics s page) as [[[]|e] s3]; simpl in Hf;
    [|discriminate].
  simpl in Ht |- *.
  destruct (fill_authors_ok page spans s3 Hspans) as [Hf2 Ha].
  pose proof (fill_authors_keeps_topics page s3) as Hk; cbv beta in Hk.
  destruct (HTMLParser.fill_authors s3 page) as [[[]|e] s4]; simpl in *;
    [|discriminate].
  repeat split.
  - now rewrite Hk, Ht, Hsame.
  - exact Ha.
Qed.

Lemma parse_appends_topics_witness :
  Article.topics (HTMLParser.article (snd
    (HTMLParser.parse (Samples.serving Samples.article_page) Cases.parsed_once 1)))
  = ["5G"; "Telecom"; "5G"; "Telecom"]
  /\ Article.author (HTMLParser.article (snd
       (HTMLParser.parse (Samples.serving Samples.article_page) Cases.parsed_once 1)))
     = ["Petrov"].
Proof.
  assert (Hlinks : Spec.first_elements "a" (Spec.tag_containers Samples.article_page)
                     [bs4.Tag "a" [] [("href", "/tags/x")] [bs4.NavigableString "5G"];
                      bs4.Tag "a" [] [("href", "/tags/x")] [bs4.NavigableString "Telecom"]]).
  { repeat constructor; apply find_is_first_in_document; reflexivity. }
  assert (Hspans : Spec.first_elements "span"
                     (Spec.author_containers Samples.article_page)
                     [Samples.element "span" [] [bs4.NavigableString "Ivan Petrov"]]).
  { repeat constructor; apply find_is_first_in_document; reflexivity. }
  exact (proj2 (parse_appends_topics (Samples.serving Samples.article_page)
                  Cases.parsed_once 1
                  {| requests.ok := true; requests.soup := Samples.article_page |}
                  _ _ eq_refl eq_refl (proj1 article_page_extractable)
                  Hlinks Hspans)).
Defined.

(** X20: an author entry, [text.split(' ')[-1]], never contains a space
    and is the end of the text; it is the empty string exactly when the
    text is empty or ends with a space. *)
Theorem author_entry_shape (s : string) :
  let entry := last (HTMLParser.split_space s) "" in
  Spec.no_space entry = true
  /\ (exists pre, s = pre ++ entry)
  /\ (entry = "" <-> s = "" \/ exists pre, s = pre ++ " ").
Proof.
  simpl; destruct (last_of_split_space s) as [Hno Hcut].
  split; [exact Hno|]. split.
  - destruct Hcut as [H|(pre & H)].
    + exists ""; exact H.
    + exists (pre ++ " "); rewrite string_app_assoc; exact H.
  - split.
    + intros He; rewrite He in Hcut.
      destruct Hcut as [H|(pre & H)]; [left; exact H | right; eauto].
    + rewrite last_of_split_space_is_after_last_space.
      intros [-> | (pre & ->)]; [reflexivity|].
      now apply after_last_space_cut.
Qed.

Lemma author_entry_shape_witness :
  last (HTMLParser.split_space "Ivan Petrov ") "" = "".
Proof.
  apply (proj2 (proj2 (proj2 (author_entry_shape "Ivan Petrov ")))).
  right; exists "Ivan Petrov"; reflexivity.
Defined.

(** ** unify_date_format: every date of the calendar is read back *)

Lemma digit_chr (k : Z) :
  0 <= k <= 9 -> datetime.digit (Shape.chr k) = Some k.
Proof.
  intros Hk.
  assert (H : k = 0 \/ k = 1 \/ k = 2 \/ k = 3 \/ k = 4 \/ k = 5 \/ k = 6
              \/ k = 7 \/ k = 8 \/ k = 9) by lia.
  repeat (destruct H as [->|H]; [reflexivity|]); subst; reflexivity.
Qed.

(** A digit from [0] to [9] is a decimal digit, of the same value. *)
Lemma decimal_digit_0_9 (b : ascii) (y : Z) (rest : string) :
  datetime.digit b = Some y -> datetime.decimal (String b rest) = [(y, rest)].
Proof.
  unfold datetime.digit, datetime.decimal, datetime.read_code_point,
    datetime.decimal_value; fold (datetime.byte b).
  destruct (Z.leb_spec 48 (datetime.byte b)) as [H1|]; [|discriminate].
  destruct (Z.leb_spec (datetime.byte b) 57) as [H2|]; [|discriminate].
  cbn [andb]; intros [= <-]; cbv zeta.
  destruct (Z.ltb_spec (datetime.byte b) 128); [|lia].
  unfold datetime.decimal_zeros; cbn [find].
  destruct (Z.leb_spec 48 (datetime.byte b)); [|lia].
  destruct (Z.leb_spec (datetime.byte b) (48 + 9)); [|lia].
  reflexivity.
Qed.

Lemma re_d_two_digits (a b : ascii) (x y : Z) (rest : string) :
  datetime.digit a = Some x -> datetime.digit b = Some y ->
  1 <= 10 * x + y <= 31 ->
  exists tl, datetime.re_d (String a (String b rest)) = (10 * x + y, rest) :: tl.
Proof.
  intros Ha Hb Hv.
  pose proof (digit_range _ _ Ha); pose proof (digit_range _ _ Hb).
  unfold datetime.re_d, datetime.digit_then_decimal, datetime.two_digits,
    datetime.one_digit; rewrite Ha, Hb.
  destruct ((x =? 3) && (y <=? 1)) eqn:E1; [eexists; reflexivity|].
  destruct ((1 <=? x) && (x <=? 2)) eqn:E2.
  { cbn [flat_map snd fst app]; rewrite (decimal_digit_0_9 _ _ _ Hb).
    eexists; reflexivity. }
  cbn [flat_map app].
  destruct ((x =? 0) && (1 <=? y)) eqn:E3; [eexists; reflexivity|].
  exfalso.
  apply andb_false_iff in E1, E2, E3.
  rewrite Z.eqb_neq, !Z.leb_gt in *.
  lia.
Qed.

Lemma re_m_two_digits (a b : ascii) (x y : Z) (rest : string) :
  datetime.digit a = Some x -> datetime.digit b = Some y ->
  1 <= 10 * x + y <= 12 ->
  exists tl, datetime.re_m (String a (String b rest)) = (10 * x + y, rest) :: tl.
Proof.
  intros Ha Hb Hv.
  pose proof (digit_range _ _ Ha); pose proof (digit_range _ _ Hb).
  unfold datetime.re_m, datetime.two_digits; rewrite Ha, Hb.
  destruct ((x =? 1) && (y <=? 2)) eqn:E1; [eexists; reflexivity|].
  destruct ((x =? 0) && (1 <=? y)) eqn:E2; [eexists; reflexivity|].
  exfalso.
  apply andb_false_iff in E1, E2.
  rewrite !Z.eqb_neq, !Z.leb_gt in *.
  lia.
Qed.

(** X22: every date of the calendar, from the year 1 to the year 9999,
    written as [dd.mm.yyyy] with leading zeros, is read back by
    [unify_date_format] as that very date. *)
Theorem unify_date_format_reads_back (dt : datetime.t) :
  Shape.calendar_date dt ->
  HTMLParser.unify_date_format (Shape.dd_mm_yyyy dt) = Return dt.
Proof.
  destruct dt as [y m d]; unfold Shape.calendar_date; simpl.
  intros (Hy & Hm & Hd).
  assert (Hd31 : d <= 31).
  { unfold datetime.days_in_month in Hd.
    destruct (m =? 2); [destruct (datetime.is_leap y); lia|].
    destruct ((m =? 4) || (m =? 6) || (m =? 9) || (m =? 11)); lia. }
  unfold HTMLParser.unify_date_format, datetime.strptime_dmY, Shape.dd_mm_yyyy,
    Shape.two_digits_text, Shape.four_digits_text; simpl datetime.day;
    simpl datetime.month; simpl datetime.year.
  assert (Hdx : datetime.digit (Shape.chr (d / 10)) = Some (d / 10))
    by (apply digit_chr; split;
        [apply Z.div_pos; lia | apply Z.lt_succ_r, Z.div_lt_upper_bound; lia]).
  assert (Hdy : datetime.digit (Shape.chr (d mod 10)) = Some (d mod 10))
    by (apply digit_chr; pose proof (Z.mod_pos_bound d 10); lia).
  assert (Hmx : datetime.digit (Shape.chr (m / 10)) = Some (m / 10))
    by (apply digit_chr; split;
        [apply Z.div_pos; lia | apply Z.lt_succ_r, Z.div_lt_upper_bound; lia]).
  assert (Hmy : datetime.digit (Shape.chr (m mod 10)) = Some (m mod 10))
    by (apply digit_chr; pose proof (Z.mod_pos_bound m 10); lia).
  assert (Hy1 : datetime.digit (Shape.chr (y / 1000)) = Some (y / 1000))
    by (apply digit_chr; split;
        [apply Z.div_pos; lia | apply Z.lt_succ_r, Z.div_lt_upper_bound; lia]).
  assert (Hy2 : datetime.digit (Shape.chr (y / 100 mod 10)) = Some (y / 100 mod 10))
    by (apply digit_chr; pose proof (Z.mod_pos_bound (y / 100) 10); lia).
  assert (Hy3 : datetime.digit (Shape.chr (y / 10 mod 10)) = Some (y / 10 mod 10))
    by (apply digit_chr; pose proof (Z.mod_pos_bound (y / 10) 10); lia).
  assert (Hy4 : datetime.digit (Shape.chr (y mod 10)) = Some (y mod 10))
    by (apply digit_chr; pose proof (Z.mod_pos_bound y 10); lia).
  assert (Ed : 10 * (d / 10) + d mod 10 = d) by (symmetry; apply Z.div_mod; lia).
  assert (Em : 10 * (m / 10) + m mod 10 = m) by (symmetry; apply Z.div_mod; lia).
  assert (Ey : 1000 * (y / 1000) + 100 * (y / 100 mod 10) + 10 * (y / 10 mod 10)
               + y mod 10 = y).
  { pose proof (Z.div_mod y 10 ltac:(lia)).
    pose proof (Z.div_mod (y / 10) 10 ltac:(lia)).
    pose proof (Z.div_mod (y / 100) 10 ltac:(lia)).
    assert (y / 10 / 10 = y / 100) by (rewrite Z.div_div by lia; reflexivity).
    assert (y / 100 / 10 = y / 1000) by (rewrite Z.div_div by lia; reflexivity).
    lia. }
  unfold datetime.re_dmY.
  cbn [String.append].
  destruct (re_d_two_digits _ _ _ _
              (String "." (String (Shape.chr (m / 10)) (String (Shape.chr (m mod 10))
                 (String "." (String (Shape.chr (y / 1000))
                    (String (Shape.chr (y / 100 mod 10))
                       (String (Shape.chr (y / 10 mod 10))
                          (String (Shape.chr (y mod 10)) ""))))))))
              Hdx Hdy ltac:(lia)) as (tld & ->).
  cbn [flat_map fst snd datetime.literal Ascii.eqb Bool.eqb app].
  destruct (re_m_two_digits _ _ _ _
              (String "." (String (Shape.chr (y / 1000))
                 (String (Shape.chr (y / 100 mod 10))
                    (String (Shape.chr (y / 10 mod 10))
                       (String (Shape.chr (y mod 10)) "")))))
              Hmx Hmy ltac:(lia)) as (tlm & ->).
  cbn [flat_map fst snd datetime.literal Ascii.eqb Bool.eqb app].
  unfold datetime.re_Y.
  rewrite (decimal_digit_0_9 _ _ _ Hy1); cbn [flat_map fst snd app].
  rewrite (decimal_digit_0_9 _ _ _ Hy2); cbn [flat_map fst snd app].
  rewrite (decimal_digit_0_9 _ _ _ Hy3); cbn [flat_map fst snd app].
  rewrite (decimal_digit_0_9 _ _ _ Hy4); cbn [map fst snd app].
  rewrite Ed, Em, Ey.
  cbn [String.eqb negb].
  destruct (Z.leb_spec 1 y); [|lia].
  destruct (Z.leb_spec d (datetime.days_in_month y m)); [|lia].
  reflexivity.
Qed.

Lemma unify_date_format_reads_back_witness :
  HTMLParser.unify_date_format "29.02.2024"
  = Return {| datetime.year := 2024; datetime.month := 2; datetime.day := 29 |}.
Proof.
  refine (unify_date_format_reads_back
            {| datetime.year := 2024; datetime.month := 2; datetime.day := 29 |} _).
  repeat split; vm_compute; discriminate.
Defined.

(** ** prepare_environment *)

Lemma remove_filter (name : string) (names : list string)
    (entries : list (string * os.kind)) :
  filter (fun entry => negb (existsb (String.eqb (fst entry)) names))
    (os.remove name entries)
  = filter (fun entry => negb (existsb (String.eqb (fst entry)) (name :: names)))
      entries.
Proof.
  unfold os.remove.
  induction entries as [|e entries IHe]; simpl; [reflexivity|].
  destruct (String.eqb (fst e) name); simpl; [exact IHe|].
  destruct (existsb _ _); simpl; [exact IHe | now rewrite IHe].
Qed.

Lemma filter_no_names (entries : list (string * os.kind)) :
  filter (fun entry => negb (existsb (String.eqb (fst entry)) [])) entries
  = entries.
Proof.
  induction entries as [|e entries IHe]; simpl in *;
    [reflexivity | now rewrite IHe].
Qed.

Lemma is_file_not_dir (entries : list (string * os.kind)) :
  forallb os.is_file entries = true ->
  forallb (fun entry => negb (os.is_dir entry)) entries = true.
Proof.
  induction entries as [|[name k] entries IH]; simpl; [reflexivity|].
  intros H; apply andb_prop in H as [Hk Hrest].
  rewrite (IH Hrest); destruct k; try discriminate; reflexivity.
Qed.

Lemma unlink_each_files (todo : list (string * os.kind)) :
  forallb (fun entry => negb (os.is_dir entry)) todo = true ->
  forall entries,
    os.unlink_each todo entries
    = (os.Done,
       filter (fun entry => negb (existsb (String.eqb (fst entry)) (map fst todo)))
         entries).
Proof.
  induction todo as [|[name k] todo IH]; intros Hall entries.
  - cbn [os.unlink_each map]; now rewrite filter_no_names.
  - simpl in Hall; apply andb_prop in Hall as [Hk Hrest].
    destruct k; try discriminate; cbn [os.unlink_each map fst];
      rewrite (IH Hrest), remove_filter; reflexivity.
Qed.

Lemma unlink_each_stops (files : list (string * os.kind)) (name : string)
    (rest : list (string * os.kind)) :
  forallb (fun entry => negb (os.is_dir entry)) files = true ->
  forall entries,
    os.unlink_each (files ++ (name, os.Directory) :: rest) entries
    = (os.OSError,
       filter (fun entry => negb (existsb (String.eqb (fst entry)) (map fst files)))
         entries).
Proof.
  induction files as [|[n k] files IH]; intros Hall entries.
  - cbn [os.unlink_each map app]; now rewrite filter_no_names.
  - simpl in Hall; apply andb_prop in Hall as [Hk Hrest].
    destruct k; try discriminate; cbn [os.unlink_each map fst app];
      rewrite (IH Hrest), remove_filter; reflexivity.
Qed.

Lemma unlink_each_done (todo : list (string * os.kind)) :
  forall entries remaining,
    os.unlink_each todo entries = (os.Done, remaining) ->
    forallb (fun entry => negb (os.is_dir entry)) todo = true.
Proof.
  induction todo as [|[name k] todo IH]; intros entries remaining; simpl;
    [reflexivity|].
  destruct k; try discriminate; apply IH.
Qed.

Lemma filter_own_names (entries : list (string * os.kind)) :
  filter (fun entry => negb (existsb (String.eqb (fst entry)) (map fst entries)))
    entries = [].
Proof.
  assert (H : forall names,
             (forall e, In e entries -> In (fst e) names) ->
             filter (fun entry => negb (existsb (String.eqb (fst entry)) names))
               entries = []).
  { intros names; induction entries as [|e entries IH]; intros Hin; simpl;
      [reflexivity|].
    assert (He : existsb (String.eqb (fst e)) names = true).
    { apply existsb_exists; exists (fst e); split;
        [apply Hin; left; reflexivity | apply String.eqb_refl]. }
    rewrite He; simpl; apply IH; intros e' He'; apply Hin; right; exact He'. }
  apply H; intros e He; apply in_map; exact He.
Qed.

(** X23: [prepare_environment] returns normally exactly when the path
    does not exist and can be made, or is a directory none of whose
    entries is a directory (regular files, symbolic links and the like
    are all unlinked); and whenever it returns normally, the path is
    afterwards a directory that exists and is empty. *)
Theorem prepare_environment_done (base_path after : os.path_state) :
  prepare_environment base_path = (os.Done, after) <->
  (base_path = os.Missing true
   \/ exists entries, base_path = os.IsDir entries
                      /\ forallb (fun entry => negb (os.is_dir entry)) entries
                         = true)
  /\ after = os.IsDir [].
Proof.
  split.
  - destruct base_path as [[|]| |entries]; simpl; try discriminate.
    + intros [= <-]; auto.
    + destruct (os.unlink_each entries entries) as [st remaining] eqn:E.
      intros [= -> <-].
      pose proof (unlink_each_done _ _ _ E) as Hall.
      rewrite (unlink_each_files _ Hall), filter_own_names in E.
      injection E as <-; split; [right; eauto | reflexivity].
  - intros [[-> | (entries & -> & Hall)] ->]; simpl; [reflexivity|].
    now rewrite (unlink_each_files _ Hall), filter_own_names.
Qed.

Lemma prepare_environment_done_witness :
  prepare_environment Cases.directory_with_link = (os.Done, os.IsDir []).
Proof.
  apply (proj2 (prepare_environment_done _ _)).
  split; [right; eexists; split; reflexivity | reflexivity].
Defined.

Lemma filter_keeps_others (files tail : list (string * os.kind)) :
  NoDup (map fst (files ++ tail)) ->
  filter (fun entry => negb (existsb (String.eqb (fst entry)) (map fst files)))
    (files ++ tail) = tail.
Proof.
  intros Hnd; rewrite filter_app, filter_own_names; simpl.
  rewrite map_app in Hnd.
  assert (Hdisj : forall e, In e tail -> ~ In (fst e) (map fst files)).
  { intros e He Hin.
    revert Hnd Hin; generalize (map fst files) as names; intros names.
    induction names as [|n names IH]; simpl; [tauto|].
    intros Hnd [-> | Hin].
    - inversion Hnd as [|? ? Hnot _]; subst.
      apply Hnot, in_or_app; right; apply in_map; exact He.
    - inversion Hnd; subst; now apply IH. }
  clear Hnd; induction tail as [|e tail IH]; simpl; [reflexivity|].
  assert (He : existsb (String.eqb (fst e)) (map fst files) = false).
  { destruct (existsb _ _) eqn:E; [|reflexivity].
    apply existsb_exists in E as (n & Hn & Heq).
    apply String.eqb_eq in Heq; subst n.
    exfalso; apply (Hdisj e); [left; reflexivity | exact Hn]. }
  rewrite He; simpl; f_equal; apply IH.
  intros e' He'; apply Hdisj; right; exact He'.
Qed.

(** X24: on a directory that holds a sub-directory, [prepare_environment]
    raises at the first sub-directory of the listing: the regular files
    listed before it have been removed, and it and everything listed
    after it, regular files included, are still there. *)
Theorem prepare_environment_stops_at_directory
    (files : list (string * os.kind)) (name : string) (rest : list (string * os.kind)) :
  NoDup (map fst (files ++ (name, os.Directory) :: rest)) ->
  forallb os.is_file files = true ->
  prepare_environment (os.IsDir (files ++ (name, os.Directory) :: rest))
  = (os.OSError, os.IsDir ((name, os.Directory) :: rest)).
Proof.
  intros Hnd Hall; simpl.
  rewrite (unlink_each_stops _ _ _ (is_file_not_dir _ Hall)),
    (filter_keeps_others _ _ Hnd).
  reflexivity.
Qed.

Lemma prepare_environment_stops_at_directory_witness :
  prepare_environment Cases.directory_with_folder
  = (os.OSError, os.IsDir [("old", os.Directory); ("2_raw.txt", os.RegularFile)]).
Proof.
  refine (prepare_environment_stops_at_directory
            [("1_raw.txt", os.RegularFile); ("1_meta.json", os.RegularFile)]
            "old" [("2_raw.txt", os.RegularFile)] _ eq_refl).
  repeat constructor; simpl; intuition discriminate.
Defined.

(** ** main *)

Lemma ids_cons (i : Z) (n : nat) : Shape.ids i (S n) = i :: Shape.ids (i + 1) n.
Proof.
  unfold Shape.ids; simpl; f_equal; [lia|].
  rewrite <- seq_shift, map_map.
  apply map_ext; intros j; lia.
Qed.

Lemma parse_returns_record (net : requests.network) (url : string) (i : Z)
    (conf : Config.t) (clock : nat) (article : Article.t) :
  fst (HTMLParser.parse net (HTMLParser.__init__ url i conf) clock) = Return article ->
  Article.url article = url /\ Article.article_id article = i.
Proof.
  intros H; rewrite (parse_returns_its_article _ _ _ _ H); split.
  - now rewrite (parse_stays _ (fun s => Article.url (HTMLParser.article s))).
  - now rewrite (parse_stays _ (fun s => Article.article_id (HTMLParser.article s))).
Qed.

Lemma for_urls_invariant (net : requests.network) (conf : Config.t)
    (urls : list (option string)) :
  forall (i : Z) (w : Main.world) (r : option Main.failure) (w' : Main.world),
    Main.for_urls net conf i urls w = (r, w') ->
    exists new,
      Main.saved w' = (Main.saved w ++ new)%list
      /\ map (fun a => Some (Article.url a)) new = firstn (List.length new) urls
      /\ map Article.article_id new = Shape.ids i (List.length new)
      /\ (r = None -> List.length new = List.length urls).
Proof.
  induction urls as [|[url|] urls IH]; intros i w r w'; simpl.
  - intros [= <- <-]; exists []; simpl; rewrite app_nil_r; auto.
  - destruct (HTMLParser.parse net (HTMLParser.__init__ url i conf)
                (Main.requests_made w)) as [[article|e] p] eqn:E.
    + assert (Hrec : Article.url article = url /\ Article.article_id article = i).
      { apply (parse_returns_record net url i conf (Main.requests_made w)).
        now rewrite E. }
      destruct Hrec as [Hu Hi].
      intros H; apply IH in H as (new & Hs & Hurls & Hids & Hlen).
      exists (article :: new); simpl in *.
      rewrite Hs, <- app_assoc, Hurls, Hids, Hu, Hi, ids_cons.
      repeat split; auto.
    + intros [= <- <-]; exists []; simpl; rewrite app_nil_r.
      repeat split; auto; discriminate.
  - intros [= <- <-]; exists []; simpl; rewrite app_nil_r.
    repeat split; auto; discriminate.
Qed.




(** X26: however [main] ends, the records it has handed over are
    numbered 1, 2, 3, ... and are no more than the configured number of
    articles; when it returns normally they are exactly that many.  And
    unless the configuration document is of the expected shape, it hands
    over nothing and leaves the assets directory alone. *)
Theorem main_records (fuel : nat) (net : requests.network) (document : json)
    (w : Main.world) (r : option Main.failure) (w' : Main.world) :
  Main.main fuel net document w = Some (r, w') ->
  exists new,
    Main.saved w' = (Main.saved w ++ new)%list
    /\ map Article.article_id new = Shape.ids 1 (List.length new)
    /\ (forall conf, Config.__init__ document = Return conf ->
          len new <= Config.get_num_articles conf
          /\ (r = None -> len new = Config.get_num_articles conf))
    /\ (~ Shape.well_formed document ->
        new = [] /\ Main.assets w' = Main.assets w).
Proof.
  unfold Main.main.
  destruct (Config.__init__ document) as [conf|e] eqn:Ec.
  2:{ intros [= <- <-]; exists []; rewrite app_nil_r.
      split; [reflexivity|]. split; [reflexivity|]. split.
      - intros conf' Hc; discriminate.
      - intros _; split; reflexivity. }
  assert (Hwf : Shape.well_formed document).
  { apply validation_passes_well_formed.
    unfold Config.__init__ in Ec.
    destruct (Config._validate_config_content document) as [[]|e'];
      [reflexivity | discriminate]. }
  pose proof (built_config_invariant _ _ Ec) as [Hn _].
  destruct (Crawler.find_articles fuel net (Crawler.__init__ conf)
              (Main.requests_made w)) as [[[[[]|e] crawler] clock]|] eqn:Ef;
    [| |discriminate].
  2:{ intros [= <- <-]; exists []; simpl; rewrite app_nil_r.
      split; [reflexivity|]. split; [reflexivity|]. split.
      - intros conf' [= <-]; split; [unfold len; simpl; lia | discriminate].
      - intros Hnot; tauto. }
  assert (Hlen : len (Crawler.urls crawler) = Config.get_num_articles conf).
  { assert (H0 : 0 <= Config.get_num_articles conf) by lia.
    pose proof (find_articles_length_bound _ _ _ _ _ _ _ H0 Ef).
    unfold Crawler.find_articles in Ef.
    pose proof (while_loop_returns_full _ _ _ _ _ _ _ _ _ Ef).
    simpl in *; lia. }
  destruct (prepare_environment (Main.assets w)) as [[|] remaining].
  - intros H; injection H as H.
    apply for_urls_invariant in H as (new & Hs & Hurls & Hids & Hall).
    exists new; simpl in Hs.
    split; [exact Hs|]. split; [exact Hids|]. split.
    + intros conf' [= <-].
      assert (Hl : (List.length new <= List.length (Crawler.urls crawler))%nat).
      { rewrite <- (length_map (fun a => Some (Article.url a))), Hurls.
        rewrite length_firstn; lia. }
      unfold len in *; split; [lia|].
      intros Hr; rewrite (Hall Hr); exact Hlen.
    + intros Hnot; tauto.
  - intros [= <- <-]; exists []; simpl; rewrite app_nil_r.
    split; [reflexivity|]. split; [reflexivity|]. split.
    + intros conf' [= <-]; split; [unfold len; simpl; lia | discriminate].
    + intros Hnot; tauto.
Qed.

Lemma main_records_witness :
  exists w' new,
    Main.main 1 Cases.site Cases.good_document Cases.nothing_yet = Some (None, w')
    /\ Main.saved w' = ([] ++ new)%list
    /\ len new = 2.
Proof.
  eexists.
  destruct (main_records 1 Cases.site Cases.good_document Cases.nothing_yet
              None _ eq_refl) as (new & Hs & _ & Hn & _).
  exists new; split; [reflexivity|]. split; [exact Hs|].
  exact (proj2 (Hn Samples.config eq_refl) eq_refl).
Defined.
